(** * genmaps-ai: the survey-to-map pipeline

    A shallow embedding of the Python sources

      - [core/knowledge_base.py]   (KnowledgeBase lookups),
      - [core/survey_manager.py]   (SurveyManager: ids, descriptions, inference),
      - [utils/survey_processor.py] (SurveyProcessor: units, boundaries, faults),
      - [utils/map_generator.py]   (MapGenerator: the rendering driver),
      - [utils/online_learner.py]  (OnlineLearner: additions to the datasets),
      - [app.py]                   (the [--generate-map] command),

    together with the properties the specification states about them and
    further properties of the code: lookups and searches, persistence of
    the store, the path from a stored survey to a saved map.

    Conventions of the embedding.
      - A Python [dict] with a fixed set of keys is a record; a key the code
        reads with [d["k"]] and that the data may lack is an [option] field,
        and reading it when absent raises [KeyError "k"].
      - Code that can raise returns a [result]; the first exception raised
        wins, following Python's left-to-right evaluation.
      - Numbers (latitude, longitude, elevation) are exact rationals [Q]:
        the arithmetic of the source is read over the rationals, without
        the rounding of binary64.
      - [str] is ASCII text: [str.lower] folds the letters [A]-[Z]. *)

From Stdlib Require Import List String Ascii Bool Arith ZArith Lia.
From Stdlib Require Import QArith Qabs Qminmax Lqa.
From Stdlib Require Import DecimalString DecimalNat FinFun.
Import ListNotations.

Open Scope string_scope.
Open Scope Q_scope.

(* ===================================================================== *)
(** * Python primitives *)
(* ===================================================================== *)

(** The exceptions the modelled code can raise. *)
Inductive exn : Type :=
| KeyError (key : string)
| IndexError
| ValueError
| LibraryError (what : string).

Inductive result (A : Type) : Type :=
| Ok (a : A)
| Raise (e : exn).

Arguments Ok {A} a.
Arguments Raise {A} e.

Definition bind {A B : Type} (m : result A) (k : A -> result B) : result B :=
  match m with
  | Ok a => k a
  | Raise e => Raise e
  end.

Notation "x <- m ;; k" := (bind m (fun x => k))
  (at level 61, m at next level, right associativity).

Definition is_ok {A : Type} (m : result A) : bool :=
  match m with Ok _ => true | Raise _ => false end.

(** [for x in xs: out.append(f(x))] with a body that may raise. *)
Fixpoint for_each {A B : Type} (f : A -> result B) (xs : list A)
  : result (list B) :=
  match xs with
  | [] => Ok []
  | x :: xs' =>
      y <- f x ;;
      ys <- for_each f xs' ;;
      Ok (y :: ys)
  end.

(** [d["k"]] on a key that may be absent. *)
Definition getitem {A : Type} (key : string) (field : option A) : result A :=
  match field with
  | Some v => Ok v
  | None => Raise (KeyError key)
  end.

(** [d.get("k", default)]. *)
Definition get_default {A : Type} (field : option A) (default : A) : A :=
  match field with
  | Some v => v
  | None => default
  end.

(** [l[i]] for a non-negative index. *)
Definition index {A : Type} (l : list A) (i : nat) : result A :=
  match nth_error l i with
  | Some x => Ok x
  | None => Raise IndexError
  end.

(** [l[-1]]. *)
Definition index_last {A : Type} (l : list A) : result A :=
  match l with
  | [] => Raise IndexError
  | _ :: _ => index l (List.length l - 1)
  end.

(** [range(n)]. *)
Definition range (n : nat) : list nat := seq 0 n.

(** ** Strings *)

Definition lower_ascii (c : ascii) : ascii :=
  let n := nat_of_ascii c in
  if ((65 <=? n) && (n <=? 90))%nat then ascii_of_nat (n + 32) else c.

(** [s.lower()]. *)
Fixpoint lower (s : string) : string :=
  match s with
  | EmptyString => EmptyString
  | String c s' => String (lower_ascii c) (lower s')
  end.

(** [sub in s]: [sub] occurs in [s] as a contiguous substring. *)
Fixpoint contains (sub s : string) : bool :=
  prefix sub s ||
  match s with
  | EmptyString => false
  | String _ s' => contains sub s'
  end.

(** ** Numbers *)

(** [x > y] on numbers. *)
Definition Qgtb (x y : Q) : bool := negb (Qle_bool x y).

(** [max(xs)]: the first largest element; [ValueError] on an empty list. *)
Definition py_max (xs : list Q) : result Q :=
  match xs with
  | [] => Raise ValueError
  | x :: xs' => Ok (fold_left (fun m y => if Qgtb y m then y else m) xs' x)
  end.

(** [min(xs)]: the first smallest element; [ValueError] on an empty list. *)
Definition py_min (xs : list Q) : result Q :=
  match xs with
  | [] => Raise ValueError
  | x :: xs' => Ok (fold_left (fun m y => if Qgtb m y then y else m) xs' x)
  end.

(** [xs.index(v)]: the lowest position holding a value equal to [v]. *)
Fixpoint py_index (xs : list Q) (v : Q) : result nat :=
  match xs with
  | [] => Raise ValueError
  | x :: xs' =>
      if Qeq_bool x v then Ok 0%nat
      else i <- py_index xs' v ;; Ok (S i)
  end.

(** [numpy.linspace(start, stop, num)] with the default [endpoint=True]:
    [num] samples [i * step + start] with [step = (stop - start) / (num - 1)],
    the last of which is then overwritten with [stop] itself. *)
Definition linspace (start stop : Q) (num : nat) : list Q :=
  let div := (num - 1)%nat in
  let delta := stop - start in
  let step := delta / inject_Z (Z.of_nat div) in
  let y := map (fun i => inject_Z (Z.of_nat i) * step + start) (range num) in
  if (1 <? num)%nat then removelast y ++ [stop] else y.

(* ===================================================================== *)
(** * core/knowledge_base.py *)
(* ===================================================================== *)

(** A mineral or rock record of the dataset: [{"name": ..., ...}]. *)
Record Entry : Type := {
  name : string;
  properties : list (string * string)
}.

(** The loaded datasets: [self.minerals.get("minerals", [])] and
    [self.rocks.get("rocks", [])]. *)
Record KnowledgeBase : Type := {
  minerals : list Entry;
  rocks : list Entry
}.

(** The loop [for x in xs: if x["name"].lower() == name.lower(): return x]. *)
Fixpoint scan_by_name (xs : list Entry) (nm : string) : option Entry :=
  match xs with
  | [] => None
  | x :: xs' =>
      if String.eqb (lower (name x)) (lower nm) then Some x
      else scan_by_name xs' nm
  end.

Definition get_mineral (kb : KnowledgeBase) (nm : string) : option Entry :=
  scan_by_name (minerals kb) nm.

Definition get_rock (kb : KnowledgeBase) (nm : string) : option Entry :=
  scan_by_name (rocks kb) nm.

(** [add_mineral] and [add_rock] append to the list under the key
    ["minerals"], or ["rocks"], of a document that has the key, and write
    the document back. *)
Definition add_mineral (kb : KnowledgeBase) (mineral_data : Entry)
  : KnowledgeBase :=
  {| minerals := minerals kb ++ [mineral_data]; rocks := rocks kb |}.

Definition add_rock (kb : KnowledgeBase) (rock_data : Entry)
  : KnowledgeBase :=
  {| minerals := minerals kb; rocks := rocks kb ++ [rock_data] |}.

(* ===================================================================== *)
(** * core/survey_manager.py: type inference *)
(* ===================================================================== *)

(** [infer_type_from_description]: the [if]/[elif] chain over the
    lower-cased text. *)
Definition infer_type_from_description (description : string)
  : option string :=
  let description := lower description in
  if contains "granite" description
     || (contains "coarse" description && contains "feldspar" description)
  then Some "Granite"
  else if contains "basalt" description
     || (contains "fine" description && contains "volcanic" description)
  then Some "Basalt"
  else if contains "quartz" description && contains "clear" description
  then Some "Quartz"
  else if contains "limestone" description
     || (contains "reacts" description && contains "acid" description)
  then Some "Limestone"
  else None.



(* ===================================================================== *)
(** * utils/survey_processor.py *)
(* ===================================================================== *)

(** A surveyed point [{"lat": ..., "lon": ..., "elevation": ...}]. *)
Record Coordinate : Type := {
  lat : option Q;
  lon : option Q;
  elevation : option Q
}.

(** An input unit [{"type": ..., "coordinates": [...], "description": ...}]. *)
Record Unit : Type := {
  unit_type : option string;
  unit_coordinates : option (list Coordinate);
  unit_description : option string
}.

(** The dictionary handed to [process_survey_data]. *)
Record SurveyData : Type := {
  sd_coordinates : option (list Coordinate);
  sd_units : option (list Unit)
}.

(** [{"classification": ..., "data": ...}]. *)
Record Details : Type := {
  classification : string;
  data : Entry
}.

Record GeologicalUnit : Type := {
  gu_type : string;
  gu_coordinates : list Coordinate;
  gu_properties : Details;
  gu_description : string
}.

Record Boundary : Type := {
  boundary_type : string;
  between : list string;
  boundary_coordinates : list Coordinate
}.

Record StructuralFeature : Type := {
  feature_type : string;
  feature_coordinates : list Coordinate;
  displacement : Q
}.

Record ProcessedMap : Type := {
  units : list GeologicalUnit;
  boundaries : list Boundary;
  structural_features : list StructuralFeature;
  coordinates : list Coordinate
}.

(** [point.get("elevation", 0)]. *)
Definition elevation_or_0 (point : Coordinate) : Q :=
  get_default (elevation point) 0.

Section SurveyProcessor.

(** [self.knowledge_base]. *)
Variable knowledge_base : KnowledgeBase.

(** A record found in the dataset is a non-empty dictionary, so the tests
    [if rock:] and [if mineral:] succeed exactly when the lookup did. *)
Definition _get_unit_details (unit_type : string) : Details :=
  match get_rock knowledge_base unit_type with
  | Some rock => {| classification := "rock"; data := rock |}
  | None =>
      match get_mineral knowledge_base unit_type with
      | Some mineral => {| classification := "mineral"; data := mineral |}
      | None =>
          {| classification := "unknown";
             data := {| name := unit_type; properties := [] |} |}
      end
  end.

Definition _identify_units (survey_data : SurveyData)
  : result (list GeologicalUnit) :=
  for_each
    (fun unit =>
       ty <- getitem "type" (unit_type unit) ;;
       let detailed_info := _get_unit_details ty in
       ty' <- getitem "type" (unit_type unit) ;;
       coords <- getitem "coordinates" (unit_coordinates unit) ;;
       Ok {| gu_type := ty';
             gu_coordinates := coords;
             gu_properties := detailed_info;
             gu_description := get_default (unit_description unit) "" |})
    (get_default (sd_units survey_data) []).

Definition _interpolate_points (point1 point2 : Coordinate) (n_points : nat)
  : result (list Coordinate) :=
  lat1 <- getitem "lat" (lat point1) ;;
  lat2 <- getitem "lat" (lat point2) ;;
  let lats := linspace lat1 lat2 n_points in
  lon1 <- getitem "lon" (lon point1) ;;
  lon2 <- getitem "lon" (lon point2) ;;
  let lons := linspace lon1 lon2 n_points in
  let elev :=
    linspace (elevation_or_0 point1) (elevation_or_0 point2) n_points in
  for_each
    (fun i =>
       la <- index lats i ;;
       lo <- index lons i ;;
       el <- index elev i ;;
       Ok {| lat := Some la; lon := Some lo; elevation := Some el |})
    (range n_points).

Definition _identify_boundaries (survey_data : SurveyData)
  : result (list Boundary) :=
  let units := get_default (sd_units survey_data) [] in
  if (1 <? List.length units)%nat then
    for_each
      (fun i =>
         u1 <- index units i ;;
         t1 <- getitem "type" (unit_type u1) ;;
         u2 <- index units (i + 1) ;;
         t2 <- getitem "type" (unit_type u2) ;;
         u1' <- index units i ;;
         c1 <- getitem "coordinates" (unit_coordinates u1') ;;
         p1 <- index_last c1 ;;
         u2' <- index units (i + 1) ;;
         c2 <- getitem "coordinates" (unit_coordinates u2') ;;
         p2 <- index c2 0 ;;
         path <- _interpolate_points p1 p2 5 ;;
         Ok {| boundary_type := "contact";
               between := [t1; t2];
               boundary_coordinates := path |})
      (range (List.length units - 1))
  else Ok [].

Definition _identify_structural_features (survey_data : SurveyData)
  : result (list StructuralFeature) :=
  let coordinates := get_default (sd_coordinates survey_data) [] in
  if (1 <? List.length coordinates)%nat then
    elev_changes <-
      for_each
        (fun i =>
           c1 <- index coordinates (i + 1) ;;
           c0 <- index coordinates i ;;
           Ok (Qabs (elevation_or_0 c1 - elevation_or_0 c0)))
        (range (List.length coordinates - 1)) ;;
    m <- py_max elev_changes ;;
    if Qgtb m 50 then
      m' <- py_max elev_changes ;;
      max_idx <- py_index elev_changes m' ;;
      a <- index coordinates max_idx ;;
      b <- index coordinates (max_idx + 1) ;;
      d <- index elev_changes max_idx ;;
      Ok [ {| feature_type := "fault";
              feature_coordinates := [a; b];
              displacement := d |} ]
    else Ok []
  else Ok [].

Definition process_survey_data (survey_data : SurveyData)
  : result ProcessedMap :=
  us <- _identify_units survey_data ;;
  bs <- _identify_boundaries survey_data ;;
  fs <- _identify_structural_features survey_data ;;
  Ok {| units := us;
        boundaries := bs;
        structural_features := fs;
        coordinates := get_default (sd_coordinates survey_data) [] |}.

End SurveyProcessor.

(* ===================================================================== *)
(** * core/survey_manager.py: the survey store *)
(* ===================================================================== *)

Record Description : Type := {
  location_index : Z;
  text : string;
  inferred_type : option string
}.

Record Survey : Type := {
  survey_id : string;
  survey_coordinates : list Coordinate;
  descriptions : list Description;
  formation : option string;
  date : string
}.

(** The fields of a [SurveyManager] object the methods below read or
    write, and the contents of [survey_records.json] ([None]: no such
    file yet). *)
Record SurveyManager : Type := {
  sm_knowledge_base : KnowledgeBase;
  surveys : list Survey;
  survey_file : option (list Survey)
}.

(** [{"type": ..., "data": ...}]. *)
Record TypeDetails : Type := {
  td_type : string;
  td_data : Entry
}.

(** [str(n)] for a non-negative integer. *)
Definition str_of_nat (n : nat) : string :=
  NilEmpty.string_of_uint (Nat.to_uint n).

Fixpoint zeros (k : nat) : string :=
  match k with
  | O => EmptyString
  | S k' => String "0"%char (zeros k')
  end.

(** [f"{n:03d}"]: decimal digits, padded with zeros on the left to a
    width of at least three. *)
Definition format_03d (n : nat) : string :=
  let digits := str_of_nat n in
  zeros (3 - String.length digits) ++ digits.

(** [self._save_surveys()]: the whole collection is written out. *)
Definition _save_surveys (self : SurveyManager) : SurveyManager :=
  {| sm_knowledge_base := sm_knowledge_base self;
     surveys := surveys self;
     survey_file := Some (surveys self) |}.

(** [create_survey]; [today] is [datetime.now().strftime("%Y-%m-%d")]. *)
Definition create_survey (self : SurveyManager)
    (coordinates : list Coordinate) (formation : option string)
    (today : string) : string * SurveyManager :=
  let survey_id := "survey_" ++ format_03d (List.length (surveys self) + 1) in
  let new_survey :=
    {| survey_id := survey_id;
       survey_coordinates := coordinates;
       descriptions := [];
       formation := formation;
       date := today |} in
  let self :=
    {| sm_knowledge_base := sm_knowledge_base self;
       surveys := surveys self ++ [new_survey];
       survey_file := survey_file self |} in
  (survey_id, _save_surveys self).

(** The loop of [_get_survey]: the first survey carrying the id. *)
Fixpoint first_with_id (l : list Survey) (sid : string) : option Survey :=
  match l with
  | [] => None
  | survey :: l' =>
      if String.eqb (survey_id survey) sid then Some survey
      else first_with_id l' sid
  end.

Definition _get_survey (self : SurveyManager) (sid : string)
  : option Survey :=
  first_with_id (surveys self) sid.

(** [survey["descriptions"].append(desc_entry)] on the object that
    [_get_survey] returned: that object is the first element of the
    collection carrying the id, and it is updated in place. *)
Fixpoint append_description (l : list Survey) (sid : string)
    (desc_entry : Description) : list Survey :=
  match l with
  | [] => []
  | survey :: l' =>
      if String.eqb (survey_id survey) sid then
        {| survey_id := survey_id survey;
           survey_coordinates := survey_coordinates survey;
           descriptions := descriptions survey ++ [desc_entry];
           formation := formation survey;
           date := date survey |} :: l'
      else survey :: append_description l' sid desc_entry
  end.

Definition _get_type_details (self : SurveyManager) (type_name : string)
  : TypeDetails :=
  match get_mineral (sm_knowledge_base self) type_name with
  | Some mineral => {| td_type := "mineral"; td_data := mineral |}
  | None =>
      match get_rock (sm_knowledge_base self) type_name with
      | Some rock => {| td_type := "rock"; td_data := rock |}
      | None =>
          {| td_type := "unknown";
             td_data := {| name := type_name; properties := [] |} |}
      end
  end.

(** [add_description]: the returned value and the manager afterwards.
    A survey record is a non-empty dictionary and an inferred label a
    non-empty string, so [if not survey] and [if inferred_type] test for
    [None]. *)
Definition add_description (self : SurveyManager) (sid : string)
    (description : string) (location_index : Z)
  : option TypeDetails * SurveyManager :=
  match _get_survey self sid with
  | None => (None, self)
  | Some _ =>
      let inferred_type := infer_type_from_description description in
      let desc_entry :=
        {| location_index := location_index;
           text := description;
           inferred_type := inferred_type |} in
      let self :=
        {| sm_knowledge_base := sm_knowledge_base self;
           surveys := append_description (surveys self) sid desc_entry;
           survey_file := survey_file self |} in
      let self := _save_surveys self in
      match inferred_type with
      | Some type_name => (Some (_get_type_details self type_name), self)
      | None => (None, self)
      end
  end.

(** A call of one of the two mutating operations. *)
Inductive operation : Type :=
| CreateSurvey (coordinates : list Coordinate) (formation : option string)
    (today : string)
| AddDescription (sid : string) (description : string)
    (location_index : Z).

(** One operation: the manager afterwards and the id it assigned, if
    the operation was [create_survey]. *)
Definition step (self : SurveyManager) (op : operation)
  : SurveyManager * option string :=
  match op with
  | CreateSurvey coordinates formation today =>
      let '(sid, self') := create_survey self coordinates formation today in
      (self', Some sid)
  | AddDescription sid description location_index =>
      (snd (add_description self sid description location_index), None)
  end.

(** A sequence of operations, with the ids assigned along the way. *)
Fixpoint run (self : SurveyManager) (ops : list operation)
  : SurveyManager * list string :=
  match ops with
  | [] => (self, [])
  | op :: ops' =>
      let '(self1, assigned) := step self op in
      let '(self2, later) := run self1 ops' in
      (self2,
       match assigned with Some sid => sid :: later | None => later end)
  end.

(** A manager over a store without surveys: [{"surveys": []}]. *)
Definition empty_manager (kb : KnowledgeBase) (file : option (list Survey))
  : SurveyManager :=
  {| sm_knowledge_base := kb; surveys := []; survey_file := file |}.

(** [get_survey_for_mapping]: one unit per description with an inferred
    type, located at the surveyed point the description refers to. *)

(** [l[i]] for any integer: a negative [i] counts from the end. *)
Definition index_int {A : Type} (l : list A) (i : Z) : result A :=
  if (0 <=? i)%Z then index l (Z.to_nat i)
  else if (Z.of_nat (List.length l) + i <? 0)%Z then Raise IndexError
  else index l (Z.to_nat (Z.of_nat (List.length l) + i)).

(** The label that [if desc["inferred_type"]:] lets through: one that is
    neither [None] nor the empty string. *)
Definition truthy (label : option string) : option string :=
  match label with
  | Some EmptyString => None
  | other => other
  end.

Fixpoint units_of_descriptions (coordinates : list Coordinate)
    (descs : list Description) : result (list Unit) :=
  match descs with
  | [] => Ok []
  | desc :: descs' =>
      match truthy (inferred_type desc) with
      | Some ty =>
          point <- index_int coordinates (location_index desc) ;;
          rest <- units_of_descriptions coordinates descs' ;;
          Ok ({| unit_type := Some ty;
                 unit_coordinates := Some [point];
                 unit_description := Some (text desc) |} :: rest)
      | None => units_of_descriptions coordinates descs'
      end
  end.

Definition get_survey_for_mapping (self : SurveyManager) (sid : string)
  : result (option SurveyData) :=
  match _get_survey self sid with
  | None => Ok None
  | Some survey =>
      us <- units_of_descriptions (survey_coordinates survey)
              (descriptions survey) ;;
      Ok (Some {| sd_coordinates := Some (survey_coordinates survey);
                  sd_units := Some us |})
  end.

(* ===================================================================== *)
(** * utils/map_generator.py *)
(* ===================================================================== *)

(** The dictionary handed to [generate_detailed_map]. *)
Record MapData : Type := {
  map_id : option string;
  map_coordinates : option (list Coordinate);
  map_units : option (list Unit);
  map_boundaries : option (list Boundary);
  map_structural_features : option (list StructuralFeature)
}.

(** The calls into matplotlib and logging, with the arguments that depend
    on the survey. *)
Inductive call : Type :=
| plt_figure
| FigureCanvasAgg
| fig_add_subplot
| ax_set_xlim (lo hi : Q)
| ax_set_ylim (lo hi : Q)
| ax_scatter (xs ys : list Q)
| plt_Polygon (xy : list (Q * Q)) (facecolor label : string)
| ax_add_patch
| ax_text (x y : Q) (s : string) (rotation : option Q)
| ax_plot (xs ys : list Q) (fmt : string)
| ax_set_title (label : string)
| ax_set_xlabel (label : string)
| ax_set_ylabel (label : string)
| ax_grid
| plt_Rectangle (fc : string)
| ax_legend (labels : list string)
| fig_savefig (path : string)
| logging_info (msg : string)
| logging_error (e : exn)
| plt_close_all.

(** Rendering code: it may raise, and it leaves a trace of the library
    calls made so far, also when it raises. *)
Definition render (A : Type) : Type := list call -> result A * list call.

Definition ret {A : Type} (a : A) : render A := fun trace => (Ok a, trace).

Definition lift {A : Type} (m : result A) : render A := fun trace => (m, trace).

Definition bindR {A B : Type} (m : render A) (k : A -> render B) : render B :=
  fun trace =>
    match m trace with
    | (Ok a, trace') => k a trace'
    | (Raise e, trace') => (Raise e, trace')
    end.

Notation "x <~ m ;; k" := (bindR m (fun x => k))
  (at level 61, m at next level, right associativity).
Notation "m ;;; k" := (bindR m (fun _ => k))
  (at level 61, right associativity).

Fixpoint for_each_do {A : Type} (f : A -> render unit) (xs : list A)
  : render unit :=
  match xs with
  | [] => ret tt
  | x :: xs' => f x ;;; for_each_do f xs'
  end.

(** [try: body  except Exception as e: handler(e)  finally: final]. *)
Definition try_except_finally {A : Type} (body : render A)
    (handler : exn -> render A) (final : render unit) : render A :=
  fun trace =>
    let '(outcome, trace1) :=
      match body trace with
      | (Ok a, trace') => (Ok a, trace')
      | (Raise e, trace') => handler e trace'
      end in
    match final trace1 with
    | (Ok _, trace2) => (outcome, trace2)
    | (Raise e, trace2) => (Raise e, trace2)
    end.

(** A library call that completes without raising: [logging.error], whose
    handlers' own errors the logging module swallows, and
    [plt.close('all')], which only discards the open figures. *)
Definition quiet (c : call) : render unit :=
  fun trace => (Ok tt, (trace ++ [c])%list).

(** [self.color_map]. *)
Definition color_map : list (string * string) :=
  [ ("granite", "#FF9999"); ("basalt", "#9999FF"); ("sandstone", "#FFCC99");
    ("limestone", "#99FF99"); ("shale", "#CCCCCC"); ("quartz", "#FFFFFF");
    ("feldspar", "#FFFF99"); ("unknown", "#777777") ].

Fixpoint dict_get (d : list (string * string)) (key default : string)
  : string :=
  match d with
  | [] => default
  | (k, v) :: d' => if String.eqb k key then v else dict_get d' key default
  end.

(** [numpy.mean]. *)
Definition mean (xs : list Q) : Q :=
  fold_left Qplus xs 0 / inject_Z (Z.of_nat (List.length xs)).

Definition lons_of (points : list Coordinate) : result (list Q) :=
  for_each (fun p => getitem "lon" (lon p)) points.

Definition lats_of (points : list Coordinate) : result (list Q) :=
  for_each (fun p => getitem "lat" (lat p)) points.

(** The axis limits of [_plot_geological_features]:
    [(min(lons) - margin, max(lons) + margin)] and the same for latitudes,
    with [margin = 0.1]. *)
Definition margin : Q := 1 # 10.

Definition axis_limits (xs : list Q) : result (Q * Q) :=
  lo <- py_min xs ;;
  hi <- py_max xs ;;
  Ok (lo - margin, hi + margin).

Section MapGenerator.

(** The behaviour of the plotting library: whether a call raises, given
    the calls made before it. *)
Variable raises : list call -> call -> option exn.

(** [self.output_dir], as text. *)
Variable output_dir : string.

(** [np.degrees(np.arctan2(dy, dx))]. *)
Variable arctan2_degrees : Q -> Q -> Q.

(** The text of a number inside an f-string. *)
Variable str_of_number : Q -> string.

Definition ext (c : call) : render unit :=
  fun trace =>
    match raises trace c with
    | Some e => (Raise e, (trace ++ [c])%list)
    | None => (Ok tt, (trace ++ [c])%list)
    end.

Definition _create_figure : render unit :=
  ext plt_figure ;;; ext FigureCanvasAgg.

Definition _plot_unit (unit : Unit) : render Datatypes.unit :=
  ty <~ lift (getitem "type" (unit_type unit)) ;;
  let color := dict_get color_map (lower ty) "#777777" in
  cs <~ lift (getitem "coordinates" (unit_coordinates unit)) ;;
  lons <~ lift (lons_of cs) ;;
  lats <~ lift (lats_of cs) ;;
  ext (plt_Polygon (combine lons lats) color ty) ;;;
  ext ax_add_patch ;;;
  if (2 <? List.length lons)%nat then
    ext (ax_text (mean lons) (mean lats) ty None)
  else ret tt.

Definition _plot_boundary (boundary : Boundary) : render unit :=
  lons <~ lift (lons_of (boundary_coordinates boundary)) ;;
  lats <~ lift (lats_of (boundary_coordinates boundary)) ;;
  ext (ax_plot lons lats "k--").

Definition _calculate_angle (x y : list Q) (idx : nat) : result Q :=
  if (idx =? 0)%nat then
    x1 <- index x 1 ;; x0 <- index x 0 ;;
    y1 <- index y 1 ;; y0 <- index y 0 ;;
    Ok (arctan2_degrees (y1 - y0) (x1 - x0))
  else
    xi <- index x idx ;; xp <- index x (idx - 1) ;;
    yi <- index y idx ;; yp <- index y (idx - 1) ;;
    Ok (arctan2_degrees (yi - yp) (xi - xp)).

Definition _plot_structural_feature (feature : StructuralFeature)
  : render unit :=
  if String.eqb (feature_type feature) "fault" then
    lons <~ lift (lons_of (feature_coordinates feature)) ;;
    lats <~ lift (lats_of (feature_coordinates feature)) ;;
    ext (ax_plot lons lats "r-") ;;;
    if (1 <? List.length lons)%nat then
      let mid := (List.length lons / 2)%nat in
      x <~ lift (index lons mid) ;;
      y <~ lift (index lats mid) ;;
      let label :=
        "Fault (" ++ str_of_number (displacement feature) ++ "m)" in
      angle <~ lift (_calculate_angle lons lats mid) ;;
      ext (ax_text x y label (Some angle))
    else ret tt
  else ret tt.

Definition _plot_geological_features (data : MapData) : render unit :=
  cs <~ lift (getitem "coordinates" (map_coordinates data)) ;;
  lats <~ lift (lats_of cs) ;;
  lons <~ lift (lons_of cs) ;;
  xlim <~ lift (axis_limits lons) ;;
  ext (ax_set_xlim (fst xlim) (snd xlim)) ;;;
  ylim <~ lift (axis_limits lats) ;;
  ext (ax_set_ylim (fst ylim) (snd ylim)) ;;;
  xs <~ lift (lons_of cs) ;;
  ys <~ lift (lats_of cs) ;;
  ext (ax_scatter xs ys) ;;;
  for_each_do _plot_unit (get_default (map_units data) []) ;;;
  for_each_do _plot_boundary (get_default (map_boundaries data) []) ;;;
  for_each_do _plot_structural_feature
    (get_default (map_structural_features data) []).

Definition _add_legend : render unit :=
  for_each_do (fun color => ext (plt_Rectangle color))
    (map snd color_map) ;;;
  ext (ax_legend (map fst color_map)).

Definition _add_map_decorations (survey_id : string) : render unit :=
  ext (ax_set_title ("Geological Survey Map - " ++ survey_id)) ;;;
  ext (ax_set_xlabel "Longitude") ;;;
  ext (ax_set_ylabel "Latitude") ;;;
  ext ax_grid ;;;
  _add_legend.

Definition _save_map (survey_id : string) : render string :=
  let map_path :=
    output_dir ++ "/" ++ "geological_map_" ++ survey_id ++ ".png" in
  ext (fig_savefig map_path) ;;;
  ext (logging_info ("Map successfully saved to " ++ map_path)) ;;;
  ret map_path.

(** The statements inside [try:]. *)
Definition draw_and_save (survey_data : MapData) : render string :=
  _create_figure ;;;
  ext fig_add_subplot ;;;
  _plot_geological_features survey_data ;;;
  _add_map_decorations (get_default (map_id survey_data) "") ;;;
  _save_map (get_default (map_id survey_data) "survey").

Definition generate_detailed_map (survey_data : MapData)
  : render (option string) :=
  try_except_finally
    (path <~ draw_and_save survey_data ;; ret (Some path))
    (fun e => quiet (logging_error e) ;;; ret None)
    (quiet plt_close_all).

End MapGenerator.

(** The processed map as [app.py] hands it to the renderer: the output of
    [process_survey_data], which carries no ["id"]. *)
Definition map_data_of (processed : ProcessedMap) : MapData :=
  {| map_id := None;
     map_coordinates := Some (coordinates processed);
     map_units :=
       Some (map (fun u => {| unit_type := Some (gu_type u);
                              unit_coordinates := Some (gu_coordinates u);
                              unit_description := Some (gu_description u) |})
                 (units processed));
     map_boundaries := Some (boundaries processed);
     map_structural_features := Some (structural_features processed) |}.

(* ===================================================================== *)
(** * Vocabulary of the specification *)
(* ===================================================================== *)


(** The absolute elevation differences of consecutive coordinates, in
    input order. *)
Fixpoint elevation_deltas (cs : list Coordinate) : list Q :=
  match cs with
  | [] => []
  | c0 :: rest =>
      match rest with
      | [] => []
      | c1 :: _ =>
          Qabs (elevation_or_0 c1 - elevation_or_0 c0) :: elevation_deltas rest
      end
  end.

(** [x] is the [k]-th of five evenly spaced values from [x1] to [x2], and
    it lies between the two. *)
Definition interpolates (x1 x2 : Q) (k : nat) (x : Q) : Prop :=
  x == x1 + (inject_Z (Z.of_nat k) / 4) * (x2 - x1) /\
  Qmin x1 x2 <= x /\ x <= Qmax x1 x2.

(** [q] is the [k]-th point of the path from [p1] to [p2]: latitude,
    longitude and elevation are interpolated separately. *)
Definition sample_of (p1 p2 : Coordinate) (k : nat) (q : Coordinate) : Prop :=
  exists la1 lo1 la2 lo2 la lo el,
    lat p1 = Some la1 /\ lon p1 = Some lo1 /\
    lat p2 = Some la2 /\ lon p2 = Some lo2 /\
    q = {| lat := Some la; lon := Some lo; elevation := Some el |} /\
    interpolates la1 la2 k la /\
    interpolates lo1 lo2 k lo /\
    interpolates (elevation_or_0 p1) (elevation_or_0 p2) k el.

(** [b] is the contact between the units [u1] and [u2]: a five-point
    path from the last coordinate of [u1] to the first coordinate of
    [u2]. *)
Definition contact_between (u1 u2 : Unit) (b : Boundary) : Prop :=
  exists t1 t2 front p1 p2 back,
    unit_type u1 = Some t1 /\ unit_type u2 = Some t2 /\
    unit_coordinates u1 = Some (front ++ [p1])%list /\
    unit_coordinates u2 = Some (p2 :: back) /\
    boundary_type b = "contact" /\
    between b = [t1; t2] /\
    List.length (boundary_coordinates b) = 5%nat /\
    forall k, (k < 5)%nat ->
      exists q, nth_error (boundary_coordinates b) k = Some q /\
                sample_of p1 p2 k q.

(** The fields [process_survey_data] reads with [d["k"]] are there: every
    unit has a type and a coordinate list, and wherever two units are
    adjacent, the last point of the first and the first point of the
    second exist and carry a latitude and a longitude. *)
Definition is_some {A : Type} (o : option A) : bool :=
  match o with Some _ => true | None => false end.

Definition has_lat_lon (p : Coordinate) : bool :=
  is_some (lat p) && is_some (lon p).

Definition complete_unit (u : Unit) : bool :=
  is_some (unit_type u) && is_some (unit_coordinates u).

Definition joinable (u1 u2 : Unit) : bool :=
  match unit_coordinates u1, unit_coordinates u2 with
  | Some c1, Some c2 =>
      match nth_error c1 (List.length c1 - 1), nth_error c2 0 with
      | Some p1, Some p2 => has_lat_lon p1 && has_lat_lon p2
      | _, _ => false
      end
  | _, _ => false
  end.

Definition joinable_at (us : list Unit) (i : nat) : bool :=
  match nth_error us i, nth_error us (i + 1) with
  | Some u1, Some u2 => joinable u1 u2
  | _, _ => false
  end.

Definition processable (survey_data : SurveyData) : bool :=
  let us := get_default (sd_units survey_data) [] in
  forallb complete_unit us &&
  forallb (joinable_at us) (range (List.length us - 1)).




(** The fault between [a] and [b]. *)
Definition fault (a b : Coordinate) (m : Q) : StructuralFeature :=
  {| feature_type := "fault";
     feature_coordinates := [a; b];
     displacement := m |}.


(** The ids of the stored surveys, in order. *)
Definition ids (self : SurveyManager) : list string :=
  map survey_id (surveys self).

(** Reading a zero-padded decimal back. *)
Definition decode_03d (s : string) : option nat :=
  option_map Nat.of_uint (NilEmpty.uint_of_string s).

(** The ids of the first [n] surveys of a store that started empty:
    [survey_001], [survey_002], ... *)
Definition numbered_ids (n : nat) : list string :=
  map (fun k => "survey_" ++ format_03d (k + 1)) (range n).

(** The survey [survey] with one more description. *)
Definition with_description (survey : Survey) (desc_entry : Description)
  : Survey :=
  {| survey_id := survey_id survey;
     survey_coordinates := survey_coordinates survey;
     descriptions := (descriptions survey ++ [desc_entry])%list;
     formation := formation survey;
     date := date survey |}.

(* ===================================================================== *)
(** * Sample data *)
(* ===================================================================== *)

Definition granite : Entry :=
  {| name := "Granite"; properties := [("texture", "coarse")] |}.
Definition basalt : Entry :=
  {| name := "Basalt"; properties := [("texture", "fine")] |}.
Definition quartz_rock : Entry :=
  {| name := "QUARTZ"; properties := [("kind", "vein rock")] |}.
Definition quartz : Entry :=
  {| name := "Quartz"; properties := [("hardness", "7")] |}.
Definition calcite : Entry :=
  {| name := "Calcite"; properties := [("hardness", "3")] |}.

Definition sample_kb : KnowledgeBase :=
  {| minerals := [quartz; calcite]; rocks := [granite; basalt; quartz_rock] |}.

Definition point (la lo el : Q) : Coordinate :=
  {| lat := Some la; lon := Some lo; elevation := Some el |}.

Definition unit_at (ty : string) (ps : list Coordinate) : Unit :=
  {| unit_type := Some ty;
     unit_coordinates := Some ps;
     unit_description := None |}.

(** Three points whose elevations differ by 5 and by 60, and a fourth 3
    above the third. *)
Definition sample_track : list Coordinate :=
  [ point 34 (-118) 100; point (341 # 10) (-118) 105;
    point (342 # 10) (-1179 # 10) 165; point (343 # 10) (-1178 # 10) 168 ].

Definition sample_survey : SurveyData :=
  {| sd_coordinates := Some sample_track;
     sd_units :=
       Some [ unit_at "granite" [point 34 (-118) 100];
              unit_at "Quartz" [point (342 # 10) (-1179 # 10) 165];
              unit_at "Gneiss" [point (343 # 10) (-1178 # 10) 168] ] |}.

(** The input of [tests/test_map_generator.py]. *)
Definition test_data : MapData :=
  {| map_id := None;
     map_coordinates := Some [point 34 (-118) 100];
     map_units :=
       Some [ {| unit_type := Some "granite";
                 unit_coordinates := Some [point 34 (-118) 100];
                 unit_description := Some "Test granite" |} ];
     map_boundaries := None;
     map_structural_features := None |}.



Definition survey_with_empty_unit_coordinates : SurveyData :=
  {| sd_coordinates := Some [];
     sd_units := Some [ unit_at "Granite" []; unit_at "Basalt" [] ] |}.

(** A plotting library in which nothing fails, and one in which writing
    the file does. *)
Definition never_raises : list call -> call -> option exn :=
  fun _ _ => None.

Definition savefig_fails : list call -> call -> option exn :=
  fun _ c =>
    match c with
    | fig_savefig _ => Some (LibraryError "cannot write")
    | _ => None
    end.

(** A manager holding one survey, [survey_001], over the sample track. *)
Definition sample_manager : SurveyManager :=
  snd (create_survey (empty_manager sample_kb None) sample_track None
         "2024-05-01").

(** The sample manager with two descriptions from which a type is
    inferred, at the first and at the last point of the track. *)
Definition described_manager : SurveyManager :=
  fst (run sample_manager
         [ AddDescription "survey_001" "This is granite" 0;
           AddDescription "survey_001" "fine grained volcanic rock" (-1) ]).

(** Its survey. *)
Definition described_survey : Survey :=
  {| survey_id := "survey_001";
     survey_coordinates := sample_track;
     descriptions :=
       [ {| location_index := 0; text := "This is granite";
            inferred_type := Some "Granite" |};
         {| location_index := (-1); text := "fine grained volcanic rock";
            inferred_type := Some "Basalt" |} ];
     formation := None;
     date := "2024-05-01" |}.

(* ===================================================================== *)
(** * core/knowledge_base.py: search by property *)
(* ===================================================================== *)

(** A record read as the dictionary it is: ["name"] is one key and the
    [properties] are the others, whose values are held as the text that
    [str] gives for them.  The keys of a dictionary are distinct. *)
Fixpoint assoc (d : list (string * string)) (key : string) : option string :=
  match d with
  | [] => None
  | (k, v) :: d' => if String.eqb k key then Some v else assoc d' key
  end.

(** [item[key]], if [key in item]. *)
Definition item_get (item : Entry) (key : string) : option string :=
  if String.eqb key "name" then Some (name item)
  else assoc (properties item) key.

Definition search_by_property (kb : KnowledgeBase)
    (property_name value search_type : string) : list Entry :=
  let search_data :=
    if String.eqb search_type "mineral" then minerals kb else rocks kb in
  filter
    (fun item =>
       match item_get item property_name with
       | Some v => contains (lower value) (lower v)
       | None => false
       end)
    search_data.

(* ===================================================================== *)
(** * utils/online_learner.py *)
(* ===================================================================== *)

(** The characters [str.strip] removes, among the ASCII ones. *)
Definition is_space (c : ascii) : bool :=
  let n := nat_of_ascii c in
  (((9 <=? n) && (n <=? 13)) || ((28 <=? n) && (n <=? 32)))%nat.

Fixpoint lstrip (s : string) : string :=
  match s with
  | EmptyString => EmptyString
  | String c s' => if is_space c then lstrip s' else s
  end.

Fixpoint rstrip (s : string) : string :=
  match s with
  | EmptyString => EmptyString
  | String c s' =>
      match rstrip s' with
      | EmptyString => if is_space c then EmptyString else String c EmptyString
      | kept => String c kept
      end
  end.

(** [s.strip()]. *)
Definition strip (s : string) : string := rstrip (lstrip s).

(** A table of a fetched page, as the scraper reads it: its rows ([tr])
    in order, each as the texts of its [td] cells. *)
Definition Table : Type := list (list string).

(** [_scrape_mineral_data], given what the request and the parser
    produced: the tables of class [wikitable], or the exception that
    [except Exception] turns into an empty harvest.  [rows[1:]] drops the
    first row of every table; a row counts when it has at least two
    cells. *)
Definition _scrape_mineral_data (page : result (list Table)) : list Entry :=
  match page with
  | Raise _ => []
  | Ok tables =>
      flat_map
        (fun table =>
           flat_map
             (fun cols =>
                match cols with
                | c0 :: c1 :: _ =>
                    [ {| name := strip c0;
                         properties := [("description", strip c1)] |} ]
                | _ => []
                end)
             (tl table))
        tables
  end.

(** [_scrape_rock_data]: the second cell is the ["type"], the third, if
    there is one, the ["description"]. *)
Definition _scrape_rock_data (page : result (list Table)) : list Entry :=
  match page with
  | Raise _ => []
  | Ok tables =>
      flat_map
        (fun table =>
           flat_map
             (fun cols =>
                match cols with
                | c0 :: c1 :: more =>
                    [ {| name := strip c0;
                         properties :=
                           [ ("type", strip c1);
                             ("description",
                              match more with
                              | c2 :: _ => strip c2
                              | [] => ""
                              end) ] |} ]
                | _ => []
                end)
             (tl table))
        tables
  end.

(** [update_knowledge_base]: the minerals are added first, one call of
    [add_mineral] each, then the rocks. *)
Definition update_knowledge_base (kb : KnowledgeBase)
    (minerals_page rocks_page : result (list Table)) : KnowledgeBase :=
  let new_minerals := _scrape_mineral_data minerals_page in
  let new_rocks := _scrape_rock_data rocks_page in
  let kb := fold_left add_mineral new_minerals kb in
  fold_left add_rock new_rocks kb.

(* ===================================================================== *)
(** * core/survey_manager.py: opening the store *)
(* ===================================================================== *)

(** [_load_surveys]: no file means an empty collection. *)
Definition _load_surveys (file : option (list Survey)) : list Survey :=
  match file with
  | None => []
  | Some stored => stored
  end.

(** [SurveyManager()] over a knowledge base and the file found on disk. *)
Definition SurveyManager__init__ (kb : KnowledgeBase)
    (file : option (list Survey)) : SurveyManager :=
  {| sm_knowledge_base := kb;
     surveys := _load_surveys file;
     survey_file := file |}.

(** [-len(l) <= i < len(l)]: the integers that index [l]. *)
Definition indexes {A : Type} (l : list A) (i : Z) : bool :=
  ((- Z.of_nat (List.length l) <=? i) && (i <? Z.of_nat (List.length l)))%Z.

(** The descriptions that [get_survey_for_mapping] turns into units. *)
Definition typed (descs : list Description) : list Description :=
  filter (fun desc => is_some (truthy (inferred_type desc))) descs.

(** The unit made of a description and the point it refers to. *)
Definition unit_of (desc : Description) (point : Coordinate) : Unit :=
  {| unit_type := inferred_type desc;
     unit_coordinates := Some [point];
     unit_description := Some (text desc) |}.

(** The description [desc] becomes the unit [u], placed at the point of
    [points] that its index selects, counting from the end when the
    index is negative. *)
Definition placed (points : list Coordinate) (desc : Description) (u : Unit)
  : Prop :=
  exists point,
    nth_error points
      (Z.to_nat (location_index desc mod Z.of_nat (List.length points)))
    = Some point /\
    u = unit_of desc point.

(** Every description that becomes a unit refers to a point that
    exists. *)
Definition well_placed (points : list Coordinate) (descs : list Description)
  : bool :=
  forallb (fun desc => indexes points (location_index desc)) (typed descs).

(** A unit with a type and a single point, one of [points]. *)
Definition one_point_unit (points : list Coordinate) (u : Unit) : Prop :=
  exists ty point,
    unit_type u = Some ty /\
    unit_coordinates u = Some [point] /\
    In point points.

(** The entry that [add_description] stores. *)
Definition entry_of (description : string) (location_index : Z)
  : Description :=
  {| location_index := location_index;
     text := description;
     inferred_type := infer_type_from_description description |}.

(** The entries that the calls of [ops] add to the survey stored under
    [sid], in the order of the calls. *)
Definition aimed_at (sid : string) (ops : list operation)
  : list Description :=
  flat_map
    (fun op =>
       match op with
       | AddDescription target description location_index =>
           if String.eqb target sid
           then [entry_of description location_index]
           else []
       | CreateSurvey _ _ _ => []
       end)
    ops.

(** The survey a call of [create_survey] stores. *)
Definition created (self : SurveyManager) (coordinates : list Coordinate)
    (formation : option string) (today : string) : Survey :=
  {| survey_id := fst (create_survey self coordinates formation today);
     survey_coordinates := coordinates;
     descriptions := [];
     formation := formation;
     date := today |}.

(* ===================================================================== *)
(** * What the renderer needs *)
(* ===================================================================== *)

(** The fields the plotting code subscripts are there: the map has at
    least one coordinate; every point it reads has a latitude and a
    longitude; every unit has a type and a coordinate list.  A feature
    that is not a fault is not looked into. *)
Definition plottable_unit (u : Unit) : bool :=
  is_some (unit_type u) &&
  match unit_coordinates u with
  | Some points => forallb has_lat_lon points
  | None => false
  end.

Definition plottable_boundary (b : Boundary) : bool :=
  forallb has_lat_lon (boundary_coordinates b).

Definition plottable_feature (f : StructuralFeature) : bool :=
  negb (String.eqb (feature_type f) "fault") ||
  forallb has_lat_lon (feature_coordinates f).

Definition renderable (data : MapData) : bool :=
  match map_coordinates data with
  | Some (c :: cs) => forallb has_lat_lon (c :: cs)
  | _ => false
  end &&
  forallb plottable_unit (get_default (map_units data) []) &&
  forallb plottable_boundary (get_default (map_boundaries data) []) &&
  forallb plottable_feature (get_default (map_structural_features data) []).

(** The survey has at least one coordinate, and every coordinate of
    the survey and of its units has a latitude and a longitude. *)
Definition located (survey_data : SurveyData) : bool :=
  match get_default (sd_coordinates survey_data) [] with
  | [] => false
  | points => forallb has_lat_lon points
  end &&
  forallb
    (fun u => forallb has_lat_lon (get_default (unit_coordinates u) []))
    (get_default (sd_units survey_data) []).

(** The exceptions that the code of the renderer raises by itself: a
    missing key, or [min] of no coordinates. *)
Definition own_error (e : exn) : Prop :=
  e = KeyError "coordinates" \/ e = KeyError "type" \/
  e = KeyError "lat" \/ e = KeyError "lon" \/ e = ValueError.

(** The exceptions that come out of a library call. *)
Definition raised_by (raises : list call -> call -> option exn) (e : exn)
  : Prop :=
  exists trace c, raises trace c = Some e.

(** Rendering code that only adds calls to the trace, each of them
    satisfying [Q]. *)
Definition emits {A : Type} (Q : call -> Prop) (m : render A) : Prop :=
  forall t r t',
    m t = (r, t') -> exists calls, t' = (t ++ calls)%list /\ Forall Q calls.

(** Every call but the three whose arguments matter below: the polygon
    of a unit, the label of a unit (a text that is not rotated) and the
    writing of the file. *)
Definition routine (c : call) : bool :=
  match c with
  | plt_Polygon _ _ _ | ax_text _ _ _ None | fig_savefig _ => false
  | _ => true
  end.

(** A unit drawn as a single point: a polygon with one vertex, and no
    label. *)
Definition drawn_as_point (c : call) : Prop :=
  match c with
  | plt_Polygon xy _ _ => List.length xy = 1%nat
  | ax_text _ _ _ None => False
  | _ => True
  end.

(** Nothing is written but the file [path]. *)
Definition writes_only (path : string) (c : call) : Prop :=
  match c with
  | fig_savefig p => p = path
  | _ => True
  end.

(** The calls made before anything is drawn. *)
Definition preparation (c : call) : bool :=
  match c with
  | plt_figure | FigureCanvasAgg | fig_add_subplot => true
  | _ => false
  end.

(** The calls that report a failure and clean up. *)
Definition aftermath (c : call) : bool :=
  match c with
  | logging_error _ | plt_close_all => true
  | _ => false
  end.

(* ===================================================================== *)
(** * app.py: the [--generate-map] command *)
(* ===================================================================== *)

Section Main.

Variable raises : list call -> call -> option exn.
Variable output_dir : string.
Variable arctan2_degrees : Q -> Q -> Q.
Variable str_of_number : Q -> string.

(** The three calls of the branch [elif args.generate_map:], on the
    manager and on the knowledge base of the processor.  Nothing
    catches what the first two raise.  The value is what
    [generate_detailed_map] returned, or nothing when there is no such
    survey and the branch only prints that it was not found.  The
    messages printed and the closing [plt.show()], for which no figure
    is left open, are not part of the trace. *)
Definition generate_map_command (survey_manager : SurveyManager)
    (processor_knowledge_base : KnowledgeBase) (generate_map : string)
  : render (option (option string)) :=
  survey_data <~ lift (get_survey_for_mapping survey_manager generate_map) ;;
  match survey_data with
  | Some survey_data =>
      processed_data <~
        lift (process_survey_data processor_knowledge_base survey_data) ;;
      fig <~
        generate_detailed_map raises output_dir arctan2_degrees str_of_number
          (map_data_of processed_data) ;;
      ret (Some fig)
  | None => ret None
  end.

End Main.

(* ===================================================================== *)
(** * Lemmas on the primitives *)
(* ===================================================================== *)

Section ForEach.

Context {A B : Type}.
Variable f : A -> result B.

Lemma for_each_map (g : A -> B) (xs : list A) :
  (forall x, In x xs -> f x = Ok (g x)) ->
  for_each f xs = Ok (map g xs).
Proof.
  induction xs as [|x xs IH]; intros H; simpl.
  - reflexivity.
  - rewrite (H x (or_introl eq_refl)). simpl.
    rewrite IH by (intros y Hy; apply H; right; exact Hy).
    reflexivity.
Qed.

Lemma for_each_raise (xs : list A) :
  (exists x, In x xs /\ is_ok (f x) = false) ->
  is_ok (for_each f xs) = false.
Proof.
  induction xs as [|x xs IH]; intros [y [Hy Hf]].
  - destruct Hy.
  - simpl. destruct (f x) as [b|e] eqn:E; simpl; [|reflexivity].
    destruct Hy as [->|Hy]; [rewrite E in Hf; discriminate|].
    assert (is_ok (for_each f xs) = false) as C
        by (apply IH; exists y; split; assumption).
    destruct (for_each f xs); simpl in *; [discriminate|reflexivity].
Qed.

Lemma for_each_ok_inv (xs : list A) (ys : list B) :
  for_each f xs = Ok ys ->
  List.length ys = List.length xs /\
  forall i x, nth_error xs i = Some x ->
    exists y, nth_error ys i = Some y /\ f x = Ok y.
Proof.
  revert ys. induction xs as [|x xs IH]; intros ys H; simpl in H.
  - inversion H; subst. split; [reflexivity|].
    intros [|i] x Hx; discriminate.
  - destruct (f x) as [y|e] eqn:E; simpl in H; [|discriminate].
    destruct (for_each f xs) as [ys'|e] eqn:E'; simpl in H; [|discriminate].
    inversion H; subst. destruct (IH ys' eq_refl) as [Hl Hn].
    split; [simpl; congruence|].
    intros [|i] x0 Hx; simpl in *.
    + inversion Hx; subst. exists y. split; [reflexivity|assumption].
    + apply Hn. assumption.
Qed.

End ForEach.


Lemma index_nth {A : Type} (l : list A) (i : nat) (x : A) :
  nth_error l i = Some x -> index l i = Ok x.
Proof. unfold index. intros ->. reflexivity. Qed.

Lemma index_ok_inv {A : Type} (l : list A) (i : nat) (x : A) :
  index l i = Ok x -> nth_error l i = Some x.
Proof.
  unfold index. destruct (nth_error l i); intros H; inversion H; reflexivity.
Qed.

Lemma in_range (n i : nat) : In i (range n) <-> (i < n)%nat.
Proof. unfold range. rewrite in_seq. lia. Qed.

Lemma nth_error_range (n i : nat) :
  (i < n)%nat -> nth_error (range n) i = Some i.
Proof.
  intros H. unfold range.
  rewrite (nth_error_nth' _ 0%nat) by (rewrite length_seq; exact H).
  rewrite seq_nth by exact H. reflexivity.
Qed.

Lemma nth_error_last {A : Type} (l : list A) (p : A) :
  nth_error l (List.length l - 1) = Some p ->
  exists front, l = (front ++ [p])%list.
Proof.
  intros H. destruct l as [|a l] using rev_ind.
  - discriminate.
  - exists l. rewrite length_app in H. simpl in H.
    replace (List.length l + 1 - 1)%nat with (List.length l) in H by lia.
    rewrite nth_error_app2 in H by lia.
    rewrite Nat.sub_diag in H. simpl in H. inversion H. reflexivity.
Qed.

Lemma index_last_ok {A : Type} (l : list A) (p : A) :
  nth_error l (List.length l - 1) = Some p -> index_last l = Ok p.
Proof.
  intros H. destruct l as [|a l]; [discriminate|].
  unfold index_last. apply index_nth. exact H.
Qed.

Lemma index_last_ok_inv {A : Type} (l : list A) (p : A) :
  index_last l = Ok p -> nth_error l (List.length l - 1) = Some p.
Proof.
  destruct l as [|a l]; [discriminate|].
  unfold index_last. apply index_ok_inv.
Qed.

(** ** Strings *)

Lemma scan_by_name_some (xs : list Entry) (nm : string) (x : Entry) :
  scan_by_name xs nm = Some x -> In x xs /\ lower (name x) = lower nm.
Proof.
  induction xs as [|y xs IH]; simpl; [discriminate|].
  destruct (String.eqb (lower (name y)) (lower nm)) eqn:E.
  - intros H. inversion H; subst. apply String.eqb_eq in E. auto.
  - intros H. destruct (IH H). auto.
Qed.



(* ===================================================================== *)
(** * Unit classification *)
(* ===================================================================== *)



(* ===================================================================== *)
(** * Type inference *)
(* ===================================================================== *)


(* ===================================================================== *)
(** * Numbers: maximum, first position, evenly spaced samples *)
(* ===================================================================== *)

Lemma Qgtb_true (x y : Q) : Qgtb x y = true <-> y < x.
Proof.
  unfold Qgtb. rewrite negb_true_iff. split.
  - intros H. apply Qnot_le_lt. intros C.
    apply Qle_bool_iff in C. congruence.
  - intros H. destruct (Qle_bool x y) eqn:E; [|reflexivity].
    apply Qle_bool_iff in E. exfalso. apply (Qlt_not_le _ _ H E).
Qed.

Lemma Qgtb_false (x y : Q) : Qgtb x y = false <-> x <= y.
Proof.
  unfold Qgtb. rewrite negb_false_iff. apply Qle_bool_iff.
Qed.

Lemma fold_max_spec (xs : list Q) (x : Q) :
  let m := fold_left (fun m y => if Qgtb y m then y else m) xs x in
  In m (x :: xs) /\ forall y, In y (x :: xs) -> y <= m.
Proof.
  revert x. induction xs as [|z xs IH]; intros x; simpl.
  - split; [left; reflexivity|].
    intros y [<-|[]]. apply Qle_refl.
  - destruct (Qgtb z x) eqn:E.
    + destruct (IH z) as [Hin Hle]. simpl in Hin, Hle. split.
      * right. exact Hin.
      * intros y [<-|Hy]; [|apply Hle; exact Hy].
        apply Qgtb_true in E. apply Qle_trans with z.
        -- apply Qlt_le_weak. exact E.
        -- apply Hle. left. reflexivity.
    + destruct (IH x) as [Hin Hle]. simpl in Hin, Hle. split.
      * destruct Hin as [Hin|Hin]; [left; exact Hin|right; right; exact Hin].
      * intros y [<-|[<-|Hy]].
        -- apply Hle. left. reflexivity.
        -- apply Qgtb_false in E. apply Qle_trans with x; [exact E|].
           apply Hle. left. reflexivity.
        -- apply Hle. right. exact Hy.
Qed.

Lemma py_max_spec (xs : list Q) :
  xs <> [] ->
  exists m, py_max xs = Ok m /\ In m xs /\ forall y, In y xs -> y <= m.
Proof.
  destruct xs as [|x xs]; [congruence|]. intros _.
  exists (fold_left (fun m y => if Qgtb y m then y else m) xs x).
  split; [reflexivity|]. apply fold_max_spec.
Qed.

Lemma py_index_found (xs : list Q) (v : Q) :
  In v xs -> exists i, py_index xs v = Ok i.
Proof.
  induction xs as [|x xs IH]; intros H; [destruct H|]. simpl.
  destruct (Qeq_bool x v) eqn:E; [eauto|].
  destruct H as [->|H].
  - rewrite Qeq_bool_refl in E. discriminate.
  - destruct (IH H) as [i ->]. simpl. eauto.
Qed.

Lemma py_index_spec (xs : list Q) (v : Q) (i : nat) :
  py_index xs v = Ok i ->
  (exists d, nth_error xs i = Some d /\ d == v) /\
  forall j d, (j < i)%nat -> nth_error xs j = Some d -> ~ d == v.
Proof.
  revert i. induction xs as [|x xs IH]; intros i H; simpl in H;
    [discriminate|].
  destruct (Qeq_bool x v) eqn:E.
  - inversion H; subst. split.
    + exists x. split; [reflexivity|]. apply Qeq_bool_iff. exact E.
    + intros j d Hj. lia.
  - destruct (py_index xs v) as [i'|e] eqn:E'; simpl in H; [|discriminate].
    inversion H; subst. destruct (IH i' eq_refl) as [Hd Hj]. split.
    + exact Hd.
    + intros [|j] d Hlt Hn; simpl in Hn.
      * inversion Hn; subst. intros C. apply Qeq_bool_iff in C. congruence.
      * apply (Hj j d); [lia|exact Hn].
Qed.

Lemma linspace_5 (a b : Q) :
  linspace a b 5 =
    [ 0 * ((b - a) / 4) + a; 1 * ((b - a) / 4) + a; 2 * ((b - a) / 4) + a;
      3 * ((b - a) / 4) + a; b ].
Proof. reflexivity. Qed.

Lemma between_ends (a b x : Q) :
  (a <= x /\ x <= b) \/ (b <= x /\ x <= a) ->
  Qmin a b <= x /\ x <= Qmax a b.
Proof.
  intros [[H1 H2]|[H1 H2]]; split.
  - apply Q.min_le_iff. left. exact H1.
  - apply Q.max_le_iff. right. exact H2.
  - apply Q.min_le_iff. right. exact H1.
  - apply Q.max_le_iff. left. exact H2.
Qed.

Ltac quarter_steps :=
  unfold Qdiv; change (/ 4) with (1 # 4); simpl inject_Z.

Lemma interpolates_sample (a b : Q) (k : nat) (x : Q) :
  nth_error (linspace a b 5) k = Some x -> interpolates a b k x.
Proof.
  rewrite linspace_5. intros H.
  assert (Hab : a <= b \/ b <= a).
  { destruct (Qlt_le_dec a b) as [L|L]; [left; apply Qlt_le_weak|right];
      exact L. }
  destruct k as [|[|[|[|[|k]]]]]; simpl in H;
    try (destruct k; discriminate);
    inversion H; subst; clear H;
    (split; [quarter_steps; ring|]);
    apply between_ends; (destruct Hab as [L|L]; [left|right]);
    split; quarter_steps; lra.
Qed.

(* ===================================================================== *)
(** * The survey processor *)
(* ===================================================================== *)

(** Peels the successful steps off [H : (x <- m ;; k) = Ok r]. *)
Ltac bind_ok H :=
  repeat match type of H with
         | bind ?m _ = Ok _ =>
             let E := fresh "E" in
             destruct m eqn:E; cbn [bind] in H; [|discriminate H]
         end.

(** One such step, naming the value and the equation. *)
Tactic Notation "bind_step" hyp(H) "as" ident(x) ident(E) :=
  match type of H with
  | bind ?m _ = Ok _ =>
      destruct m as [x|?] eqn:E; cbn [bind] in H; [|discriminate H]
  end.

Lemma for_each_total {A B : Type} (f : A -> result B) (xs : list A) :
  (forall x, In x xs -> exists y, f x = Ok y) ->
  exists ys, for_each f xs = Ok ys.
Proof.
  induction xs as [|x xs IH]; intros H; simpl; [eauto|].
  destruct (H x (or_introl eq_refl)) as [y ->].
  destruct IH as [ys ->]; [intros z Hz; apply H; right; exact Hz|].
  simpl. eauto.
Qed.

Lemma for_each_raise_inv {A B : Type} (f : A -> result B) (xs : list A)
    (e : exn) :
  for_each f xs = Raise e -> exists x, In x xs /\ f x = Raise e.
Proof.
  induction xs as [|x xs IH]; simpl; [discriminate|].
  destruct (f x) as [y|e'] eqn:E; simpl.
  - destruct (for_each f xs) as [ys|e'] eqn:E'; simpl; [discriminate|].
    intros H. inversion H; subst.
    destruct (IH eq_refl) as [z [Hz Hf]]. exists z. auto.
  - intros H. inversion H; subst. exists x. auto.
Qed.

Lemma getitem_ok_inv {A : Type} (key : string) (o : option A) (v : A) :
  getitem key o = Ok v -> o = Some v.
Proof. destruct o; simpl; intros H; inversion H; reflexivity. Qed.

(** ** Interpolation *)

Lemma interpolate_points_spec (p1 p2 : Coordinate) (path : list Coordinate) :
  _interpolate_points p1 p2 5 = Ok path ->
  List.length path = 5%nat /\
  forall k, (k < 5)%nat ->
    exists q, nth_error path k = Some q /\ sample_of p1 p2 k q.
Proof.
  unfold _interpolate_points. intros H.
  bind_step H as la1 A1. bind_step H as la2 A2.
  bind_step H as lo1 O1. bind_step H as lo2 O2.
  apply getitem_ok_inv in A1, A2, O1, O2.
  apply for_each_ok_inv in H. destruct H as [Hlen Hnth].
  split; [exact Hlen|].
  intros k Hk. destruct (Hnth k k (nth_error_range 5 k Hk)) as [q [Hq Hf]].
  exists q. split; [exact Hq|].
  bind_step Hf as la I1. bind_step Hf as lo I2. bind_step Hf as el I3.
  inversion Hf; subst q. clear Hf.
  apply index_ok_inv in I1, I2, I3.
  exists la1, lo1, la2, lo2, la, lo, el.
  split; [exact A1|]. split; [exact O1|].
  split; [exact A2|]. split; [exact O2|].
  split; [reflexivity|].
  split; [|split]; apply interpolates_sample; assumption.
Qed.

Lemma interpolate_points_total (p1 p2 : Coordinate) :
  has_lat_lon p1 = true -> has_lat_lon p2 = true ->
  exists path, _interpolate_points p1 p2 5 = Ok path.
Proof.
  unfold has_lat_lon, _interpolate_points.
  destruct (lat p1), (lon p1); try discriminate.
  destruct (lat p2), (lon p2); try discriminate.
  intros _ _. cbn [getitem bind]. apply for_each_total.
  intros k Hk. apply in_range in Hk.
  destruct k as [|[|[|[|[|k]]]]]; try lia; rewrite !linspace_5;
    cbn [index nth_error bind]; eauto.
Qed.

(** ** Units *)

Lemma identify_units_total (kb : KnowledgeBase) (s : SurveyData) :
  forallb complete_unit (get_default (sd_units s) []) = true ->
  exists gs, _identify_units kb s = Ok gs.
Proof.
  intros H. apply for_each_total. intros u Hu.
  rewrite forallb_forall in H. specialize (H u Hu).
  unfold complete_unit in H.
  destruct (unit_type u), (unit_coordinates u); try discriminate.
  cbn [getitem bind]. eauto.
Qed.

Lemma identify_units_spec (kb : KnowledgeBase) (s : SurveyData)
    (gs : list GeologicalUnit) :
  _identify_units kb s = Ok gs ->
  List.length gs = List.length (get_default (sd_units s) []) /\
  forall i u, nth_error (get_default (sd_units s) []) i = Some u ->
    complete_unit u = true /\
    exists g, nth_error gs i = Some g /\
      unit_type u = Some (gu_type g) /\
      unit_coordinates u = Some (gu_coordinates g) /\
      gu_properties g = _get_unit_details kb (gu_type g) /\
      gu_description g = get_default (unit_description u) "".
Proof.
  intros H. apply for_each_ok_inv in H. destruct H as [Hlen Hnth].
  split; [exact Hlen|]. intros i u Hu.
  destruct (Hnth i u Hu) as [g [Hg Hf]].
  bind_step Hf as ty T1. bind_step Hf as cs C1.
  inversion Hf; subst g. clear Hf.
  apply getitem_ok_inv in T1, C1.
  split; [unfold complete_unit; rewrite T1, C1; reflexivity|].
  eexists. split; [exact Hg|]. simpl. auto.
Qed.


(** ** Boundaries *)

Lemma identify_boundaries_spec (s : SurveyData) (bs : list Boundary) :
  _identify_boundaries s = Ok bs ->
  let us := get_default (sd_units s) [] in
  List.length bs = (List.length us - 1)%nat /\
  forall i, (i < List.length us - 1)%nat ->
    joinable_at us i = true /\
    exists u1 u2 b,
      nth_error us i = Some u1 /\ nth_error us (i + 1) = Some u2 /\
      nth_error bs i = Some b /\ contact_between u1 u2 b.
Proof.
  intros H us. unfold _identify_boundaries in H. fold us in H.
  destruct (1 <? List.length us)%nat eqn:L.
  - apply for_each_ok_inv in H. destruct H as [Hlen Hnth].
    unfold range in Hlen. rewrite length_seq in Hlen.
    split; [exact Hlen|]. intros i Hi.
    destruct (Hnth i i (nth_error_range _ i Hi)) as [b [Hb Hf]].
    bind_step Hf as u1 U1. bind_step Hf as t1 T1.
    bind_step Hf as u2 U2. bind_step Hf as t2 T2.
    bind_step Hf as c1 C1. bind_step Hf as p1 P1.
    bind_step Hf as c2 C2. bind_step Hf as p2 P2.
    bind_step Hf as path Hpath.
    inversion Hf; subst b. clear Hf.
    apply index_ok_inv in U1, U2, P2.
    apply getitem_ok_inv in T1, T2, C1, C2.
    apply index_last_ok_inv in P1.
    apply interpolate_points_spec in Hpath. destruct Hpath as [Hl Hs].
    assert (Hll : has_lat_lon p1 = true /\ has_lat_lon p2 = true).
    { destruct (Hs 0%nat) as [q [_ Hq]]; [lia|].
      destruct Hq as (la1 & lo1 & la2 & lo2 & la & lo & el
                      & Q1 & Q2 & Q3 & Q4 & _).
      unfold has_lat_lon. rewrite Q1, Q2, Q3, Q4. auto. }
    split.
    + unfold joinable_at, joinable. rewrite U1, U2, C1, C2, P1, P2.
      destruct Hll as [-> ->]. reflexivity.
    + destruct (nth_error_last _ _ P1) as [front Hfront].
      assert (Hback : exists back, c2 = p2 :: back).
      { destruct c2; simpl in P2; inversion P2. eauto. }
      destruct Hback as [back Hback]. subst c1 c2.
      exists u1, u2. eexists.
      split; [exact U1|]. split; [exact U2|]. split; [exact Hb|].
      exists t1, t2, front, p1, p2, back. simpl.
      repeat (split; [first [assumption|reflexivity]|]). exact Hs.
  - apply Nat.ltb_ge in L. inversion H; subst. simpl.
    split; [lia|]. intros i Hi. lia.
Qed.

Lemma identify_boundaries_total (s : SurveyData) :
  processable s = true -> exists bs, _identify_boundaries s = Ok bs.
Proof.
  unfold processable, _identify_boundaries.
  set (us := get_default (sd_units s) []). intros H.
  apply andb_true_iff in H. destruct H as [Hc Hj].
  destruct (1 <? List.length us)%nat; [|eauto].
  apply for_each_total. intros i Hi.
  rewrite forallb_forall in Hc, Hj. specialize (Hj i Hi).
  unfold joinable_at in Hj.
  destruct (nth_error us i) as [u1|] eqn:E1; [|discriminate].
  destruct (nth_error us (i + 1)) as [u2|] eqn:E2; [|discriminate].
  pose proof (Hc u1 (nth_error_In _ _ E1)) as C1.
  pose proof (Hc u2 (nth_error_In _ _ E2)) as C2.
  unfold complete_unit in C1, C2. unfold joinable in Hj.
  rewrite (index_nth _ _ _ E1), (index_nth _ _ _ E2). cbn [bind].
  destruct (unit_type u1); [|discriminate]. cbn [getitem bind].
  destruct (unit_type u2); [|discriminate]. cbn [getitem bind].
  destruct (unit_coordinates u1) as [c1|]; [|discriminate].
  cbn [getitem bind].
  destruct (nth_error c1 (List.length c1 - 1)) as [p1|] eqn:P1;
    [|destruct (unit_coordinates u2); discriminate].
  rewrite (index_last_ok _ _ P1). cbn [bind].
  destruct (unit_coordinates u2) as [c2|]; [|discriminate].
  cbn [getitem bind].
  destruct (nth_error c2 0) as [p2|] eqn:P2; [|discriminate].
  rewrite (index_nth _ _ _ P2). cbn [bind].
  apply andb_true_iff in Hj. destruct Hj as [L1 L2].
  destruct (interpolate_points_total p1 p2 L1 L2) as [path ->].
  cbn [bind]. eauto.
Qed.

(** ** Structural features *)

Lemma deltas_as_map (d : Coordinate) (cs : list Coordinate) :
  elevation_deltas cs =
    map (fun i => Qabs (elevation_or_0 (nth (i + 1) cs d)
                        - elevation_or_0 (nth i cs d)))
        (range (List.length cs - 1)).
Proof.
  unfold range. induction cs as [|c0 rest IH]; [reflexivity|].
  destruct rest as [|c1 rest']; [reflexivity|].
  change (elevation_deltas (c0 :: c1 :: rest'))
    with (Qabs (elevation_or_0 c1 - elevation_or_0 c0)
          :: elevation_deltas (c1 :: rest')).
  rewrite IH.
  replace (List.length (c0 :: c1 :: rest') - 1)%nat
    with (S (List.length (c1 :: rest') - 1)) by (simpl; lia).
  rewrite <- cons_seq, <- seq_shift. cbn [map]. rewrite map_map.
  f_equal.
Qed.

Lemma length_deltas (cs : list Coordinate) :
  List.length (elevation_deltas cs) = (List.length cs - 1)%nat.
Proof.
  rewrite (deltas_as_map {| lat := None; lon := None; elevation := None |}).
  rewrite length_map. unfold range. apply length_seq.
Qed.

Lemma nth_error_deltas (cs : list Coordinate) (i : nat) (m : Q) :
  nth_error (elevation_deltas cs) i = Some m ->
  exists a b, nth_error cs i = Some a /\ nth_error cs (i + 1) = Some b /\
              m = Qabs (elevation_or_0 b - elevation_or_0 a).
Proof.
  intros H.
  assert (Hi : (i < List.length cs - 1)%nat).
  { rewrite <- length_deltas. apply nth_error_Some. congruence. }
  set (d := {| lat := None; lon := None; elevation := None |}).
  rewrite (deltas_as_map d) in H.
  rewrite nth_error_map, (nth_error_range _ _ Hi) in H.
  cbn [option_map] in H. inversion H as [Hm]. clear H.
  exists (nth i cs d), (nth (i + 1) cs d).
  split; [apply nth_error_nth'; lia|].
  split; [apply nth_error_nth'; lia|]. reflexivity.
Qed.

Lemma elev_changes_ok (cs : list Coordinate) :
  for_each
    (fun i =>
       c1 <- index cs (i + 1) ;;
       c0 <- index cs i ;;
       Ok (Qabs (elevation_or_0 c1 - elevation_or_0 c0)))
    (range (List.length cs - 1)) = Ok (elevation_deltas cs).
Proof.
  set (d := {| lat := None; lon := None; elevation := None |}).
  rewrite (deltas_as_map d). apply for_each_map.
  intros i Hi. apply in_range in Hi.
  rewrite (index_nth cs (i + 1) (nth (i + 1) cs d))
    by (apply nth_error_nth'; lia).
  rewrite (index_nth cs i (nth i cs d)) by (apply nth_error_nth'; lia).
  reflexivity.
Qed.

Lemma Qgtb_compat (x y z : Q) : x == y -> Qgtb x z = Qgtb y z.
Proof.
  intros H. unfold Qgtb. f_equal. apply Qleb_comp; [exact H|reflexivity].
Qed.

Lemma identify_structural_features_spec (s : SurveyData) :
  let cs := get_default (sd_coordinates s) [] in
  let ds := elevation_deltas cs in
  ((List.length cs < 2)%nat -> _identify_structural_features s = Ok []) /\
  ((2 <= List.length cs)%nat ->
     exists i a b m,
       nth_error cs i = Some a /\ nth_error cs (i + 1) = Some b /\
       nth_error ds i = Some m /\
       (forall d, In d ds -> d <= m) /\
       (forall j d, (j < i)%nat -> nth_error ds j = Some d -> d < m) /\
       _identify_structural_features s =
         Ok (if Qgtb m 50
             then [ {| feature_type := "fault";
                       feature_coordinates := [a; b];
                       displacement := m |} ]
             else [])).
Proof.
  intros cs ds. unfold _identify_structural_features. fold cs. split.
  - intros H. assert (L : (1 <? List.length cs)%nat = false)
      by (apply Nat.ltb_ge; lia).
    rewrite L. reflexivity.
  - intros H. assert (L : (1 <? List.length cs)%nat = true)
      by (apply Nat.ltb_lt; lia).
    rewrite L, elev_changes_ok. fold ds. cbn [bind].
    assert (Hne : ds <> []).
    { intros C. pose proof (length_deltas cs) as Hl. fold ds in Hl.
      rewrite C in Hl. simpl in Hl. lia. }
    destruct (py_max_spec ds Hne) as (m0 & Hmax & Hin & Hle).
    destruct (py_index_found ds m0 Hin) as [i Hidx].
    destruct (py_index_spec ds m0 i Hidx) as [[m [Hm Hmm]] Hfirst].
    destruct (nth_error_deltas cs i m Hm) as (a & b & Ha & Hb & _).
    exists i, a, b, m.
    split; [exact Ha|]. split; [exact Hb|]. split; [exact Hm|].
    split; [|split].
    + intros d Hd. rewrite Hmm. apply Hle. exact Hd.
    + intros j d Hj Hd. rewrite Hmm.
      pose proof (Hle d (nth_error_In _ _ Hd)) as Hd_le.
      apply Qle_lteq in Hd_le.
      destruct Hd_le as [Hlt|Heq]; [exact Hlt|].
      exfalso. exact (Hfirst j d Hj Hd Heq).
    + rewrite Hmax. cbn [bind]. rewrite (Qgtb_compat m m0 50 Hmm).
      destruct (Qgtb m0 50); [|reflexivity].
      rewrite Hidx. cbn [bind].
      rewrite (index_nth _ _ _ Ha), (index_nth _ _ _ Hb),
        (index_nth _ _ _ Hm).
      reflexivity.
Qed.

Lemma identify_structural_features_total (s : SurveyData) :
  exists fs, _identify_structural_features s = Ok fs.
Proof.
  destruct (identify_structural_features_spec s) as [Hshort Hlong].
  destruct (le_lt_dec 2 (List.length (get_default (sd_coordinates s) [])))
    as [H|H].
  - destruct (Hlong H) as (i & a & b & m & _ & _ & _ & _ & _ & E). eauto.
  - eauto.
Qed.

(** ** The whole of [process_survey_data] *)

Lemma process_ok_inv (kb : KnowledgeBase) (s : SurveyData) (p : ProcessedMap) :
  process_survey_data kb s = Ok p ->
  _identify_units kb s = Ok (units p) /\
  _identify_boundaries s = Ok (boundaries p) /\
  _identify_structural_features s = Ok (structural_features p) /\
  coordinates p = get_default (sd_coordinates s) [].
Proof.
  unfold process_survey_data. intros H.
  bind_step H as us U. bind_step H as bs B. bind_step H as fs F.
  inversion H; subst p. simpl. auto.
Qed.

Lemma process_total (kb : KnowledgeBase) (s : SurveyData) :
  processable s = true -> exists p, process_survey_data kb s = Ok p.
Proof.
  intros H. unfold process_survey_data.
  destruct (identify_units_total kb s) as [us ->].
  { unfold processable in H. apply andb_true_iff in H. apply H. }
  destruct (identify_boundaries_total s H) as [bs ->].
  destruct (identify_structural_features_total s) as [fs ->].
  cbn [bind]. eauto.
Qed.




Lemma getitem_raises {A : Type} (key : string) (o : option A) (e : exn) :
  getitem key o = Raise e -> e = KeyError key.
Proof. destruct o; simpl; intros H; inversion H; reflexivity. Qed.





(* ===================================================================== *)
(** * Properties of [process_survey_data] *)
(* ===================================================================== *)






Example fault_example_5_60_3 :
  _identify_structural_features sample_survey =
    Ok [fault (point (341 # 10) (-118) 105)
              (point (342 # 10) (-1179 # 10) 165) 60].
Proof. reflexivity. Qed.

(** C5. Absent or empty collections give empty derived collections, not
    failures.  Without units (the key absent or the list empty),
    [process_survey_data] succeeds with no units and no boundaries,
    whatever the coordinates are.  Without coordinates, fault detection
    yields no feature, and [process_survey_data] returns no feature and
    no coordinates; it does return whenever the units can be processed.
    Without both, the result is empty throughout. *)
Theorem empty_collections_give_empty_results
    (kb : KnowledgeBase) (s : SurveyData) :
  (get_default (sd_units s) [] = [] ->
     exists fs,
       process_survey_data kb s =
         Ok {| units := []; boundaries := []; structural_features := fs;
               coordinates := get_default (sd_coordinates s) [] |}) /\
  (get_default (sd_coordinates s) [] = [] ->
     _identify_structural_features s = Ok [] /\
     (processable s = true ->
        exists us bs,
          process_survey_data kb s =
            Ok {| units := us; boundaries := bs; structural_features := [];
                  coordinates := [] |}) /\
     (forall p, process_survey_data kb s = Ok p ->
        structural_features p = [] /\ coordinates p = [])) /\
  (get_default (sd_units s) [] = [] ->
   get_default (sd_coordinates s) [] = [] ->
     process_survey_data kb s =
       Ok {| units := []; boundaries := []; structural_features := [];
             coordinates := [] |}).
Proof.
  assert (Hu : get_default (sd_units s) [] = [] ->
               _identify_units kb s = Ok [] /\ _identify_boundaries s = Ok []).
  { intros E. unfold _identify_units, _identify_boundaries.
    rewrite E. split; reflexivity. }
  assert (Hc : get_default (sd_coordinates s) [] = [] ->
               _identify_structural_features s = Ok []).
  { intros E. unfold _identify_structural_features. rewrite E. reflexivity. }
  split; [|split].
  - intros E. destruct (Hu E) as [U B].
    destruct (identify_structural_features_total s) as [fs F].
    exists fs. unfold process_survey_data. rewrite U, B, F. reflexivity.
  - intros E. split; [exact (Hc E)|]. split.
    + intros P. destruct (process_total kb s P) as [p Hp].
      destruct (process_ok_inv kb s p Hp) as (_ & _ & F & C).
      rewrite (Hc E) in F. inversion F as [F'].
      exists (units p), (boundaries p). rewrite Hp.
      destruct p; simpl in *. congruence.
    + intros p Hp. destruct (process_ok_inv kb s p Hp) as (_ & _ & F & C).
      rewrite (Hc E) in F. split; congruence.
  - intros Eu Ec. destruct (Hu Eu) as [U B].
    unfold process_survey_data. rewrite U, B, (Hc Ec), Ec. reflexivity.
Qed.

(** A survey with neither key, and one with four coordinates and an empty
    unit list. *)
Lemma empty_collections_give_empty_results_witness :
  process_survey_data sample_kb
    {| sd_coordinates := None; sd_units := None |} =
    Ok {| units := []; boundaries := []; structural_features := [];
          coordinates := [] |} /\
  exists fs,
    process_survey_data sample_kb
      {| sd_coordinates := Some sample_track; sd_units := Some [] |} =
      Ok {| units := []; boundaries := []; structural_features := fs;
            coordinates := sample_track |}.
Proof.
  split.
  - apply (empty_collections_give_empty_results sample_kb
             {| sd_coordinates := None; sd_units := None |}); reflexivity.
  - apply (empty_collections_give_empty_results sample_kb
             {| sd_coordinates := Some sample_track; sd_units := Some [] |}).
    reflexivity.
Defined.




(** Two units with empty coordinate lists: the boundary between them has
    no endpoints, and subscripting the empty list raises.  A single such
    unit is processed. *)
Example empty_unit_coordinates_raise :
  process_survey_data sample_kb survey_with_empty_unit_coordinates
    = Raise IndexError /\
  is_ok (process_survey_data sample_kb
           {| sd_coordinates := None;
              sd_units := Some [unit_at "Granite" []] |}) = true.
Proof. split; reflexivity. Qed.



(** The knowledge base does matter: once "Gneiss" is added as a rock, the
    third unit of the sample survey is classified differently. *)
Example process_depends_on_knowledge_base :
  process_survey_data
    (add_rock sample_kb {| name := "Gneiss"; properties := [] |})
    sample_survey
  <> process_survey_data sample_kb sample_survey.
Proof. vm_compute. discriminate. Qed.

(* ===================================================================== *)
(** * The survey store *)
(* ===================================================================== *)

Lemma decode_zeros (k : nat) (s : string) :
  decode_03d (zeros k ++ s) = decode_03d s.
Proof.
  unfold decode_03d. induction k as [|k IH]; [reflexivity|].
  simpl. destruct (NilEmpty.uint_of_string (zeros k ++ s)) as [d|];
    simpl in *; [|exact IH].
  rewrite <- IH. reflexivity.
Qed.

Lemma decode_format_03d (n : nat) : decode_03d (format_03d n) = Some n.
Proof.
  unfold format_03d. rewrite decode_zeros.
  unfold decode_03d, str_of_nat. rewrite NilEmpty.usu. simpl.
  rewrite Unsigned.of_to. reflexivity.
Qed.

Lemma format_03d_inj (n m : nat) : format_03d n = format_03d m -> n = m.
Proof.
  intros H. pose proof (decode_format_03d n) as Hn.
  rewrite H, decode_format_03d in Hn. congruence.
Qed.

Lemma numbered_ids_NoDup (n : nat) : NoDup (numbered_ids n).
Proof.
  unfold numbered_ids, range. apply Injective_map_NoDup.
  - intros x y H. simpl in H. inversion H as [H'].
    apply format_03d_inj in H'. lia.
  - apply seq_NoDup.
Qed.

Lemma numbered_ids_S (n : nat) :
  numbered_ids (S n) =
    (numbered_ids n ++ [("survey_" ++ format_03d (n + 1))%string])%list.
Proof.
  unfold numbered_ids, range. rewrite seq_S, map_app. reflexivity.
Qed.

Lemma append_description_ids (l : list Survey) (sid : string)
    (e : Description) :
  map survey_id (append_description l sid e) = map survey_id l.
Proof.
  induction l as [|sv l IH]; simpl; [reflexivity|].
  destruct (String.eqb (survey_id sv) sid); simpl; [reflexivity|].
  rewrite IH. reflexivity.
Qed.

Lemma append_description_found (l : list Survey) (sid : string)
    (e : Description) (sv : Survey) :
  first_with_id l sid = Some sv ->
  first_with_id (append_description l sid e) sid
    = Some (with_description sv e).
Proof.
  induction l as [|x l IH]; simpl; [discriminate|].
  destruct (String.eqb (survey_id x) sid) eqn:E; simpl.
  - intros H. inversion H; subst. rewrite E. reflexivity.
  - rewrite E. exact IH.
Qed.

Lemma add_description_ids (self : SurveyManager) (sid description : string)
    (location_index : Z) :
  ids (snd (add_description self sid description location_index)) = ids self.
Proof.
  unfold add_description, ids.
  destruct (_get_survey self sid); [|reflexivity].
  destruct (infer_type_from_description description); simpl;
    apply append_description_ids.
Qed.

Lemma step_ids (self : SurveyManager) (op : operation) :
  ids (fst (step self op)) =
    (ids self ++ match snd (step self op) with
                 | Some sid => [sid]
                 | None => []
                 end)%list /\
  (ids self = numbered_ids (List.length (ids self)) ->
   ids (fst (step self op)) =
     numbered_ids (List.length (ids (fst (step self op))))).
Proof.
  destruct op as [cs f today|sid description location_index]; simpl.
  - unfold ids. simpl. rewrite map_app. simpl. split; [reflexivity|].
    intros I. rewrite length_app, length_map in *. simpl.
    rewrite Nat.add_1_r, numbered_ids_S, <- I, Nat.add_1_r. reflexivity.
  - rewrite add_description_ids, app_nil_r. auto.
Qed.

Lemma run_ids (ops : list operation) (self : SurveyManager) :
  ids (fst (run self ops)) = (ids self ++ snd (run self ops))%list /\
  (ids self = numbered_ids (List.length (ids self)) ->
   ids (fst (run self ops)) =
     numbered_ids (List.length (ids (fst (run self ops))))).
Proof.
  revert self. induction ops as [|op ops IH]; intros self; simpl.
  - rewrite app_nil_r. auto.
  - destruct (step_ids self op) as [S1 S2].
    destruct (step self op) as [self1 assigned] eqn:E. simpl in S1, S2.
    destruct (IH self1) as [R1 R2].
    destruct (run self1 ops) as [self2 later] eqn:E'. simpl in *.
    split.
    + rewrite R1, S1, <- app_assoc. destruct assigned; reflexivity.
    + intros I. apply R2. apply S2. exact I.
Qed.

Lemma run_app (ops1 ops2 : list operation) (self : SurveyManager) :
  run self (ops1 ++ ops2) =
    (fst (run (fst (run self ops1)) ops2),
     (snd (run self ops1) ++ snd (run (fst (run self ops1)) ops2))%list).
Proof.
  revert self. induction ops1 as [|op ops1 IH]; intros self; simpl.
  - destruct (run self ops2). reflexivity.
  - destruct (step self op) as [self1 assigned]. rewrite IH.
    destruct (run self1 ops1) as [self2 later]. simpl.
    destruct assigned; reflexivity.
Qed.

(** C9. Starting from a store without surveys, whatever sequence of
    [create_survey] and [add_description] calls is made: the ids assigned
    are pairwise distinct; the k-th of them is ["survey_"] followed by k
    in decimal, zero-padded to three digits, which is what the length of
    the collection gives, since every creation appends one survey and
    nothing is ever removed; the stored surveys carry exactly the
    assigned ids, in order; and a survey that exists at some moment is
    still at its place, under the same id, after any further calls. *)
Theorem survey_ids_distinct_and_stable
    (kb : KnowledgeBase) (file : option (list Survey))
    (ops1 ops2 : list operation) :
  let before := fst (run (empty_manager kb file) ops1) in
  let after := fst (run before ops2) in
  let assigned := snd (run (empty_manager kb file) (ops1 ++ ops2)) in
  NoDup assigned /\
  assigned = numbered_ids (List.length assigned) /\
  ids after = assigned /\
  (List.length (surveys before) <= List.length (surveys after))%nat /\
  forall i survey,
    nth_error (surveys before) i = Some survey ->
    exists survey',
      nth_error (surveys after) i = Some survey' /\
      survey_id survey' = survey_id survey.
Proof.
  intros before after assigned.
  assert (Hall : ids after = assigned /\
                 ids after = numbered_ids (List.length (ids after))).
  { destruct (run_ids (ops1 ++ ops2) (empty_manager kb file)) as [R1 R2].
    unfold assigned, after, before. rewrite run_app in *. simpl in *.
    split; [exact R1|]. apply R2. reflexivity. }
  destruct Hall as [Hids Hnum].
  assert (Hpre : ids after = (ids before ++ snd (run before ops2))%list)
    by apply run_ids.
  split; [rewrite <- Hids, Hnum; apply numbered_ids_NoDup|].
  split; [rewrite <- Hids; exact Hnum|].
  split; [exact Hids|].
  split.
  - apply (f_equal (@List.length string)) in Hpre.
    unfold ids in Hpre. rewrite length_app, !length_map in Hpre. lia.
  - intros i survey Hi.
    assert (Hid : nth_error (ids after) i = Some (survey_id survey)).
    { rewrite Hpre, nth_error_app1.
      - unfold ids. rewrite nth_error_map, Hi. reflexivity.
      - unfold ids. rewrite length_map. apply nth_error_Some. congruence. }
    unfold ids in Hid. rewrite nth_error_map in Hid.
    destruct (nth_error (surveys after) i) as [survey'|]; [|discriminate].
    exists survey'. split; [reflexivity|]. simpl in Hid. congruence.
Qed.

Lemma survey_ids_distinct_and_stable_witness :
  nth_error
    (surveys (fst (run (empty_manager sample_kb None)
                     [CreateSurvey sample_track None "2024-05-01"])))
    0 = Some {| survey_id := "survey_001";
                survey_coordinates := sample_track;
                descriptions := [];
                formation := None;
                date := "2024-05-01" |} /\
  exists survey',
    nth_error
      (surveys
         (fst (run (fst (run (empty_manager sample_kb None)
                           [CreateSurvey sample_track None "2024-05-01"]))
                 [ AddDescription "survey_001" "This is granite" 0;
                   CreateSurvey [] None "2024-05-02" ])))
      0 = Some survey' /\
    survey_id survey' = "survey_001".
Proof.
  split; [reflexivity|].
  destruct (survey_ids_distinct_and_stable sample_kb None
              [CreateSurvey sample_track None "2024-05-01"]
              [ AddDescription "survey_001" "This is granite" 0;
                CreateSurvey [] None "2024-05-02" ])
    as (_ & _ & _ & _ & Hstable).
  apply (Hstable 0%nat
           {| survey_id := "survey_001";
              survey_coordinates := sample_track;
              descriptions := [];
              formation := None;
              date := "2024-05-01" |}).
  reflexivity.
Defined.

Example survey_ids_of_three_creations :
  snd (run (empty_manager sample_kb None)
         [ CreateSurvey sample_track None "2024-05-01";
           AddDescription "survey_001" "This is granite" 0;
           CreateSurvey [] (Some "Franciscan") "2024-05-02";
           AddDescription "survey_007" "no such survey" 0;
           CreateSurvey [] None "2024-05-03" ])
  = ["survey_001"; "survey_002"; "survey_003"].
Proof. reflexivity. Qed.

Example format_03d_widens : format_03d 1000 = "1000" /\ format_03d 42 = "042".
Proof. split; reflexivity. Qed.

(** C10. [add_description] answers with nothing in two different
    situations.  If no survey carries the id, nothing is returned and the
    manager, the stored surveys and the file included, is as before.  If
    the survey exists and no type can be inferred from the text, the
    description, with no inferred type, is appended to the first survey
    carrying the id, the collection is written to the file, and nothing
    is returned all the same: the manager has changed.  In no other
    situation is nothing returned. *)
Theorem add_description_absent_result (self : SurveyManager)
    (sid description : string) (location_index : Z) :
  let outcome := add_description self sid description location_index in
  let desc_entry :=
    {| location_index := location_index;
       text := description;
       inferred_type := None |} in
  (_get_survey self sid = None -> outcome = (None, self)) /\
  (forall survey,
     _get_survey self sid = Some survey ->
     infer_type_from_description description = None ->
     fst outcome = None /\
     surveys (snd outcome) = append_description (surveys self) sid desc_entry /\
     _get_survey (snd outcome) sid = Some (with_description survey desc_entry) /\
     survey_file (snd outcome) = Some (surveys (snd outcome)) /\
     snd outcome <> self) /\
  (fst outcome = None <->
     _get_survey self sid = None \/
     infer_type_from_description description = None).
Proof.
  intros outcome desc_entry. unfold outcome, add_description.
  split; [intros ->; reflexivity|]. split.
  - intros survey Hs Hi. rewrite Hs, Hi. cbn [fst snd].
    set (self' := _save_surveys _).
    assert (Hf : _get_survey self' sid
                 = Some (with_description survey desc_entry)).
    { unfold _get_survey, self'. simpl.
      apply append_description_found. exact Hs. }
    split; [reflexivity|]. split; [reflexivity|].
    split; [exact Hf|]. split; [reflexivity|].
    intros C. rewrite C, Hs in Hf. inversion Hf as [Hd].
    apply (f_equal descriptions) in Hd. simpl in Hd.
    apply (f_equal (@List.length Description)) in Hd.
    rewrite length_app in Hd. simpl in Hd. lia.
  - destruct (_get_survey self sid) as [survey|]; simpl.
    + destruct (infer_type_from_description description); simpl; split.
      * discriminate.
      * intros [C|C]; discriminate.
      * auto.
      * reflexivity.
    + split; auto.
Qed.

(** On the sample manager: an unknown id leaves everything as it is, an
    uninformative text about [survey_001] is stored and written out, and
    both calls return nothing. *)
Lemma add_description_absent_result_witness :
  _get_survey sample_manager "survey_002" = None /\
  add_description sample_manager "survey_002" "This is granite" 0
    = (None, sample_manager) /\
  infer_type_from_description "unremarkable gray rock" = None /\
  fst (add_description sample_manager "survey_001"
         "unremarkable gray rock" 0) = None /\
  snd (add_description sample_manager "survey_001"
         "unremarkable gray rock" 0) <> sample_manager.
Proof.
  assert (H2 : _get_survey sample_manager "survey_002" = None)
    by reflexivity.
  assert (Hi : infer_type_from_description "unremarkable gray rock" = None)
    by reflexivity.
  destruct (add_description_absent_result sample_manager "survey_002"
              "This is granite" 0) as [Hnone _].
  destruct (add_description_absent_result sample_manager "survey_001"
              "unremarkable gray rock" 0) as (_ & Hsome & _).
  destruct (Hsome _ eq_refl Hi) as (R & _ & _ & _ & D).
  split; [exact H2|]. split; [exact (Hnone H2)|].
  split; [exact Hi|]. split; [exact R|exact D].
Defined.

(* ===================================================================== *)
(** * The map generator *)
(* ===================================================================== *)



Section MapGeneratorFacts.

Variable raises : list call -> call -> option exn.
Variable output_dir : string.
Variable arctan2_degrees : Q -> Q -> Q.
Variable str_of_number : Q -> string.

Local Abbreviation draw :=
  (draw_and_save raises output_dir arctan2_degrees str_of_number).
Local Abbreviation generate :=
  (generate_detailed_map raises output_dir arctan2_degrees str_of_number).

Lemma bindR_ok {A B : Type} (m : render A) (k : A -> render B)
    (t t' : list call) (a : A) :
  m t = (Ok a, t') -> bindR m k t = k a t'.
Proof. unfold bindR. intros ->. reflexivity. Qed.

Lemma bindR_raise {A B : Type} (m : render A) (k : A -> render B)
    (t t' : list call) (e : exn) :
  m t = (Raise e, t') -> bindR m k t = (Raise e, t').
Proof. unfold bindR. intros ->. reflexivity. Qed.

Lemma bindR_ok_inv {A B : Type} (m : render A) (k : A -> render B)
    (t t' : list call) (b : B) :
  bindR m k t = (Ok b, t') ->
  exists a t1, m t = (Ok a, t1) /\ k a t1 = (Ok b, t').
Proof.
  unfold bindR. destruct (m t) as [[a|e] t1]; [eauto|discriminate].
Qed.

(** The outcome of [generate_detailed_map] in terms of what the
    statements inside [try:] did. *)
Lemma generate_outcome (survey_data : MapData) (trace : list call) :
  generate survey_data trace =
    match draw survey_data trace with
    | (Ok path, t) => (Ok (Some path), (t ++ [plt_close_all])%list)
    | (Raise e, t) =>
        (Ok None, ((t ++ [logging_error e]) ++ [plt_close_all])%list)
    end.
Proof.
  unfold generate_detailed_map, try_except_finally, bindR, quiet, ret.
  destruct (draw survey_data trace) as [[path|e] t]; reflexivity.
Qed.

(** Without coordinates the axis limits cannot be computed: the key is
    missing, or [min] is applied to an empty list. *)
Lemma plot_raises_without_coordinates (data : MapData) (t : list call) :
  get_default (map_coordinates data) [] = [] ->
  exists e,
    _plot_geological_features raises arctan2_degrees str_of_number data t
      = (Raise e, t) /\
    (e = KeyError "coordinates" \/ e = ValueError).
Proof.
  unfold _plot_geological_features.
  destruct (map_coordinates data) as [[|c cs]|]; simpl; intros H;
    try discriminate.
  - exists ValueError. split; [reflexivity|auto].
  - exists (KeyError "coordinates"). split; [reflexivity|auto].
Qed.


Lemma draw_path (survey_data : MapData) (trace t : list call)
    (path : string) :
  draw survey_data trace = (Ok path, t) ->
  path = output_dir ++ "/" ++ "geological_map_"
         ++ get_default (map_id survey_data) "survey" ++ ".png" /\
  In (fig_savefig path) t.
Proof.
  unfold draw_and_save. intros H.
  apply bindR_ok_inv in H. destruct H as (u1 & t1 & _ & H).
  apply bindR_ok_inv in H. destruct H as (u2 & t2 & _ & H).
  apply bindR_ok_inv in H. destruct H as (u3 & t3 & _ & H).
  apply bindR_ok_inv in H. destruct H as (u4 & t4 & _ & H).
  unfold _save_map in H.
  apply bindR_ok_inv in H. destruct H as (u5 & t5 & S1 & H).
  apply bindR_ok_inv in H. destruct H as (u6 & t6 & S2 & H).
  unfold ret in H. inversion H; subst. split; [reflexivity|].
  unfold ext in S1, S2.
  destruct (raises t4 _); inversion S1; subst.
  destruct (raises _ _); inversion S2; subst.
  apply in_or_app. left. apply in_or_app. right. left. reflexivity.
Qed.


End MapGeneratorFacts.

(** The test of [tests/test_map_generator.py]: with a plotting library in
    which nothing fails, the map of [test_data] is saved and its path
    returned; the limits of the x axis are the one longitude, widened by
    the margin on both sides. *)
Example test_map_creation :
  let outcome :=
    generate_detailed_map never_raises "output" (fun _ _ => 0)
      (fun _ => "?") test_data [] in
  fst outcome = Ok (Some "output/geological_map_survey.png") /\
  In (ax_set_xlim (-118 - (1 # 10)) (-118 + (1 # 10))) (snd outcome) /\
  last (snd outcome) plt_figure = plt_close_all.
Proof.
  vm_compute. split; [reflexivity|]. split; [|reflexivity].
  do 3 right. left. reflexivity.
Qed.

(** When writing the file fails, the failure is logged, the figures are
    closed and nothing is returned. *)
Example savefig_failure_is_reported :
  let outcome :=
    generate_detailed_map savefig_fails "output" (fun _ _ => 0)
      (fun _ => "?") test_data [] in
  fst outcome = Ok None /\
  In (logging_error (LibraryError "cannot write")) (snd outcome) /\
  last (snd outcome) plt_figure = plt_close_all.
Proof.
  vm_compute. split; [reflexivity|]. split; [|reflexivity].
  repeat (first [left; reflexivity | right]).
Qed.


(* ===================================================================== *)
(** * Substrings *)
(* ===================================================================== *)

Lemma prefix_spec (a s : string) :
  prefix a s = true <-> exists post, s = a ++ post.
Proof.
  revert s. induction a as [|c a IH]; intros s; simpl.
  - split; [intros _; exists s; reflexivity|].
    intros _. destruct s; reflexivity.
  - destruct s as [|d s]; simpl.
    + split; [discriminate|intros [post H]; discriminate H].
    + destruct (Ascii.ascii_dec c d) as [->|N].
      * rewrite IH. split; intros [post H]; exists post.
        -- rewrite H. reflexivity.
        -- inversion H. reflexivity.
      * split; [discriminate|].
        intros [post H]. inversion H. congruence.
Qed.

Lemma contains_spec (sub s : string) :
  contains sub s = true <-> exists pre post, s = pre ++ sub ++ post.
Proof.
  induction s as [|c s IH].
  - cbn [contains]. rewrite orb_false_r, prefix_spec. split.
    + intros [post H]. exists "", post. exact H.
    + intros (pre & post & H). destruct pre; [eauto|discriminate H].
  - cbn [contains]. rewrite orb_true_iff, prefix_spec, IH. split.
    + intros [[post H]|(pre & post & H)].
      * exists "", post. exact H.
      * exists (String c pre), post. rewrite H. reflexivity.
    + intros (pre & post & H). destruct pre as [|d pre].
      * left. eauto.
      * right. inversion H. eauto.
Qed.

Lemma contains_refl (s : string) : contains s s = true.
Proof.
  apply contains_spec. exists "", "". simpl.
  induction s as [|c s IH]; simpl; congruence.
Qed.


(* ===================================================================== *)
(** * The knowledge base *)
(* ===================================================================== *)

Lemma scan_by_name_app (xs ys : list Entry) (nm : string) :
  scan_by_name (xs ++ ys) nm =
    match scan_by_name xs nm with
    | Some x => Some x
    | None => scan_by_name ys nm
    end.
Proof.
  induction xs as [|x xs IH]; simpl; [reflexivity|].
  destruct (String.eqb (lower (name x)) (lower nm)); [reflexivity|exact IH].
Qed.

Lemma scan_by_name_kept (xs ys : list Entry) (nm : string) (x : Entry) :
  scan_by_name xs nm = Some x -> scan_by_name (xs ++ ys) nm = Some x.
Proof. intros H. rewrite scan_by_name_app, H. reflexivity. Qed.




(** X2. What a lookup by name finds, a search under the key "name"
    finds too: the mineral [get_mineral] returns is among the results of
    searching the minerals for that name, and the rock [get_rock]
    returns is among the results of searching the rocks for it. *)
Theorem lookup_is_found_by_search (kb : KnowledgeBase) (nm : string) :
  (forall mineral,
     get_mineral kb nm = Some mineral ->
     In mineral (search_by_property kb "name" nm "mineral")) /\
  (forall rock search_type,
     search_type <> "mineral" ->
     get_rock kb nm = Some rock ->
     In rock (search_by_property kb "name" nm search_type)).
Proof.
  assert (H : forall xs x, scan_by_name xs nm = Some x ->
            In x (filter
                    (fun item =>
                       match item_get item "name" with
                       | Some v => contains (lower nm) (lower v)
                       | None => false
                       end) xs)).
  { intros xs x Hx. apply scan_by_name_some in Hx. destruct Hx as [Hin Hn].
    apply filter_In. split; [exact Hin|].
    unfold item_get. simpl. rewrite Hn. apply contains_refl. }
  split.
  - intros mineral Hm. unfold search_by_property. simpl. apply H. exact Hm.
  - intros rock search_type Ht Hr. unfold search_by_property.
    apply String.eqb_neq in Ht. rewrite Ht. apply H. exact Hr.
Qed.

Lemma lookup_is_found_by_search_witness :
  In calcite (search_by_property sample_kb "name" "CALCITE" "mineral") /\
  In basalt (search_by_property sample_kb "name" "basalt" "rock").
Proof.
  destruct (lookup_is_found_by_search sample_kb "CALCITE") as [Hm _].
  destruct (lookup_is_found_by_search sample_kb "basalt") as [_ Hr].
  split.
  - apply Hm. reflexivity.
  - apply Hr; [discriminate|reflexivity].
Defined.


Lemma fold_add_mineral (new : list Entry) (kb : KnowledgeBase) :
  fold_left add_mineral new kb =
    {| minerals := minerals kb ++ new; rocks := rocks kb |}.
Proof.
  revert kb. induction new as [|x new IH]; intros kb; simpl.
  - rewrite app_nil_r. destruct kb; reflexivity.
  - rewrite IH. simpl. rewrite <- app_assoc. reflexivity.
Qed.

Lemma fold_add_rock (new : list Entry) (kb : KnowledgeBase) :
  fold_left add_rock new kb =
    {| minerals := minerals kb; rocks := rocks kb ++ new |}.
Proof.
  revert kb. induction new as [|x new IH]; intros kb; simpl.
  - rewrite app_nil_r. destruct kb; reflexivity.
  - rewrite IH. simpl. rewrite <- app_assoc. reflexivity.
Qed.

(** X4. [update_knowledge_base] only appends: the minerals afterwards
    are the minerals before followed by the scraped minerals, in page
    order, and likewise the rocks; nothing is removed, replaced or
    merged, so a second update appends the same records once more.
    Every name that resolved before the update resolves to the same
    record after it.  When both requests fail the knowledge base is as
    before. *)
Theorem update_only_appends (kb : KnowledgeBase)
    (minerals_page rocks_page : result (list Table)) :
  let kb' := update_knowledge_base kb minerals_page rocks_page in
  minerals kb' = (minerals kb ++ _scrape_mineral_data minerals_page)%list /\
  rocks kb' = (rocks kb ++ _scrape_rock_data rocks_page)%list /\
  minerals (update_knowledge_base kb' minerals_page rocks_page) =
    (minerals kb ++ _scrape_mineral_data minerals_page
       ++ _scrape_mineral_data minerals_page)%list /\
  (forall nm mineral,
     get_mineral kb nm = Some mineral -> get_mineral kb' nm = Some mineral) /\
  (forall nm rock, get_rock kb nm = Some rock -> get_rock kb' nm = Some rock) /\
  (forall e e',
     minerals_page = Raise e -> rocks_page = Raise e' -> kb' = kb).
Proof.
  intros kb'.
  assert (E : forall k mp rp,
            update_knowledge_base k mp rp =
              {| minerals := minerals k ++ _scrape_mineral_data mp;
                 rocks := rocks k ++ _scrape_rock_data rp |}).
  { intros k mp rp. unfold update_knowledge_base.
    rewrite fold_add_rock, fold_add_mineral. reflexivity. }
  unfold kb'. rewrite !E. simpl.
  split; [reflexivity|]. split; [reflexivity|].
  split; [rewrite <- app_assoc; reflexivity|].
  split; [|split].
  - intros nm mineral H. unfold get_mineral in *. simpl.
    apply scan_by_name_kept. exact H.
  - intros nm rock H. unfold get_rock in *. simpl.
    apply scan_by_name_kept. exact H.
  - intros e e' -> ->. simpl. rewrite !app_nil_r. destruct kb; reflexivity.
Qed.

(** A page with one table: a header row, a row with two cells and a row
    with one.  "Quartz" keeps resolving to the record known before. *)
Lemma update_only_appends_witness :
  get_mineral sample_kb "Quartz" = Some quartz /\
  get_mineral
    (update_knowledge_base sample_kb
       (Ok [ [ ["Name"; "About"]; [" Quartz "; "scraped"]; ["Mica"] ] ])
       (Raise (LibraryError "no network")))
    "Quartz" = Some quartz.
Proof.
  assert (H : get_mineral sample_kb "Quartz" = Some quartz) by reflexivity.
  split; [exact H|].
  apply (update_only_appends sample_kb
           (Ok [ [ ["Name"; "About"]; [" Quartz "; "scraped"]; ["Mica"] ] ])
           (Raise (LibraryError "no network"))).
  exact H.
Defined.

(* ===================================================================== *)
(** * The survey store: persistence and lookups *)
(* ===================================================================== *)

Lemma step_saves_or_skips (self : SurveyManager) (op : operation) :
  fst (step self op) = self \/
  survey_file (fst (step self op)) = Some (surveys (fst (step self op))).
Proof.
  destruct op as [cs f today|sid description location_index]; simpl.
  - right. reflexivity.
  - unfold add_description. destruct (_get_survey self sid); [|auto].
    destruct (infer_type_from_description description); right; reflexivity.
Qed.

Lemma run_saves_or_skips (ops : list operation) (self : SurveyManager) :
  fst (run self ops) = self \/
  survey_file (fst (run self ops)) = Some (surveys (fst (run self ops))).
Proof.
  revert self. induction ops as [|op ops IH]; intros self; simpl; [auto|].
  destruct (step_saves_or_skips self op) as [S|S];
    destruct (step self op) as [self1 assigned]; simpl in S;
    destruct (IH self1) as [R|R];
    destruct (run self1 ops) as [self2 later]; simpl in *.
  - left. congruence.
  - auto.
  - right. congruence.
  - auto.
Qed.

(** X5. The file follows the collection.  After any sequence of
    [create_survey] and [add_description] calls on a manager that was
    opened on a file (or on none), either no call has written and the
    collection is still the one that was loaded, or the file holds
    exactly the collection in memory; either way a manager opened
    afterwards on the file finds the same surveys.  (The file is taken
    to give back what was written to it.) *)
Theorem reopened_manager_finds_the_surveys (kb kb' : KnowledgeBase)
    (file : option (list Survey)) (ops : list operation) :
  let self := fst (run (SurveyManager__init__ kb file) ops) in
  surveys (SurveyManager__init__ kb' (survey_file self)) = surveys self /\
  ((survey_file self = file /\ surveys self = _load_surveys file) \/
   survey_file self = Some (surveys self)).
Proof.
  intros self.
  assert (H : (survey_file self = file /\ surveys self = _load_surveys file)
              \/ survey_file self = Some (surveys self)).
  { unfold self.
    destruct (run_saves_or_skips ops (SurveyManager__init__ kb file))
      as [R|R]; [left; rewrite R; split; reflexivity|right; exact R]. }
  split; [|exact H]. simpl.
  destruct H as [[-> ->]| ->]; reflexivity.
Qed.

Lemma first_with_id_app (l l' : list Survey) (sid : string) :
  first_with_id (l ++ l') sid =
    match first_with_id l sid with
    | Some survey => Some survey
    | None => first_with_id l' sid
    end.
Proof.
  induction l as [|x l IH]; simpl; [reflexivity|].
  destruct (String.eqb (survey_id x) sid); [reflexivity|exact IH].
Qed.

Lemma first_with_id_none (l : list Survey) (sid : string) :
  first_with_id l sid = None <-> ~ In sid (map survey_id l).
Proof.
  induction l as [|x l IH]; simpl.
  - split; [intros _ []|reflexivity].
  - destruct (String.eqb (survey_id x) sid) eqn:E.
    + apply String.eqb_eq in E. split; [discriminate|].
      intros H. exfalso. apply H. left. exact E.
    + apply String.eqb_neq in E. rewrite IH. split.
      * intros H [C|C]; [exact (E C)|exact (H C)].
      * intros H C. apply H. right. exact C.
Qed.

Lemma first_with_id_some (l : list Survey) (sid : string) (survey : Survey) :
  first_with_id l sid = Some survey -> In survey l /\ survey_id survey = sid.
Proof.
  induction l as [|x l IH]; simpl; [discriminate|].
  destruct (String.eqb (survey_id x) sid) eqn:E.
  - intros H. inversion H; subst. apply String.eqb_eq in E. auto.
  - intros H. destruct (IH H). auto.
Qed.

Lemma next_id_is_new (n : nat) :
  ~ In ("survey_" ++ format_03d (n + 1)) (numbered_ids n).
Proof.
  pose proof (numbered_ids_NoDup (S n)) as H.
  rewrite numbered_ids_S in H. apply NoDup_remove_2 in H.
  rewrite app_nil_r in H. exact H.
Qed.

Lemma created_survey_lookup (self : SurveyManager)
    (coordinates : list Coordinate) (formation : option string)
    (today : string) :
  ids self = numbered_ids (List.length (ids self)) ->
  _get_survey (snd (create_survey self coordinates formation today))
    (fst (create_survey self coordinates formation today))
  = Some (created self coordinates formation today).
Proof.
  intros I.
  assert (S : surveys (snd (create_survey self coordinates formation today))
              = (surveys self
                   ++ [created self coordinates formation today])%list)
    by reflexivity.
  unfold _get_survey. rewrite S, first_with_id_app.
  assert (N : first_with_id (surveys self)
                (fst (create_survey self coordinates formation today))
              = None).
  { apply first_with_id_none.
    change (map survey_id (surveys self)) with (ids self). rewrite I.
    replace (fst (create_survey self coordinates formation today))
      with ("survey_" ++ format_03d (List.length (ids self) + 1))
      by (unfold ids; rewrite length_map; reflexivity).
    apply next_id_is_new. }
  rewrite N. cbn [first_with_id].
  change (survey_id (created self coordinates formation today))
    with (fst (create_survey self coordinates formation today)).
  rewrite String.eqb_refl. reflexivity.
Qed.

(** X6. The survey that [create_survey] stores is the one its id
    resolves to, provided no stored survey carries that id already; that
    is so in every store whose ids are [survey_001], [survey_002], ...
    in order, as they are in a store grown from an empty one.  The
    survey found has the coordinates and the formation that were given
    and no descriptions.  Every other id resolves as before. *)
Theorem created_survey_is_found (self : SurveyManager)
    (coordinates : list Coordinate) (formation : option string)
    (today : string) :
  let sid := fst (create_survey self coordinates formation today) in
  let self' := snd (create_survey self coordinates formation today) in
  (_get_survey self sid = None ->
     _get_survey self' sid =
       Some {| survey_id := sid;
               survey_coordinates := coordinates;
               descriptions := [];
               formation := formation;
               date := today |}) /\
  (ids self = numbered_ids (List.length (ids self)) ->
     _get_survey self sid = None) /\
  (forall other, other <> sid ->
     _get_survey self' other = _get_survey self other).
Proof.
  intros sid self'.
  assert (S : surveys self' =
              (surveys self ++ [created self coordinates formation today])%list)
    by reflexivity.
  assert (Sid : survey_id (created self coordinates formation today) = sid)
    by reflexivity.
  unfold _get_survey. rewrite S. split; [|split].
  - intros H. rewrite first_with_id_app, H. cbn [first_with_id].
    rewrite Sid, String.eqb_refl. reflexivity.
  - intros I. apply first_with_id_none.
    change (map survey_id (surveys self)) with (ids self). rewrite I.
    replace sid with ("survey_" ++ format_03d (List.length (ids self) + 1))
      by (unfold ids; rewrite length_map; reflexivity).
    apply next_id_is_new.
  - intros other N. rewrite first_with_id_app. cbn [first_with_id].
    rewrite Sid. apply not_eq_sym in N. apply String.eqb_neq in N.
    rewrite N. destruct (first_with_id (surveys self) other); reflexivity.
Qed.

(** The second survey of the sample manager. *)
Lemma created_survey_is_found_witness :
  ids sample_manager = numbered_ids (List.length (ids sample_manager)) /\
  _get_survey (snd (create_survey sample_manager [] None "2024-05-02"))
    "survey_002" =
    Some {| survey_id := "survey_002";
            survey_coordinates := [];
            descriptions := [];
            formation := None;
            date := "2024-05-02" |} /\
  _get_survey (snd (create_survey sample_manager [] None "2024-05-02"))
    "survey_001" = _get_survey sample_manager "survey_001".
Proof.
  assert (I : ids sample_manager
              = numbered_ids (List.length (ids sample_manager)))
    by reflexivity.
  destruct (created_survey_is_found sample_manager [] None "2024-05-02")
    as (Hnew & Hnum & Hother).
  split; [exact I|]. split.
  - apply Hnew. apply Hnum. exact I.
  - apply Hother. discriminate.
Defined.

(** X7. An id that is already taken is handed out again.  When a stored
    survey carries the id that [create_survey] is about to assign (the
    length of the collection plus one, whatever the ids in it are), the
    new survey is appended under the same id, and the id keeps resolving
    to the older survey: the new one cannot be reached by
    [_get_survey], and a description added under the id goes to the
    older survey. *)
Theorem taken_id_shadows_created_survey (self : SurveyManager)
    (coordinates : list Coordinate) (formation : option string)
    (today : string) (older : Survey) :
  let sid := fst (create_survey self coordinates formation today) in
  let self' := snd (create_survey self coordinates formation today) in
  _get_survey self sid = Some older ->
  surveys self' =
    (surveys self ++ [created self coordinates formation today])%list /\
  _get_survey self' sid = Some older /\
  forall description location_index,
    _get_survey
      (snd (add_description self' sid description location_index)) sid
    = Some (with_description older
              {| location_index := location_index;
                 text := description;
                 inferred_type := infer_type_from_description description |}).
Proof.
  intros sid self' H.
  assert (F : _get_survey self' sid = Some older).
  { unfold self', _get_survey in *. simpl. rewrite first_with_id_app.
    fold sid. rewrite H. reflexivity. }
  split; [reflexivity|]. split; [exact F|].
  intros description location_index. unfold add_description. rewrite F.
  destruct (infer_type_from_description description); cbn [snd];
    unfold _get_survey, _save_surveys; simpl;
    apply append_description_found; exact F.
Qed.

(** A store holding a single survey that is called [survey_002]. *)
Lemma taken_id_shadows_created_survey_witness :
  let stored :=
    {| survey_id := "survey_002"; survey_coordinates := sample_track;
       descriptions := []; formation := None; date := "2024-05-01" |} in
  let self := SurveyManager__init__ sample_kb (Some [stored]) in
  fst (create_survey self [] None "2024-05-02") = "survey_002" /\
  _get_survey (snd (create_survey self [] None "2024-05-02")) "survey_002"
    = Some stored.
Proof.
  intros stored self. split; [reflexivity|].
  apply (taken_id_shadows_created_survey self [] None "2024-05-02" stored).
  reflexivity.
Defined.

Lemma append_description_nth (l : list Survey) (sid : string)
    (e : Description) (survey : Survey) :
  first_with_id l sid = Some survey ->
  exists k,
    nth_error l k = Some survey /\
    (forall j x, (j < k)%nat -> nth_error l j = Some x -> survey_id x <> sid) /\
    nth_error (append_description l sid e) k
      = Some (with_description survey e) /\
    (forall j, j <> k ->
       nth_error (append_description l sid e) j = nth_error l j).
Proof.
  induction l as [|x l IH]; simpl; [discriminate|].
  destruct (String.eqb (survey_id x) sid) eqn:E.
  - intros H. inversion H; subst. exists 0%nat.
    split; [reflexivity|]. split; [intros j y Hj; lia|].
    split; [reflexivity|]. intros [|j] Hj; [congruence|reflexivity].
  - intros H. destruct (IH H) as (k & Hk & Hbefore & Hat & Hother).
    exists (S k). split; [exact Hk|]. split; [|split].
    + intros [|j] y Hj Hy; simpl in Hy.
      * inversion Hy; subst. apply String.eqb_neq. exact E.
      * apply (Hbefore j y); [lia|exact Hy].
    + exact Hat.
    + intros [|j] Hj; [reflexivity|]. simpl. apply Hother. congruence.
Qed.

Lemma length_append_description (l : list Survey) (sid : string)
    (e : Description) :
  List.length (append_description l sid e) = List.length l.
Proof.
  rewrite <- (length_map survey_id), append_description_ids.
  apply length_map.
Qed.

Lemma add_description_stored (self : SurveyManager)
    (sid description : string) (location_index : Z) (survey : Survey) :
  _get_survey self sid = Some survey ->
  surveys (snd (add_description self sid description location_index)) =
    append_description (surveys self) sid
      {| location_index := location_index;
         text := description;
         inferred_type := infer_type_from_description description |}.
Proof.
  intros H. unfold add_description. rewrite H.
  destruct (infer_type_from_description description); reflexivity.
Qed.

(** X8. [add_description] on an id that is stored changes one survey and
    no other: the first survey carrying the id gains the new entry (the
    index, the text and the inferred type) at the end of its
    descriptions, every other survey of the collection, also a later one
    with the same id, stays as it is, and the collection keeps its
    length.  What is returned are the details of the inferred type,
    looked up in the manager's knowledge base, if a type was inferred. *)
Theorem add_description_changes_one_survey (self : SurveyManager)
    (sid description : string) (location_index : Z) (survey : Survey) :
  let outcome := add_description self sid description location_index in
  let entry :=
    {| location_index := location_index;
       text := description;
       inferred_type := infer_type_from_description description |} in
  _get_survey self sid = Some survey ->
  (exists k,
     nth_error (surveys self) k = Some survey /\
     (forall j x, (j < k)%nat -> nth_error (surveys self) j = Some x ->
        survey_id x <> sid) /\
     nth_error (surveys (snd outcome)) k
       = Some (with_description survey entry) /\
     (forall j, j <> k ->
        nth_error (surveys (snd outcome)) j = nth_error (surveys self) j)) /\
  List.length (surveys (snd outcome)) = List.length (surveys self) /\
  sm_knowledge_base (snd outcome) = sm_knowledge_base self /\
  fst outcome =
    option_map (_get_type_details self)
      (infer_type_from_description description).
Proof.
  intros outcome entry H.
  unfold outcome at 1 2 3. rewrite (add_description_stored _ _ _ _ _ H).
  fold entry. split; [apply append_description_nth; exact H|].
  split; [apply length_append_description|].
  unfold outcome, add_description. rewrite H.
  destruct (infer_type_from_description description); split; reflexivity.
Qed.

(** A description of granite for the survey of the sample manager. *)
Lemma add_description_changes_one_survey_witness :
  _get_survey sample_manager "survey_001" =
    Some {| survey_id := "survey_001"; survey_coordinates := sample_track;
            descriptions := []; formation := None; date := "2024-05-01" |} /\
  fst (add_description sample_manager "survey_001" "This is granite" 2) =
    Some {| td_type := "rock"; td_data := granite |}.
Proof.
  split; [reflexivity|].
  destruct (add_description_changes_one_survey sample_manager "survey_001"
              "This is granite" 2 _ eq_refl) as (_ & _ & _ & R).
  rewrite R. reflexivity.
Defined.



(* ===================================================================== *)
(** * From a stored survey to the input of the processor *)
(* ===================================================================== *)

Lemma truthy_some (label : option string) (ty : string) :
  truthy label = Some ty -> label = Some ty /\ ty <> "".
Proof.
  destruct label as [[|c s]|]; simpl; intros H; inversion H; subst.
  split; [reflexivity|discriminate].
Qed.

Lemma truthy_none (label : option string) :
  truthy label = None -> label = None \/ label = Some "".
Proof. destruct label as [[|c s]|]; simpl; intros H; auto; discriminate. Qed.

Lemma infer_type_truthy (description : string) :
  truthy (infer_type_from_description description)
  = infer_type_from_description description.
Proof.
  unfold infer_type_from_description.
  repeat match goal with
         | |- context [if ?c then _ else _] => destruct c
         end; reflexivity.
Qed.

Lemma index_int_ok {A : Type} (l : list A) (i : Z) :
  indexes l i = true ->
  exists p,
    index_int l i = Ok p /\
    nth_error l (Z.to_nat (i mod Z.of_nat (List.length l))) = Some p.
Proof.
  unfold indexes, index_int. intros H. apply andb_true_iff in H.
  destruct H as [Hlo Hhi]. apply Z.leb_le in Hlo. apply Z.ltb_lt in Hhi.
  set (n := Z.of_nat (List.length l)) in *.
  assert (Hnth : forall k, (0 <= k < n)%Z ->
            exists p, nth_error l (Z.to_nat k) = Some p).
  { intros k Hk. destruct (nth_error l (Z.to_nat k)) as [p|] eqn:E; [eauto|].
    apply nth_error_None in E. unfold n in Hk. lia. }
  destruct (0 <=? i)%Z eqn:S.
  - apply Z.leb_le in S. rewrite Z.mod_small by lia.
    destruct (Hnth i) as [p Hp]; [lia|]. exists p.
    unfold index. rewrite Hp. auto.
  - apply Z.leb_gt in S.
    assert (T : (n + i <? 0)%Z = false) by (apply Z.ltb_ge; lia).
    rewrite T.
    replace (i mod n)%Z with (n + i)%Z.
    + destruct (Hnth (n + i)%Z) as [p Hp]; [lia|]. exists p.
      unfold index. rewrite Hp. auto.
    + replace (n + i)%Z with (i + 1 * n)%Z by lia.
      rewrite <- (Z.mod_small (i + 1 * n) n) by lia.
      apply Z_mod_plus_full.
Qed.

Lemma index_int_raises {A : Type} (l : list A) (i : Z) :
  indexes l i = false -> index_int l i = Raise IndexError.
Proof.
  unfold indexes, index_int. intros H. apply andb_false_iff in H.
  destruct (0 <=? i)%Z eqn:S.
  - apply Z.leb_le in S. destruct H as [H|H].
    + apply Z.leb_gt in H. lia.
    + apply Z.ltb_ge in H. unfold index.
      assert (E : nth_error l (Z.to_nat i) = None)
        by (apply nth_error_None; lia).
      rewrite E. reflexivity.
  - apply Z.leb_gt in S. destruct H as [H|H].
    + apply Z.leb_gt in H.
      assert (T : (Z.of_nat (List.length l) + i <? 0)%Z = true)
        by (apply Z.ltb_lt; lia).
      rewrite T. reflexivity.
    + apply Z.ltb_ge in H. lia.
Qed.

Lemma typed_cons (desc : Description) (descs : list Description) :
  typed (desc :: descs) =
    match truthy (inferred_type desc) with
    | Some _ => desc :: typed descs
    | None => typed descs
    end.
Proof.
  unfold typed. simpl. destruct (truthy (inferred_type desc)); reflexivity.
Qed.

Lemma units_of_descriptions_spec (points : list Coordinate)
    (descs : list Description) :
  (well_placed points descs = true ->
     exists us,
       units_of_descriptions points descs = Ok us /\
       Forall2 (placed points) (typed descs) us) /\
  (well_placed points descs = false ->
     units_of_descriptions points descs = Raise IndexError).
Proof.
  unfold well_placed.
  induction descs as [|desc descs [IHok IHbad]].
  - simpl. split; [intros _; exists []; split; [reflexivity|constructor]|].
    discriminate.
  - cbn [units_of_descriptions]. rewrite typed_cons.
    destruct (truthy (inferred_type desc)) as [ty|] eqn:T;
      [|split; assumption].
    apply truthy_some in T. destruct T as [T _].
    cbn [forallb]. split.
    + intros H. apply andb_true_iff in H. destruct H as [Hi Hrest].
      destruct (index_int_ok points _ Hi) as (p & -> & Hp).
      destruct (IHok Hrest) as (us & -> & Hus). cbn [bind].
      eexists. split; [reflexivity|]. constructor; [|exact Hus].
      exists p. split; [exact Hp|]. unfold unit_of. rewrite T. reflexivity.
    + intros H. apply andb_false_iff in H.
      destruct (indexes points (location_index desc)) eqn:Hi.
      * destruct H as [H|H]; [discriminate|].
        destruct (index_int_ok points _ Hi) as (p & -> & _).
        rewrite (IHbad H). reflexivity.
      * rewrite (index_int_raises points _ Hi). reflexivity.
Qed.

(** X10. [get_survey_for_mapping] answers [None] for an id that is not
    stored.  For a stored survey it takes the descriptions that have an
    inferred type, in order, and makes one unit of each: the type is the
    inferred type, the description is the text, and the only coordinate
    is the survey point at the description's index, a negative index
    counting from the end.  The coordinates of the survey are passed on.
    If one of those descriptions has an index outside the points of the
    survey, the call raises [IndexError] instead, whatever the other
    descriptions are. *)
Theorem survey_for_mapping_units (self : SurveyManager) (sid : string) :
  (_get_survey self sid = None -> get_survey_for_mapping self sid = Ok None) /\
  (forall survey,
     _get_survey self sid = Some survey ->
     let points := survey_coordinates survey in
     (well_placed points (descriptions survey) = true ->
        exists us,
          get_survey_for_mapping self sid =
            Ok (Some {| sd_coordinates := Some points;
                        sd_units := Some us |}) /\
          Forall2 (placed points) (typed (descriptions survey)) us) /\
     (well_placed points (descriptions survey) = false ->
        get_survey_for_mapping self sid = Raise IndexError)).
Proof.
  unfold get_survey_for_mapping. split; [intros ->; reflexivity|].
  intros survey ->.
  destruct (units_of_descriptions_spec (survey_coordinates survey)
              (descriptions survey)) as [Hok Hbad].
  split.
  - intros H. destruct (Hok H) as (us & E & Hus).
    rewrite E. exists us. split; [reflexivity|exact Hus].
  - intros H. rewrite (Hbad H). reflexivity.
Qed.

Lemma first_with_id_append_other (l : list Survey) (sid other : string)
    (e : Description) :
  other <> sid ->
  first_with_id (append_description l other e) sid = first_with_id l sid.
Proof.
  intros N. induction l as [|x l IH]; simpl; [reflexivity|].
  destruct (String.eqb (survey_id x) other) eqn:E; simpl.
  - apply String.eqb_eq in E.
    assert (F : String.eqb (survey_id x) sid = false)
      by (apply String.eqb_neq; congruence).
    rewrite F. reflexivity.
  - destruct (String.eqb (survey_id x) sid); [reflexivity|exact IH].
Qed.

(** The survey under [sid] after an operation is the one before it, with
    the same points and with the descriptions that the operation
    addressed to it added at the end. *)
Lemma step_extends (self : SurveyManager) (op : operation) (sid : string)
    (survey : Survey) :
  _get_survey self sid = Some survey ->
  exists survey',
    _get_survey (fst (step self op)) sid = Some survey' /\
    survey_coordinates survey' = survey_coordinates survey /\
    descriptions survey' = (descriptions survey ++ aimed_at sid [op])%list.
Proof.
  intros H.
  assert (Same : exists survey',
            Some survey = Some survey' /\
            survey_coordinates survey' = survey_coordinates survey /\
            descriptions survey' = (descriptions survey ++ [])%list).
  { exists survey. rewrite app_nil_r. auto. }
  destruct op as [cs f today|other description location_index];
    cbn [step aimed_at flat_map app fst].
  - unfold _get_survey in *. simpl. rewrite first_with_id_app, H.
    exact Same.
  - destruct (String.eqb other sid) eqn:O.
    + apply String.eqb_eq in O. subst other.
      unfold _get_survey at 1.
      rewrite (add_description_stored _ _ _ _ _ H).
      unfold _get_survey in H.
      rewrite (append_description_found _ _ _ _ H).
      eexists. split; [reflexivity|]. split; reflexivity.
    + apply String.eqb_neq in O.
      destruct (_get_survey self other) as [target|] eqn:T;
        [|unfold add_description; rewrite T; simpl; rewrite H; exact Same].
      unfold _get_survey at 1.
      rewrite (add_description_stored _ _ _ _ _ T).
      rewrite (first_with_id_append_other _ _ _ _ O).
      unfold _get_survey in H. rewrite H. exact Same.
Qed.

Lemma aimed_at_cons (sid : string) (op : operation) (ops : list operation) :
  aimed_at sid (op :: ops) = (aimed_at sid [op] ++ aimed_at sid ops)%list.
Proof. unfold aimed_at. simpl. rewrite app_nil_r. reflexivity. Qed.

Lemma run_extends (ops : list operation) (self : SurveyManager)
    (sid : string) (survey : Survey) :
  _get_survey self sid = Some survey ->
  exists survey',
    _get_survey (fst (run self ops)) sid = Some survey' /\
    survey_coordinates survey' = survey_coordinates survey /\
    descriptions survey' = (descriptions survey ++ aimed_at sid ops)%list.
Proof.
  revert self survey. induction ops as [|op ops IH]; intros self survey H.
  - exists survey. simpl. rewrite app_nil_r. auto.
  - rewrite aimed_at_cons. cbn [run].
    destruct (step_extends self op sid survey H) as (s1 & H1 & C1 & D1).
    destruct (step self op) as [self1 assigned]. cbn [fst] in H1.
    destruct (IH self1 s1 H1) as (s2 & H2 & C2 & D2).
    destruct (run self1 ops) as [self2 later]. cbn [fst] in *.
    exists s2. split; [exact H2|].
    split; [congruence|]. rewrite D2, D1, app_assoc. reflexivity.
Qed.

Lemma well_placed_app (points : list Coordinate)
    (descs more : list Description) :
  well_placed points (descs ++ more) =
    well_placed points descs && well_placed points more.
Proof.
  unfold well_placed, typed. rewrite filter_app, forallb_app. reflexivity.
Qed.

(** X11. [add_description] does not check the index it is given.  With
    a text from which a type is inferred and an index outside the
    points of the survey, the call succeeds and returns the details of
    the type; from then on [get_survey_for_mapping] raises [IndexError]
    for that survey, and it keeps doing so after any further
    [create_survey] and [add_description] calls, since the points of a
    survey never change and descriptions are only ever added. *)
Theorem misplaced_description_blocks_mapping (self : SurveyManager)
    (sid description : string) (location_index : Z) (survey : Survey)
    (type_name : string) (ops : list operation) :
  let outcome := add_description self sid description location_index in
  _get_survey self sid = Some survey ->
  infer_type_from_description description = Some type_name ->
  indexes (survey_coordinates survey) location_index = false ->
  fst outcome = Some (_get_type_details self type_name) /\
  get_survey_for_mapping (snd outcome) sid = Raise IndexError /\
  get_survey_for_mapping (fst (run (snd outcome) ops)) sid = Raise IndexError.
Proof.
  intros outcome Hs Hi Hout.
  set (entry := {| location_index := location_index;
                   text := description;
                   inferred_type := Some type_name |}).
  assert (R : fst outcome = Some (_get_type_details self type_name)).
  { unfold outcome, add_description. rewrite Hs, Hi. reflexivity. }
  assert (F : _get_survey (snd outcome) sid
              = Some (with_description survey entry)).
  { unfold outcome, add_description. rewrite Hs, Hi. cbn [snd].
    unfold _get_survey, _save_surveys. simpl.
    apply append_description_found. exact Hs. }
  assert (B : well_placed (survey_coordinates survey)
                (descriptions survey ++ [entry]) = false).
  { rewrite well_placed_app. apply andb_false_iff. right.
    unfold well_placed. rewrite typed_cons. simpl inferred_type.
    pose proof (infer_type_truthy description) as T. rewrite Hi in T.
    rewrite T. simpl. rewrite Hout. reflexivity. }
  assert (Raises : forall manager survey' more,
            _get_survey manager sid = Some survey' ->
            survey_coordinates survey' = survey_coordinates survey ->
            descriptions survey' =
              ((descriptions survey ++ [entry]) ++ more)%list ->
            get_survey_for_mapping manager sid = Raise IndexError).
  { intros manager survey' more Hm Hc Hd.
    unfold get_survey_for_mapping. rewrite Hm.
    destruct (units_of_descriptions_spec (survey_coordinates survey')
                (descriptions survey')) as [_ Hbad].
    rewrite Hbad; [reflexivity|].
    rewrite Hc, Hd, well_placed_app, B. reflexivity. }
  split; [exact R|]. split.
  - apply (Raises (snd outcome) (with_description survey entry) []);
      [exact F|reflexivity|rewrite app_nil_r; reflexivity].
  - destruct (run_extends ops (snd outcome) sid _ F)
      as (survey' & H' & C' & D').
    apply (Raises _ survey' (aimed_at sid ops)); [exact H'|exact C'|exact D'].
Qed.

(** A survey without points: the index 0 that [app.py] passes is already
    out of range. *)
Lemma misplaced_description_blocks_mapping_witness :
  let self := snd (create_survey (empty_manager sample_kb None) [] None
                     "2024-05-01") in
  get_survey_for_mapping
    (fst (run (snd (add_description self "survey_001" "This is granite" 0))
            [AddDescription "survey_001" "unremarkable gray rock" 0]))
    "survey_001" = Raise IndexError.
Proof.
  intros self.
  apply (misplaced_description_blocks_mapping self "survey_001"
           "This is granite" 0
           {| survey_id := "survey_001"; survey_coordinates := [];
              descriptions := []; formation := None; date := "2024-05-01" |}
           "Granite"); reflexivity.
Defined.

(** A survey with four points and descriptions at the indexes 2 and -1. *)
Lemma survey_for_mapping_units_witness :
  let self :=
    fst (run sample_manager
           [ AddDescription "survey_001" "This is granite" 2;
             AddDescription "survey_001" "unremarkable gray rock" 0;
             AddDescription "survey_001" "fine grained volcanic rock" (-1) ])
  in
  _get_survey self "survey_007" = None /\
  get_survey_for_mapping self "survey_007" = Ok None /\
  exists us,
    get_survey_for_mapping self "survey_001" =
      Ok (Some {| sd_coordinates := Some sample_track; sd_units := Some us |}) /\
    List.length us = 2%nat.
Proof.
  intros self.
  destruct (survey_for_mapping_units self "survey_007") as [Hnone _].
  destruct (survey_for_mapping_units self "survey_001") as [_ Hsome].
  split; [reflexivity|]. split; [apply Hnone; reflexivity|].
  destruct (Hsome _ eq_refl) as [Hok _].
  destruct (Hok eq_refl) as (us & E & Hus).
  exists us. split; [exact E|].
  apply Forall2_length in Hus. rewrite <- Hus. reflexivity.
Defined.

(* ===================================================================== *)
(** * The renderer: what can go wrong, and when nothing does *)
(* ===================================================================== *)

Lemma bindR_raise_inv {A B : Type} (m : render A) (k : A -> render B)
    (t t' : list call) (e : exn) :
  bindR m k t = (Raise e, t') ->
  m t = (Raise e, t') \/
  exists a t1, m t = (Ok a, t1) /\ k a t1 = (Raise e, t').
Proof.
  unfold bindR. destruct (m t) as [[a|e0] t1]; intros H;
    [right; eauto|left; inversion H; reflexivity].
Qed.

Lemma lift_ok_inv {A : Type} (m : result A) (t t' : list call) (a : A) :
  lift m t = (Ok a, t') -> m = Ok a.
Proof. unfold lift. intros H. inversion H. reflexivity. Qed.

Lemma lift_raise_inv {A : Type} (m : result A) (t t' : list call) (e : exn) :
  lift m t = (Raise e, t') -> m = Raise e.
Proof. unfold lift. intros H. inversion H. reflexivity. Qed.

Lemma lons_of_raises (points : list Coordinate) (e : exn) :
  lons_of points = Raise e -> e = KeyError "lon".
Proof.
  intros H. apply for_each_raise_inv in H. destruct H as (p & _ & H).
  apply getitem_raises in H. exact H.
Qed.

Lemma lats_of_raises (points : list Coordinate) (e : exn) :
  lats_of points = Raise e -> e = KeyError "lat".
Proof.
  intros H. apply for_each_raise_inv in H. destruct H as (p & _ & H).
  apply getitem_raises in H. exact H.
Qed.

Lemma lons_of_length (points : list Coordinate) (xs : list Q) :
  lons_of points = Ok xs -> List.length xs = List.length points.
Proof. intros H. apply for_each_ok_inv in H. apply H. Qed.

Lemma lats_of_length (points : list Coordinate) (ys : list Q) :
  lats_of points = Ok ys -> List.length ys = List.length points.
Proof. intros H. apply for_each_ok_inv in H. apply H. Qed.

Lemma axis_limits_raises (xs : list Q) (e : exn) :
  axis_limits xs = Raise e -> e = ValueError.
Proof.
  unfold axis_limits. destruct xs as [|x xs]; simpl; intros H;
    inversion H; reflexivity.
Qed.

Lemma index_cases {A : Type} (l : list A) (i : nat) :
  ((i < List.length l)%nat /\ exists a, index l i = Ok a) \/
  ((List.length l <= i)%nat /\ index l i = Raise IndexError).
Proof.
  unfold index. destruct (nth_error l i) as [a|] eqn:E.
  - left. split; [apply nth_error_Some; congruence|eauto].
  - right. apply nth_error_None in E. auto.
Qed.

Section RendererFacts.

Variable raises : list call -> call -> option exn.
Variable output_dir : string.
Variable arctan2_degrees : Q -> Q -> Q.
Variable str_of_number : Q -> string.

Local Abbreviation angle := (_calculate_angle arctan2_degrees).
Local Abbreviation plot_unit := (_plot_unit raises).
Local Abbreviation plot_boundary := (_plot_boundary raises).
Local Abbreviation plot_feature :=
  (_plot_structural_feature raises arctan2_degrees str_of_number).
Local Abbreviation plot_features :=
  (_plot_geological_features raises arctan2_degrees str_of_number).
Local Abbreviation draw :=
  (draw_and_save raises output_dir arctan2_degrees str_of_number).
Local Abbreviation generate :=
  (generate_detailed_map raises output_dir arctan2_degrees str_of_number).
Local Abbreviation failure e := (own_error e \/ raised_by raises e).


Lemma calculate_angle_ok (x y : list Q) (idx : nat) :
  (1 <= idx)%nat -> (idx < List.length x)%nat -> (idx < List.length y)%nat ->
  exists a, angle x y idx = Ok a.
Proof.
  intros H1 Hx Hy.
  assert (B : (Nat.max 1 idx <? Nat.min (List.length x) (List.length y))%nat
              = true) by (apply Nat.ltb_lt; lia).
  unfold _calculate_angle. destruct idx as [|i]; [lia|]. cbn [Nat.eqb].
  destruct (index_cases x (S i)) as [[L1 [a1 ->]]|[L1 _]]; [|lia].
  destruct (index_cases x (S i - 1)) as [[L2 [a2 ->]]|[L2 _]]; [|lia].
  destruct (index_cases y (S i)) as [[L3 [a3 ->]]|[L3 _]]; [|lia].
  destruct (index_cases y (S i - 1)) as [[L4 [a4 ->]]|[L4 _]]; [|lia].
  cbn [bind]. eauto.
Qed.

(** ** Every exception is a missing field, no coordinates, or the
       library's *)

Lemma ext_raises (c : call) (t t' : list call) (e : exn) :
  ext raises c t = (Raise e, t') -> raised_by raises e.
Proof.
  unfold ext. destruct (raises t c) as [e0|] eqn:E; intros H;
    inversion H; subst. exists t, c. exact E.
Qed.

Lemma for_each_do_raises {A : Type} (f : A -> render unit) (xs : list A)
    (P : exn -> Prop) :
  (forall x t t' e, f x t = (Raise e, t') -> P e) ->
  forall t t' e, for_each_do f xs t = (Raise e, t') -> P e.
Proof.
  intros Hf. induction xs as [|x xs IH]; intros t t' e H; simpl in H.
  - unfold ret in H. discriminate H.
  - apply bindR_raise_inv in H. destruct H as [H|(u & t1 & _ & H)].
    + apply (Hf x t t' e H).
    + apply (IH t1 t' e H).
Qed.

(** One statement of a [render] block raised: either this one, or a
    later one. *)
Ltac peel H a t1 E :=
  apply bindR_raise_inv in H; destruct H as [H|(a & t1 & E & H)].
Ltac own_field H lemma :=
  apply lift_raise_inv in H; apply lemma in H; left; unfold own_error;
  subst; auto 6.
Ltac from_library H := right; eapply ext_raises; exact H.

Lemma plot_unit_raises (u : Unit) (t t' : list call) (e : exn) :
  plot_unit u t = (Raise e, t') -> failure e.
Proof.
  unfold _plot_unit. intros H.
  peel H ty t1 E1; [own_field H (@getitem_raises string)|].
  peel H cs t2 E2; [own_field H (@getitem_raises (list Coordinate))|].
  peel H xs t3 E3; [own_field H lons_of_raises|].
  peel H ys t4 E4; [own_field H lats_of_raises|].
  peel H u1 t5 E5; [from_library H|].
  peel H u2 t6 E6; [from_library H|].
  destruct (2 <? List.length xs)%nat; [from_library H|].
  unfold ret in H. discriminate H.
Qed.

Lemma plot_boundary_raises (b : Boundary) (t t' : list call) (e : exn) :
  plot_boundary b t = (Raise e, t') -> failure e.
Proof.
  unfold _plot_boundary. intros H.
  peel H xs t1 E1; [own_field H lons_of_raises|].
  peel H ys t2 E2; [own_field H lats_of_raises|].
  from_library H.
Qed.

Lemma plot_feature_raises (f : StructuralFeature) (t t' : list call)
    (e : exn) :
  plot_feature f t = (Raise e, t') -> failure e.
Proof.
  unfold _plot_structural_feature. intros H.
  destruct (String.eqb (feature_type f) "fault");
    [|unfold ret in H; discriminate H].
  peel H xs t1 E1; [own_field H lons_of_raises|].
  peel H ys t2 E2; [own_field H lats_of_raises|].
  apply lift_ok_inv in E1, E2.
  apply lons_of_length in E1. apply lats_of_length in E2.
  peel H u1 t3 E3; [from_library H|].
  destruct (1 <? List.length xs)%nat eqn:L;
    [|unfold ret in H; discriminate H].
  apply Nat.ltb_lt in L.
  assert (Hlo : (1 <= List.length xs / 2)%nat)
    by (apply Nat.div_le_lower_bound; lia).
  assert (Hhi : (List.length xs / 2 < List.length xs)%nat)
    by (apply Nat.div_lt; lia).
  peel H x t4 E4.
  { exfalso. apply lift_raise_inv in H.
    destruct (index_cases xs (List.length xs / 2)) as [[_ [a C]]|[C _]];
      [congruence|lia]. }
  peel H y t5 E5.
  { exfalso. apply lift_raise_inv in H.
    destruct (index_cases ys (List.length xs / 2)) as [[_ [a C]]|[C _]];
      [congruence|lia]. }
  peel H a t6 E6.
  { exfalso. apply lift_raise_inv in H.
    destruct (calculate_angle_ok xs ys (List.length xs / 2)) as [a C];
      [lia|lia|lia|congruence]. }
  from_library H.
Qed.

Lemma plot_features_raises (data : MapData) (t t' : list call) (e : exn) :
  plot_features data t = (Raise e, t') -> failure e.
Proof.
  unfold _plot_geological_features. intros H.
  peel H cs t1 E1; [own_field H (@getitem_raises (list Coordinate))|].
  peel H ys t2 E2; [own_field H lats_of_raises|].
  peel H xs t3 E3; [own_field H lons_of_raises|].
  peel H xlim t4 E4; [own_field H axis_limits_raises|].
  peel H u1 t5 E5; [from_library H|].
  peel H ylim t6 E6; [own_field H axis_limits_raises|].
  peel H u2 t7 E7; [from_library H|].
  peel H xs' t8 E8; [own_field H lons_of_raises|].
  peel H ys' t9 E9; [own_field H lats_of_raises|].
  peel H u3 t10 E10; [from_library H|].
  peel H u4 t11 E11.
  { apply (for_each_do_raises _ _ (fun e => failure e) plot_unit_raises
             _ _ _ H). }
  peel H u5 t12 E12.
  { apply (for_each_do_raises _ _ (fun e => failure e) plot_boundary_raises
             _ _ _ H). }
  apply (for_each_do_raises _ _ (fun e => failure e) plot_feature_raises
           _ _ _ H).
Qed.

Lemma draw_raises (data : MapData) (t t' : list call) (e : exn) :
  draw data t = (Raise e, t') -> failure e.
Proof.
  unfold draw_and_save. intros H.
  peel H u1 t1 E1.
  { unfold _create_figure in H. peel H u t0 E0; from_library H. }
  peel H u2 t2 E2; [from_library H|].
  peel H u3 t3 E3; [eapply plot_features_raises; exact H|].
  peel H u4 t4 E4.
  { unfold _add_map_decorations in H.
    peel H v1 s1 F1; [from_library H|].
    peel H v2 s2 F2; [from_library H|].
    peel H v3 s3 F3; [from_library H|].
    peel H v4 s4 F4; [from_library H|].
    unfold _add_legend in H. peel H v5 s5 F5; [|from_library H].
    apply (for_each_do_raises _ _ (fun e => failure e)) in H; [exact H|].
    intros color s s' e0 C. from_library C. }
  unfold _save_map in H.
  peel H u5 t5 E5; [from_library H|].
  peel H u6 t6 E6; [from_library H|].
  unfold ret in H. discriminate H.
Qed.

(** X13. On data whose entries have the types the code expects, the
    renderer's own code fails in two ways only: a key it subscripts is
    missing (["coordinates"] of the map, ["type"] or ["coordinates"] of
    a unit, ["lat"] or ["lon"] of a point it reads), or the map has no
    coordinates for [min] and [max].  Every other exception comes out of
    a library call.  The positions it computes itself, the middle of a
    fault line and its neighbour for the angle of the label, always
    exist.  Whenever [generate_detailed_map] returns nothing it has
    logged such an exception. *)
Theorem renderer_failures (survey_data : MapData) (trace : list call) :
  (forall e, fst (draw survey_data trace) = Raise e ->
     own_error e \/ raised_by raises e) /\
  (fst (generate survey_data trace) = Ok None ->
     exists e,
       In (logging_error e) (snd (generate survey_data trace)) /\
       (own_error e \/ raised_by raises e)).
Proof.
  assert (D : forall e, fst (draw survey_data trace) = Raise e -> failure e).
  { intros e H. destruct (draw survey_data trace) as [r t'] eqn:E.
    simpl in H. subst r. apply (draw_raises _ _ _ _ E). }
  split; [exact D|].
  rewrite generate_outcome.
  destruct (draw survey_data trace) as [[path|e] t'] eqn:E; simpl.
  - discriminate.
  - intros _. exists e. split; [|apply D; reflexivity].
    apply in_or_app. left. apply in_or_app. right. left. reflexivity.
Qed.

End RendererFacts.


(** A unit without coordinates: the renderer logs the missing key. *)
Lemma renderer_failures_witness :
  exists e,
    In (logging_error e)
      (snd (generate_detailed_map never_raises "output" (fun _ _ => 0)
              (fun _ => "?")
              {| map_id := None;
                 map_coordinates := Some [point 34 (-118) 100];
                 map_units := Some [ {| unit_type := Some "granite";
                                        unit_coordinates := None;
                                        unit_description := None |} ];
                 map_boundaries := None;
                 map_structural_features := None |} [])) /\
    (own_error e \/ raised_by never_raises e).
Proof.
  apply (renderer_failures never_raises "output" (fun _ _ => 0)
           (fun _ => "?")).
  reflexivity.
Defined.

(* ===================================================================== *)
(** * The renderer on data without coordinates, and on complete data *)
(* ===================================================================== *)

Lemma is_ok_for_each {A B : Type} (f : A -> result B) (xs : list A) :
  is_ok (for_each f xs) = forallb (fun x => is_ok (f x)) xs.
Proof.
  induction xs as [|x xs IH]; simpl; [reflexivity|].
  destruct (f x) as [y|e]; simpl; [|reflexivity].
  rewrite <- IH. destruct (for_each f xs); reflexivity.
Qed.

Lemma points_cases (points : list Coordinate) :
  is_ok (lons_of points) && is_ok (lats_of points)
  = forallb has_lat_lon points.
Proof.
  unfold lons_of, lats_of. rewrite !is_ok_for_each.
  induction points as [|p ps IH]; simpl; [reflexivity|].
  rewrite <- IH. unfold has_lat_lon.
  destruct (lat p), (lon p); simpl;
    destruct (forallb (fun x => is_ok (getitem "lon" (lon x))) ps),
             (forallb (fun x => is_ok (getitem "lat" (lat x))) ps);
    reflexivity.
Qed.

Lemma axis_limits_ok (xs : list Q) :
  xs <> [] -> exists limits, axis_limits xs = Ok limits.
Proof.
  destruct xs as [|x xs]; [congruence|]. intros _.
  unfold axis_limits. cbn [py_min py_max bind]. eauto.
Qed.

Lemma bindR_lift_ok {A B : Type} (m : result A) (k : A -> render B)
    (t : list call) (a : A) :
  m = Ok a -> bindR (lift m) k t = k a t.
Proof. intros ->. reflexivity. Qed.

Lemma bindR_lift_raise {A B : Type} (m : result A) (k : A -> render B)
    (t : list call) (e : exn) :
  m = Raise e -> bindR (lift m) k t = (Raise e, t).
Proof. intros ->. reflexivity. Qed.

Section RendererRuns.

Variable raises : list call -> call -> option exn.
Variable output_dir : string.
Variable arctan2_degrees : Q -> Q -> Q.
Variable str_of_number : Q -> string.

Local Abbreviation plot_unit := (_plot_unit raises).
Local Abbreviation plot_boundary := (_plot_boundary raises).
Local Abbreviation plot_feature :=
  (_plot_structural_feature raises arctan2_degrees str_of_number).
Local Abbreviation plot_features :=
  (_plot_geological_features raises arctan2_degrees str_of_number).
Local Abbreviation draw :=
  (draw_and_save raises output_dir arctan2_degrees str_of_number).
Local Abbreviation generate :=
  (generate_detailed_map raises output_dir arctan2_degrees str_of_number).
Local Abbreviation command :=
  (generate_map_command raises output_dir arctan2_degrees str_of_number).

Lemma ext_cases (c : call) (t : list call) :
  ext raises c t = (Ok tt, (t ++ [c])%list) \/
  exists e, ext raises c t = (Raise e, (t ++ [c])%list).
Proof. unfold ext. destruct (raises t c); eauto. Qed.

(** X14. On a map without coordinates (the key missing, or the list
    empty) [generate_detailed_map] returns nothing, and neither draws
    nor writes anything: the calls it adds are at most the creation of
    the figure, of its canvas and of its axes, then the logging of the
    exception and [plt.close('all')].  The units, boundaries and
    features of the map are not looked at. *)
Theorem nothing_drawn_without_coordinates (survey_data : MapData)
    (trace : list call) :
  get_default (map_coordinates survey_data) [] = [] ->
  fst (generate survey_data trace) = Ok None /\
  exists calls,
    snd (generate survey_data trace) = (trace ++ calls)%list /\
    forallb (fun c => preparation c || aftermath c) calls = true.
Proof.
  intros H. rewrite generate_outcome.
  assert (D : exists e calls,
            draw survey_data trace = (Raise e, (trace ++ calls)%list) /\
            forallb (fun c => preparation c || aftermath c) calls = true).
  { unfold draw_and_save, _create_figure.
    destruct (ext_cases plt_figure trace) as [E1|[e E1]].
    2:{ exists e, [plt_figure].
        rewrite (bindR_raise _ _ _ _ _ (bindR_raise _ _ _ _ _ E1)). auto. }
    destruct (ext_cases FigureCanvasAgg (trace ++ [plt_figure])%list)
      as [E2|[e E2]].
    2:{ exists e, [plt_figure; FigureCanvasAgg].
        rewrite (bindR_raise _ _ _ _ e
                   (eq_trans (bindR_ok _ _ _ _ _ E1) E2)).
        rewrite <- app_assoc. auto. }
    rewrite (bindR_ok _ _ _ _ tt (eq_trans (bindR_ok _ _ _ _ _ E1) E2)).
    destruct (ext_cases fig_add_subplot
                ((trace ++ [plt_figure]) ++ [FigureCanvasAgg])%list)
      as [E3|[e E3]].
    2:{ exists e, [plt_figure; FigureCanvasAgg; fig_add_subplot].
        rewrite (bindR_raise _ _ _ _ _ E3).
        rewrite <- !app_assoc. auto. }
    rewrite (bindR_ok _ _ _ _ _ E3).
    destruct (plot_raises_without_coordinates raises arctan2_degrees
                str_of_number survey_data
                (((trace ++ [plt_figure]) ++ [FigureCanvasAgg])
                   ++ [fig_add_subplot])%list H) as (e & E4 & _).
    exists e, [plt_figure; FigureCanvasAgg; fig_add_subplot].
    rewrite (bindR_raise _ _ _ _ _ E4). rewrite <- !app_assoc. auto. }
  destruct D as (e & calls & -> & Hc). simpl. split; [reflexivity|].
  exists (calls ++ [logging_error e; plt_close_all])%list.
  split.
  - rewrite <- !app_assoc. reflexivity.
  - rewrite forallb_app, Hc. reflexivity.
Qed.

Section Quiet.

(** A run in which no library call fails. *)
Hypothesis quiet : forall t c, raises t c = None.

Lemma ext_quiet (c : call) (t : list call) :
  ext raises c t = (Ok tt, (t ++ [c])%list).
Proof. unfold ext. rewrite quiet. reflexivity. Qed.

Lemma bindR_ext_quiet {B : Type} (c : call) (k : unit -> render B)
    (t : list call) :
  bindR (ext raises c) k t = k tt (t ++ [c])%list.
Proof. apply bindR_ok. apply ext_quiet. Qed.

Lemma is_ok_for_each_do {A : Type} (f : A -> render unit) (p : A -> bool)
    (xs : list A) :
  (forall x t, is_ok (fst (f x t)) = p x) ->
  forall t, is_ok (fst (for_each_do f xs t)) = forallb p xs.
Proof.
  intros Hf. induction xs as [|x xs IH]; intros t; simpl; [reflexivity|].
  unfold bindR. specialize (Hf x t).
  destruct (f x t) as [[u|e] t1]; simpl in Hf; rewrite <- Hf; simpl;
    [apply IH|reflexivity].
Qed.

Lemma is_ok_then {A B : Type} (m : render A) (k : A -> render B)
    (b c : bool) :
  (forall t, is_ok (fst (m t)) = b) ->
  (forall a t, is_ok (fst (k a t)) = c) ->
  forall t, is_ok (fst (bindR m k t)) = b && c.
Proof.
  intros Hm Hk t. unfold bindR. specialize (Hm t).
  destruct (m t) as [[a|e] t1]; simpl in Hm; rewrite <- Hm; simpl;
    [apply Hk|reflexivity].
Qed.

(** The two coordinate lists of a group of points: both exist, or the
    group is not complete and the first missing key stops the code. *)
Ltac split_points ps xs ys X Y :=
  let P := fresh "P" in
  pose proof (points_cases ps) as P;
  destruct (lons_of ps) as [xs|?] eqn:X;
  destruct (lats_of ps) as [ys|?] eqn:Y;
  simpl in P; rewrite <- P; clear P.

Lemma plot_unit_quiet (u : Unit) (t : list call) :
  is_ok (fst (plot_unit u t)) = plottable_unit u.
Proof.
  unfold _plot_unit, plottable_unit.
  destruct (unit_type u) as [ty|]; [|reflexivity].
  rewrite (bindR_lift_ok _ _ _ ty eq_refl).
  destruct (unit_coordinates u) as [ps|]; [|reflexivity].
  rewrite (bindR_lift_ok _ _ _ ps eq_refl). cbn [is_some andb].
  split_points ps xs ys X Y.
  - rewrite (bindR_lift_ok _ _ _ xs eq_refl).
    rewrite (bindR_lift_ok _ _ _ ys eq_refl).
    rewrite !bindR_ext_quiet.
    destruct (2 <? List.length xs)%nat; [rewrite ext_quiet|]; reflexivity.
  - rewrite (bindR_lift_ok _ _ _ xs eq_refl). reflexivity.
  - reflexivity.
  - reflexivity.
Qed.

Lemma plot_boundary_quiet (b : Boundary) (t : list call) :
  is_ok (fst (plot_boundary b t)) = plottable_boundary b.
Proof.
  unfold _plot_boundary, plottable_boundary.
  split_points (boundary_coordinates b) xs ys X Y.
  - rewrite (bindR_lift_ok _ _ _ xs eq_refl).
    rewrite (bindR_lift_ok _ _ _ ys eq_refl).
    rewrite ext_quiet. reflexivity.
  - rewrite (bindR_lift_ok _ _ _ xs eq_refl). reflexivity.
  - reflexivity.
  - reflexivity.
Qed.

Lemma plot_feature_quiet (f : StructuralFeature) (t : list call) :
  is_ok (fst (plot_feature f t)) = plottable_feature f.
Proof.
  unfold _plot_structural_feature, plottable_feature.
  destruct (String.eqb (feature_type f) "fault"); [|reflexivity].
  cbn [negb orb].
  split_points (feature_coordinates f) xs ys X Y.
  - rewrite (bindR_lift_ok _ _ _ xs eq_refl).
    rewrite (bindR_lift_ok _ _ _ ys eq_refl).
    rewrite bindR_ext_quiet.
    apply lons_of_length in X. apply lats_of_length in Y.
    destruct (1 <? List.length xs)%nat eqn:L; [|reflexivity].
    apply Nat.ltb_lt in L.
    assert (Hlo : (1 <= List.length xs / 2)%nat)
      by (apply Nat.div_le_lower_bound; lia).
    assert (Hhi : (List.length xs / 2 < List.length xs)%nat)
      by (apply Nat.div_lt; lia).
    destruct (index_cases xs (List.length xs / 2)) as [[_ [x Ex]]|[C _]];
      [|lia].
    destruct (index_cases ys (List.length xs / 2)) as [[_ [y Ey]]|[C _]];
      [|lia].
    destruct (calculate_angle_ok arctan2_degrees xs ys (List.length xs / 2))
      as [a Ea]; [lia|lia|lia|].
    rewrite (bindR_lift_ok _ _ _ x Ex), (bindR_lift_ok _ _ _ y Ey).
    rewrite (bindR_lift_ok _ _ _ a Ea), ext_quiet. reflexivity.
  - rewrite (bindR_lift_ok _ _ _ xs eq_refl). reflexivity.
  - reflexivity.
  - reflexivity.
Qed.

Lemma plot_features_quiet (data : MapData) (t : list call) :
  is_ok (fst (plot_features data t)) = renderable data.
Proof.
  unfold _plot_geological_features, renderable.
  destruct (map_coordinates data) as [cs|]; [|reflexivity].
  rewrite (bindR_lift_ok _ _ _ cs eq_refl).
  assert (Tail : forall t0,
            is_ok (fst ((for_each_do plot_unit
                           (get_default (map_units data) []) ;;;
                         for_each_do plot_boundary
                           (get_default (map_boundaries data) []) ;;;
                         for_each_do plot_feature
                           (get_default (map_structural_features data) []))
                          t0))
            = forallb plottable_unit (get_default (map_units data) []) &&
              forallb plottable_boundary
                (get_default (map_boundaries data) []) &&
              forallb plottable_feature
                (get_default (map_structural_features data) [])).
  { intros t0. rewrite <- andb_assoc. apply is_ok_then.
    - apply is_ok_for_each_do. apply plot_unit_quiet.
    - intros _. apply is_ok_then.
      + apply is_ok_for_each_do. apply plot_boundary_quiet.
      + intros _. apply is_ok_for_each_do. apply plot_feature_quiet. }
  assert (Short : match cs with
                  | c :: cs' => forallb has_lat_lon (c :: cs')
                  | [] => false
                  end = negb (Nat.eqb (List.length cs) 0)
                        && forallb has_lat_lon cs)
    by (destruct cs; reflexivity).
  rewrite Short. clear Short.
  pose proof (points_cases cs) as P.
  destruct (lats_of cs) as [ys|e1] eqn:Y.
  2:{ rewrite <- P. cbn [is_ok]. rewrite !andb_false_r. reflexivity. }
  rewrite (bindR_lift_ok _ _ _ ys eq_refl).
  destruct (lons_of cs) as [xs|e2] eqn:X.
  2:{ rewrite <- P. cbn [is_ok andb]. rewrite andb_false_r. reflexivity. }
  rewrite (bindR_lift_ok _ _ _ xs eq_refl).
  rewrite <- P. clear P. cbn [is_ok andb].
  apply lons_of_length in X. apply lats_of_length in Y.
  destruct cs as [|c cs'].
  - destruct xs; [|discriminate X]. reflexivity.
  - destruct (axis_limits_ok xs) as [xlim Ex];
      [destruct xs; [discriminate X|discriminate]|].
    destruct (axis_limits_ok ys) as [ylim Ey];
      [destruct ys; [discriminate Y|discriminate]|].
    rewrite (bindR_lift_ok _ _ _ xlim Ex), bindR_ext_quiet.
    rewrite (bindR_lift_ok _ _ _ ylim Ey), bindR_ext_quiet.
    rewrite (bindR_lift_ok _ _ _ xs eq_refl).
    rewrite (bindR_lift_ok _ _ _ ys eq_refl).
    rewrite bindR_ext_quiet. cbn [List.length Nat.eqb negb andb].
    apply Tail.
Qed.

Lemma for_each_do_ext_quiet {A : Type} (c : A -> call) (xs : list A)
    (t : list call) :
  exists t', for_each_do (fun x => ext raises (c x)) xs t = (Ok tt, t').
Proof.
  revert t. induction xs as [|x xs IH]; intros t; simpl.
  - unfold ret. eauto.
  - rewrite bindR_ext_quiet. apply IH.
Qed.

Lemma legend_quiet (t : list call) :
  exists t', _add_legend raises t = (Ok tt, t').
Proof.
  unfold _add_legend.
  destruct (for_each_do_ext_quiet plt_Rectangle (map snd color_map) t)
    as [t1 E].
  rewrite (bindR_ok _ _ _ _ _ E), ext_quiet. eauto.
Qed.

Lemma decorations_quiet (survey_id : string) (t : list call) :
  exists t', _add_map_decorations raises survey_id t = (Ok tt, t').
Proof.
  unfold _add_map_decorations. rewrite !bindR_ext_quiet. apply legend_quiet.
Qed.

Lemma draw_quiet (data : MapData) (t : list call) :
  is_ok (fst (draw data t)) = renderable data.
Proof.
  unfold draw_and_save, _create_figure.
  rewrite (bindR_ok _ _ _ _ tt
             (eq_trans (bindR_ext_quiet _ _ _) (ext_quiet _ _))).
  rewrite bindR_ext_quiet.
  pose proof (plot_features_quiet data
                (((t ++ [plt_figure]) ++ [FigureCanvasAgg])
                   ++ [fig_add_subplot])%list) as P.
  destruct (plot_features data _) as [[u|e] t1] eqn:E; simpl in P;
    rewrite <- P.
  - rewrite (bindR_ok _ _ _ _ _ E).
    destruct (decorations_quiet (get_default (map_id data) "") t1)
      as [t2 E2].
    rewrite (bindR_ok _ _ _ _ _ E2). unfold _save_map.
    rewrite !bindR_ext_quiet. reflexivity.
  - rewrite (bindR_raise _ _ _ _ _ E). reflexivity.
Qed.

Lemma draw_quiet_outcome (data : MapData) (t : list call) :
  let path :=
    output_dir ++ "/" ++ "geological_map_"
    ++ get_default (map_id data) "survey" ++ ".png" in
  (renderable data = true ->
     exists t', draw data t = (Ok path, t') /\ In (fig_savefig path) t') /\
  (renderable data = false -> exists e t', draw data t = (Raise e, t')).
Proof.
  intros path. pose proof (draw_quiet data t) as Q.
  destruct (draw data t) as [[p|e] t'] eqn:E; simpl in Q; rewrite <- Q.
  - split; [|discriminate]. intros _.
    destruct (draw_path raises output_dir arctan2_degrees str_of_number
                data t t' p E) as [Hp Hin].
    fold path in Hp. subst p. eauto.
  - split; [discriminate|]. intros _. eauto.
Qed.


End Quiet.

End RendererRuns.

(** A map with no coordinate list, drawn with a library whose
    [savefig] would fail: the call is never made. *)
Lemma nothing_drawn_without_coordinates_witness :
  fst (generate_detailed_map savefig_fails "output" (fun _ _ => 0)
         (fun _ => "?")
         {| map_id := None; map_coordinates := None;
            map_units := map_units test_data;
            map_boundaries := None; map_structural_features := None |} [])
  = Ok None.
Proof.
  apply (nothing_drawn_without_coordinates savefig_fails "output"
           (fun _ _ => 0) (fun _ => "?")).
  reflexivity.
Defined.


(* ===================================================================== *)
(** * From the store to the map: [--generate-map] *)
(* ===================================================================== *)

Lemma typed_is_truthy (descs : list Description) (d : Description) :
  In d (typed descs) -> exists ty, inferred_type d = Some ty.
Proof.
  unfold typed. intros H. apply filter_In in H. destruct H as [_ H].
  destruct (truthy (inferred_type d)) as [ty|] eqn:T; [|discriminate].
  apply truthy_some in T. destruct T as [T _]. eauto.
Qed.

Lemma placed_units (points : list Coordinate) (ds : list Description)
    (us : list Unit) :
  (forall d, In d ds -> exists ty, inferred_type d = Some ty) ->
  Forall2 (placed points) ds us ->
  Forall (one_point_unit points) us.
Proof.
  intros Hty H. induction H as [|d u ds us Hdu _ IH]; constructor.
  - destruct (Hty d (or_introl eq_refl)) as [ty T].
    destruct Hdu as (p & Hp & ->). exists ty, p. simpl.
    split; [exact T|]. split; [reflexivity|].
    apply (nth_error_In _ _ Hp).
  - apply IH. intros d' Hd'. apply Hty. right. exact Hd'.
Qed.

Lemma one_point_units_processable (points : list Coordinate)
    (us : list Unit) :
  forallb has_lat_lon points = true ->
  Forall (one_point_unit points) us ->
  processable {| sd_coordinates := Some points; sd_units := Some us |} = true.
Proof.
  intros Hll Hus. rewrite forallb_forall in Hll. rewrite Forall_forall in Hus.
  unfold processable. simpl. apply andb_true_iff. split.
  - apply forallb_forall. intros u Hu.
    destruct (Hus u Hu) as (ty & p & T & C & _).
    unfold complete_unit. rewrite T, C. reflexivity.
  - apply forallb_forall. intros i Hi. apply in_range in Hi.
    unfold joinable_at.
    destruct (nth_error us i) as [u1|] eqn:E1;
      [|apply nth_error_None in E1; lia].
    destruct (nth_error us (i + 1)) as [u2|] eqn:E2;
      [|apply nth_error_None in E2; lia].
    destruct (Hus u1 (nth_error_In _ _ E1)) as (ty1 & p1 & _ & C1 & I1).
    destruct (Hus u2 (nth_error_In _ _ E2)) as (ty2 & p2 & _ & C2 & I2).
    unfold joinable. rewrite C1, C2. simpl.
    rewrite (Hll p1 I1), (Hll p2 I2). reflexivity.
Qed.

Lemma mapped_survey_units (self : SurveyManager) (sid : string)
    (survey : Survey) :
  _get_survey self sid = Some survey ->
  well_placed (survey_coordinates survey) (descriptions survey) = true ->
  exists us,
    get_survey_for_mapping self sid =
      Ok (Some {| sd_coordinates := Some (survey_coordinates survey);
                  sd_units := Some us |}) /\
    List.length us = List.length (typed (descriptions survey)) /\
    Forall (one_point_unit (survey_coordinates survey)) us.
Proof.
  intros Hs Hw. unfold get_survey_for_mapping. rewrite Hs.
  destruct (units_of_descriptions_spec (survey_coordinates survey)
              (descriptions survey)) as [Hok _].
  destruct (Hok Hw) as (us & -> & Hus). exists us.
  split; [reflexivity|]. split.
  - symmetry. apply (Forall2_length Hus).
  - apply (placed_units _ (typed (descriptions survey))); [|exact Hus].
    apply typed_is_truthy.
Qed.

Lemma processed_lengths (kb : KnowledgeBase) (s : SurveyData)
    (p : ProcessedMap) :
  process_survey_data kb s = Ok p ->
  List.length (units p) = List.length (get_default (sd_units s) []) /\
  List.length (boundaries p)
  = (List.length (get_default (sd_units s) []) - 1)%nat /\
  coordinates p = get_default (sd_coordinates s) [].
Proof.
  intros H. destruct (process_ok_inv kb s p H) as (U & B & _ & C).
  split; [apply (identify_units_spec kb s _ U)|].
  split; [apply (identify_boundaries_spec s _ B)|exact C].
Qed.

(** X16. A stored survey whose points all have a latitude and a
    longitude, and whose descriptions with an inferred type refer to
    points that exist, goes through [get_survey_for_mapping] and
    [process_survey_data] without an exception, whatever the knowledge
    base.  With k descriptions that have an inferred type the result has
    k units, each with a single point of the survey, and k-1 boundaries
    (none when k is 0), and it carries the coordinates of the survey. *)
Theorem mapped_survey_is_processed (self : SurveyManager)
    (kb : KnowledgeBase) (sid : string) (survey : Survey) :
  _get_survey self sid = Some survey ->
  forallb has_lat_lon (survey_coordinates survey) = true ->
  well_placed (survey_coordinates survey) (descriptions survey) = true ->
  exists survey_data processed,
    get_survey_for_mapping self sid = Ok (Some survey_data) /\
    process_survey_data kb survey_data = Ok processed /\
    coordinates processed = survey_coordinates survey /\
    List.length (units processed)
    = List.length (typed (descriptions survey)) /\
    List.length (boundaries processed)
    = (List.length (typed (descriptions survey)) - 1)%nat /\
    Forall (one_point_unit (survey_coordinates survey))
      (get_default (sd_units survey_data) []).
Proof.
  intros Hs Hll Hw.
  destruct (mapped_survey_units self sid survey Hs Hw)
    as (us & E & Hlen & Hus).
  destruct (process_total kb _
              (one_point_units_processable _ us Hll Hus)) as [p Hp].
  destruct (processed_lengths kb _ p Hp) as (L1 & L2 & C). simpl in *.
  eexists. exists p. split; [exact E|]. split; [exact Hp|].
  split; [exact C|]. split; [congruence|]. split; [congruence|exact Hus].
Qed.

Lemma boundaries_plottable (s : SurveyData) (bs : list Boundary) :
  _identify_boundaries s = Ok bs -> forallb plottable_boundary bs = true.
Proof.
  intros H. destruct (identify_boundaries_spec s bs H) as [Hlen Hnth].
  apply forallb_forall. intros b Hb.
  destruct (In_nth_error _ _ Hb) as [i Hi].
  assert (Li : (i < List.length bs)%nat)
    by (apply nth_error_Some; congruence).
  rewrite Hlen in Li.
  destruct (Hnth i Li) as (_ & u1 & u2 & b' & _ & _ & Hb' & Hc).
  assert (b' = b) by congruence. subst b'.
  destruct Hc as (t1 & t2 & front & p1 & p2 & back & _ & _ & _ & _ & _ & _
                  & L5 & Hq).
  unfold plottable_boundary. apply forallb_forall. intros q Hin.
  destruct (In_nth_error _ _ Hin) as [k Hk].
  assert (Lk : (k < 5)%nat)
    by (rewrite <- L5; apply nth_error_Some; congruence).
  destruct (Hq k Lk) as (q' & Hq' & Hs).
  assert (q' = q) by congruence. subst q'.
  destruct Hs as (la1 & lo1 & la2 & lo2 & la & lo & el & _ & _ & _ & _
                  & -> & _).
  reflexivity.
Qed.

Lemma features_plottable (s : SurveyData) (fs : list StructuralFeature) :
  _identify_structural_features s = Ok fs ->
  forallb has_lat_lon (get_default (sd_coordinates s) []) = true ->
  forallb plottable_feature fs = true.
Proof.
  intros H Hll. rewrite forallb_forall in Hll.
  destruct (identify_structural_features_spec s) as [Hshort Hlong].
  destruct (le_lt_dec 2 (List.length (get_default (sd_coordinates s) [])))
    as [L|L].
  - destruct (Hlong L) as (i & a & b & m & Ha & Hb & _ & _ & _ & E).
    rewrite E in H. inversion H; subst fs.
    destruct (Qgtb m 50); [|reflexivity].
    unfold plottable_feature. simpl.
    rewrite (Hll a (nth_error_In _ _ Ha)), (Hll b (nth_error_In _ _ Hb)).
    reflexivity.
  - rewrite (Hshort L) in H. inversion H. reflexivity.
Qed.

Lemma units_plottable (kb : KnowledgeBase) (s : SurveyData)
    (gs : list GeologicalUnit) :
  _identify_units kb s = Ok gs ->
  forallb plottable_unit
    (map (fun u => {| unit_type := Some (gu_type u);
                      unit_coordinates := Some (gu_coordinates u);
                      unit_description := Some (gu_description u) |}) gs)
  = forallb
      (fun u => forallb has_lat_lon (get_default (unit_coordinates u) []))
      (get_default (sd_units s) []).
Proof.
  intros H. destruct (identify_units_spec kb s gs H) as [Hlen Hnth].
  apply eq_true_iff_eq. rewrite !forallb_forall. split.
  - intros Hg u Hu. destruct (In_nth_error _ _ Hu) as [i Hi].
    destruct (Hnth i u Hi) as (_ & g & Hgi & _ & C & _). rewrite C. simpl.
    specialize (Hg {| unit_type := Some (gu_type g);
                      unit_coordinates := Some (gu_coordinates g);
                      unit_description := Some (gu_description g) |}).
    unfold plottable_unit in Hg. simpl in Hg. apply Hg.
    apply in_map_iff. exists g. split; [reflexivity|].
    apply (nth_error_In _ _ Hgi).
  - intros Hu x Hx. apply in_map_iff in Hx. destruct Hx as (g & <- & Hg).
    destruct (In_nth_error _ _ Hg) as [i Hi].
    assert (Li : (i < List.length (get_default (sd_units s) []))%nat)
      by (rewrite <- Hlen; apply nth_error_Some; congruence).
    destruct (nth_error (get_default (sd_units s) []) i) as [u|] eqn:E;
      [|apply nth_error_None in E; lia].
    destruct (Hnth i u E) as (_ & g' & Hgi & _ & C & _).
    assert (g' = g) by congruence. subst g'.
    specialize (Hu u (nth_error_In _ _ E)). rewrite C in Hu.
    unfold plottable_unit. simpl. exact Hu.
Qed.

Lemma processed_renderable (kb : KnowledgeBase) (s : SurveyData)
    (p : ProcessedMap) :
  process_survey_data kb s = Ok p -> renderable (map_data_of p) = located s.
Proof.
  intros H. destruct (process_ok_inv kb s p H) as (U & B & F & C).
  unfold renderable, located, map_data_of. simpl. rewrite C.
  rewrite (units_plottable kb s _ U), (boundaries_plottable s _ B).
  rewrite andb_true_r.
  destruct (get_default (sd_coordinates s) []) as [|c cs] eqn:E;
    [reflexivity|].
  change (has_lat_lon c && forallb has_lat_lon cs)
    with (forallb has_lat_lon (c :: cs)).
  destruct (forallb has_lat_lon (c :: cs)) eqn:Hll; [|reflexivity].
  rewrite (features_plottable s _ F), andb_true_r; [reflexivity|].
  rewrite E. exact Hll.
Qed.

Lemma complete_survey_renderable (self : SurveyManager) (kb : KnowledgeBase)
    (sid : string) (survey : Survey) :
  _get_survey self sid = Some survey ->
  survey_coordinates survey <> [] ->
  forallb has_lat_lon (survey_coordinates survey) = true ->
  well_placed (survey_coordinates survey) (descriptions survey) = true ->
  exists survey_data processed,
    get_survey_for_mapping self sid = Ok (Some survey_data) /\
    process_survey_data kb survey_data = Ok processed /\
    renderable (map_data_of processed) = true.
Proof.
  intros Hs Hne Hll Hw.
  destruct (mapped_survey_units self sid survey Hs Hw)
    as (us & E & _ & Hus).
  set (sd := {| sd_coordinates := Some (survey_coordinates survey);
                sd_units := Some us |}) in *.
  destruct (process_total kb sd
              (one_point_units_processable _ us Hll Hus)) as [p Hp].
  exists sd, p. split; [exact E|]. split; [exact Hp|].
  rewrite (processed_renderable kb _ _ Hp).
  unfold located, sd. cbn [sd_coordinates sd_units get_default].
  destruct (survey_coordinates survey) as [|c cs] eqn:C; [congruence|].
  rewrite Hll. cbn [andb]. apply forallb_forall. intros u Hu.
  rewrite Forall_forall in Hus.
  destruct (Hus u Hu) as (ty & pt & _ & -> & Hin). simpl.
  rewrite forallb_forall in Hll. rewrite (Hll pt Hin). reflexivity.
Qed.

Lemma first_index_well_placed (points : list Coordinate) (sid : string)
    (ops : list operation) :
  points <> [] ->
  (forall target description location_index,
     In (AddDescription target description location_index) ops ->
     location_index = 0%Z) ->
  well_placed points (aimed_at sid ops) = true.
Proof.
  intros Hne H0. unfold well_placed, typed. apply forallb_forall.
  intros d Hd. apply filter_In in Hd. destruct Hd as [Hd _].
  unfold aimed_at in Hd. apply in_flat_map in Hd.
  destruct Hd as (op & Hop & Hd).
  destruct op as [cs f today|target description location_index];
    [destruct Hd|].
  destruct (String.eqb target sid); [|destruct Hd].
  destruct Hd as [<-|[]]. simpl.
  rewrite (H0 _ _ _ Hop). unfold indexes.
  destruct points as [|p ps]; [congruence|]. apply andb_true_iff.
  split; [apply Z.leb_le|apply Z.ltb_lt]; simpl List.length; lia.
Qed.

Section GenerateMap.

Variable raises : list call -> call -> option exn.
Variable output_dir : string.
Variable arctan2_degrees : Q -> Q -> Q.
Variable str_of_number : Q -> string.

Local Abbreviation generate :=
  (generate_detailed_map raises output_dir arctan2_degrees str_of_number).
Local Abbreviation command :=
  (generate_map_command raises output_dir arctan2_degrees str_of_number).
Local Abbreviation the_file :=
  (output_dir ++ "/" ++ "geological_map_" ++ "survey" ++ ".png").

Lemma command_outcome (survey_manager : SurveyManager) (kb : KnowledgeBase)
    (sid : string) (t : list call) :
  command survey_manager kb sid t =
    match get_survey_for_mapping survey_manager sid with
    | Raise e => (Raise e, t)
    | Ok None => (Ok None, t)
    | Ok (Some survey_data) =>
        match process_survey_data kb survey_data with
        | Raise e => (Raise e, t)
        | Ok processed =>
            match generate (map_data_of processed) t with
            | (Ok fig, t') => (Ok (Some fig), t')
            | (Raise e, t') => (Raise e, t')
            end
        end
    end.
Proof.
  unfold generate_map_command.
  destruct (get_survey_for_mapping survey_manager sid) as [[sd|]|e];
    [|reflexivity|reflexivity].
  rewrite (bindR_lift_ok _ _ _ (Some sd) eq_refl).
  destruct (process_survey_data kb sd) as [p|e]; [|reflexivity].
  rewrite (bindR_lift_ok _ _ _ p eq_refl).
  unfold bindR, ret.
  destruct (generate (map_data_of p) t) as [[fig|e] t']; reflexivity.
Qed.

(** X17. What the command does, whatever the library does.  For an id
    that is not stored it calls nothing and returns nothing.  An
    exception of [get_survey_for_mapping] or of [process_survey_data]
    is not caught: it ends the command before any library call.  And
    every map that is saved is saved to the same file,
    [geological_map_survey.png] in the output directory, whichever
    survey it shows: the processed data carries no ["id"], so the
    renderer falls back on its default name. *)
Theorem generate_map_command_outcomes (survey_manager : SurveyManager)
    (kb : KnowledgeBase) (sid : string) (trace : list call) :
  let outcome := command survey_manager kb sid trace in
  (_get_survey survey_manager sid = None -> outcome = (Ok None, trace)) /\
  (forall e,
     get_survey_for_mapping survey_manager sid = Raise e ->
     outcome = (Raise e, trace)) /\
  (forall survey_data e,
     get_survey_for_mapping survey_manager sid = Ok (Some survey_data) ->
     process_survey_data kb survey_data = Raise e ->
     outcome = (Raise e, trace)) /\
  (forall path,
     fst outcome = Ok (Some (Some path)) ->
     path = the_file /\ In (fig_savefig path) (snd outcome)).
Proof.
  intros outcome. unfold outcome. rewrite command_outcome.
  split; [|split; [|split]].
  - intros H. unfold get_survey_for_mapping. rewrite H. reflexivity.
  - intros e ->. reflexivity.
  - intros sd e -> ->. reflexivity.
  - intros path.
    destruct (get_survey_for_mapping survey_manager sid) as [[sd|]|e];
      [|discriminate|discriminate].
    destruct (process_survey_data kb sd) as [p|e]; [|discriminate].
    rewrite generate_outcome.
    destruct (draw_and_save raises output_dir arctan2_degrees str_of_number
                (map_data_of p) trace) as [[path'|e] t'] eqn:D; simpl;
      [|discriminate].
    intros H. inversion H; subst path'.
    destruct (draw_path raises output_dir arctan2_degrees str_of_number
                _ _ _ _ D) as [Hp Hin].
    split; [exact Hp|]. apply in_or_app. left. exact Hin.
Qed.

Section Quiet.

Hypothesis quiet : forall t c, raises t c = None.

(** X18. The processor and the renderer in a row, when no library call
    fails.  If [process_survey_data] returns, the map of its result is
    saved exactly when the survey has at least one coordinate and every
    coordinate of the survey and of its units has a latitude and a
    longitude; the boundaries and the fault that processing adds never
    stand in the way.  Otherwise [generate_detailed_map] returns
    nothing: so it does, in particular, for a survey that has units but
    no coordinates of its own. *)
Theorem processed_survey_is_drawn_iff_located (kb : KnowledgeBase)
    (survey_data : SurveyData) (processed : ProcessedMap)
    (trace : list call) :
  process_survey_data kb survey_data = Ok processed ->
  (located survey_data = true ->
     fst (generate (map_data_of processed) trace) = Ok (Some the_file)) /\
  (located survey_data = false ->
     fst (generate (map_data_of processed) trace) = Ok None).
Proof.
  intros H. rewrite <- (processed_renderable kb _ _ H).
  rewrite generate_outcome.
  destruct (draw_quiet_outcome raises output_dir arctan2_degrees
              str_of_number quiet (map_data_of processed) trace)
    as [Hyes Hno].
  split; intros R.
  - destruct (Hyes R) as (t' & -> & _). reflexivity.
  - destruct (Hno R) as (e & t' & ->). reflexivity.
Qed.

(** X19. From the store to the file, when no library call fails.  For a
    stored survey with at least one point, a latitude and a longitude
    on every point, and descriptions that, if they have an inferred
    type, refer to points that exist, the command saves a map: the three calls complete, the renderer
    returns the path of the file, and [savefig] has been called on
    it. *)
Theorem stored_survey_is_mapped (survey_manager : SurveyManager)
    (kb : KnowledgeBase) (sid : string) (survey : Survey)
    (trace : list call) :
  _get_survey survey_manager sid = Some survey ->
  survey_coordinates survey <> [] ->
  forallb has_lat_lon (survey_coordinates survey) = true ->
  well_placed (survey_coordinates survey) (descriptions survey) = true ->
  fst (command survey_manager kb sid trace) = Ok (Some (Some the_file)) /\
  In (fig_savefig the_file) (snd (command survey_manager kb sid trace)).
Proof.
  intros Hs Hne Hll Hw.
  destruct (complete_survey_renderable survey_manager kb sid survey
              Hs Hne Hll Hw) as (sd & p & E & Hp & L).
  destruct (draw_quiet_outcome raises output_dir arctan2_degrees
              str_of_number quiet (map_data_of p) trace) as [Hyes _].
  destruct (Hyes L) as (t' & D & Hin).
  rewrite command_outcome, E, Hp, generate_outcome, D. simpl.
  split; [reflexivity|]. apply in_or_app. left. exact Hin.
Qed.

(** X20. A survey stays mappable.  Take a store whose ids are
    [survey_001], [survey_002], ... in order, and create a survey with
    at least one point and a latitude and a longitude on every point.
    Then, after any further [create_survey] and [add_description]
    calls, on this survey or on others, the command still saves its
    map when no library call fails, provided the descriptions that were
    added to it and have an inferred type refer to points that exist.
    They always do when every call passes the index 0, as [app.py]
    does. *)
Theorem created_survey_stays_mappable (self : SurveyManager)
    (coordinates : list Coordinate) (formation : option string)
    (today : string) (ops : list operation) (kb : KnowledgeBase)
    (trace : list call) :
  let sid := fst (create_survey self coordinates formation today) in
  let later :=
    fst (run (snd (create_survey self coordinates formation today)) ops) in
  ids self = numbered_ids (List.length (ids self)) ->
  coordinates <> [] ->
  forallb has_lat_lon coordinates = true ->
  ((forall target description location_index,
      In (AddDescription target description location_index) ops ->
      location_index = 0%Z) ->
   well_placed coordinates (aimed_at sid ops) = true) /\
  (well_placed coordinates (aimed_at sid ops) = true ->
   fst (command later kb sid trace) = Ok (Some (Some the_file)) /\
   In (fig_savefig the_file) (snd (command later kb sid trace))).
Proof.
  intros sid later I Hne Hll.
  split; [apply first_index_well_placed; exact Hne|]. intros Hw.
  pose proof (created_survey_lookup self coordinates formation today I)
    as F. fold sid in F.
  destruct (run_extends ops _ sid _ F) as (survey' & H' & C' & D').
  fold later in H'. simpl in C', D'.
  destruct (complete_survey_renderable later kb sid survey' H')
    as (sd & p & E & Hp & L);
    [rewrite C'; exact Hne|rewrite C'; exact Hll
    |rewrite C', D'; exact Hw|].
  destruct (draw_quiet_outcome raises output_dir arctan2_degrees
              str_of_number quiet (map_data_of p) trace) as [Hyes _].
  destruct (Hyes L) as (t' & D & Hin).
  rewrite command_outcome, E, Hp, generate_outcome, D. simpl.
  split; [reflexivity|]. apply in_or_app. left. exact Hin.
Qed.

End Quiet.

End GenerateMap.

(** The survey of the sample manager, described at its first and at its
    last point: two units and the contact between them. *)
Lemma mapped_survey_is_processed_witness :
  exists survey_data processed,
    get_survey_for_mapping described_manager "survey_001"
    = Ok (Some survey_data) /\
    process_survey_data sample_kb survey_data = Ok processed /\
    List.length (units processed) = 2%nat /\
    List.length (boundaries processed) = 1%nat.
Proof.
  assert (S : _get_survey described_manager "survey_001"
              = Some described_survey) by (vm_compute; reflexivity).
  assert (L : forallb has_lat_lon (survey_coordinates described_survey)
              = true) by (vm_compute; reflexivity).
  assert (W : well_placed (survey_coordinates described_survey)
                (descriptions described_survey) = true)
    by (vm_compute; reflexivity).
  destruct (mapped_survey_is_processed described_manager sample_kb
              "survey_001" described_survey S L W)
    as (sd & p & E & Hp & _ & Lu & Lb & _).
  exists sd, p. split; [exact E|]. split; [exact Hp|].
  split; [exact Lu|exact Lb].
Defined.

(** An id that is not stored, and the file that the map of [survey_001]
    goes to. *)
Lemma generate_map_command_outcomes_witness :
  generate_map_command never_raises "output" (fun _ _ => 0) (fun _ => "?")
    described_manager sample_kb "survey_009" []
  = (Ok None, []) /\
  In (fig_savefig "output/geological_map_survey.png")
    (snd (generate_map_command never_raises "output" (fun _ _ => 0)
            (fun _ => "?") described_manager sample_kb "survey_001" [])).
Proof.
  destruct (generate_map_command_outcomes never_raises "output"
              (fun _ _ => 0) (fun _ => "?") described_manager sample_kb
              "survey_009" []) as (Hnone & _).
  destruct (generate_map_command_outcomes never_raises "output"
              (fun _ _ => 0) (fun _ => "?") described_manager sample_kb
              "survey_001" []) as (_ & _ & _ & Hpath).
  split; [apply Hnone; vm_compute; reflexivity|].
  apply (Hpath "output/geological_map_survey.png").
  vm_compute. reflexivity.
Defined.

(** The sample survey is processed and drawn. *)
Lemma processed_survey_is_drawn_iff_located_witness :
  exists processed,
    process_survey_data sample_kb sample_survey = Ok processed /\
    fst (generate_detailed_map never_raises "output" (fun _ _ => 0)
           (fun _ => "?") (map_data_of processed) [])
    = Ok (Some "output/geological_map_survey.png").
Proof.
  destruct (process_survey_data sample_kb sample_survey) as [p|e] eqn:E;
    [|vm_compute in E; discriminate E].
  exists p. split; [reflexivity|].
  apply (processed_survey_is_drawn_iff_located never_raises "output"
           (fun _ _ => 0) (fun _ => "?") (fun _ _ => eq_refl)
           sample_kb sample_survey p [] E).
  vm_compute. reflexivity.
Defined.

Lemma stored_survey_is_mapped_witness :
  fst (generate_map_command never_raises "output" (fun _ _ => 0)
         (fun _ => "?") described_manager sample_kb "survey_001" [])
  = Ok (Some (Some "output/geological_map_survey.png")).
Proof.
  assert (S : _get_survey described_manager "survey_001"
              = Some described_survey) by (vm_compute; reflexivity).
  assert (N : survey_coordinates described_survey <> []) by discriminate.
  assert (L : forallb has_lat_lon (survey_coordinates described_survey)
              = true) by (vm_compute; reflexivity).
  assert (W : well_placed (survey_coordinates described_survey)
                (descriptions described_survey) = true)
    by (vm_compute; reflexivity).
  destruct (stored_survey_is_mapped never_raises "output" (fun _ _ => 0)
              (fun _ => "?") (fun _ _ => eq_refl) described_manager
              sample_kb "survey_001" described_survey [] S N L W)
    as [R _].
  exact R.
Defined.

(** A new survey over the sample track in an empty store, described
    twice at the index 0 while another survey is created. *)
Lemma created_survey_stays_mappable_witness :
  fst (generate_map_command never_raises "output" (fun _ _ => 0)
         (fun _ => "?")
         (fst (run (snd (create_survey (empty_manager sample_kb None)
                           sample_track None "2024-05-01"))
                 [ AddDescription "survey_001" "This is granite" 0;
                   CreateSurvey [] None "2024-05-02";
                   AddDescription "survey_001" "reacts with acid" 0 ]))
         sample_kb "survey_001" [])
  = Ok (Some (Some "output/geological_map_survey.png")).
Proof.
  assert (I : ids (empty_manager sample_kb None)
              = numbered_ids (List.length (ids (empty_manager sample_kb None))))
    by reflexivity.
  assert (N : sample_track <> []) by discriminate.
  assert (L : forallb has_lat_lon sample_track = true)
    by (vm_compute; reflexivity).
  destruct (created_survey_stays_mappable never_raises "output"
              (fun _ _ => 0) (fun _ => "?") (fun _ _ => eq_refl)
              (empty_manager sample_kb None) sample_track None "2024-05-01"
              [ AddDescription "survey_001" "This is granite" 0;
                CreateSurvey [] None "2024-05-02";
                AddDescription "survey_001" "reacts with acid" 0 ]
              sample_kb [] I N L) as [Hzero Hsaved].
  destruct Hsaved as [R _]; [|exact R].
  apply Hzero. intros target description location_index Hin.
  destruct Hin as [E|[E|[E|[]]]]; inversion E; reflexivity.
Defined.

(* ===================================================================== *)
(** * What the renderer adds to the trace *)
(* ===================================================================== *)

Lemma emits_ret {A : Type} (Q : call -> Prop) (a : A) : emits Q (ret a).
Proof.
  intros t r t' H. unfold ret in H. inversion H; subst.
  exists []. rewrite app_nil_r. auto.
Qed.

Lemma emits_lift {A : Type} (Q : call -> Prop) (m : result A) :
  emits Q (lift m).
Proof.
  intros t r t' H. unfold lift in H. inversion H; subst.
  exists []. rewrite app_nil_r. auto.
Qed.

Lemma emits_quiet (Q : call -> Prop) (c : call) : Q c -> emits Q (quiet c).
Proof.
  intros Hc t r t' H. unfold quiet in H. inversion H; subst.
  exists [c]. auto.
Qed.

Lemma emits_bind {A B : Type} (Q : call -> Prop) (m : render A)
    (k : A -> render B) :
  emits Q m -> (forall a, emits Q (k a)) -> emits Q (bindR m k).
Proof.
  intros Hm Hk t r t' H. unfold bindR in H.
  destruct (m t) as [[a|e] t1] eqn:E.
  - destruct (Hm _ _ _ E) as (c1 & -> & F1).
    destruct (Hk a _ _ _ H) as (c2 & -> & F2).
    exists (c1 ++ c2)%list. rewrite app_assoc. split; [reflexivity|].
    apply Forall_app. auto.
  - inversion H; subst. apply (Hm _ _ _ E).
Qed.

Lemma emits_for_each_do {A : Type} (Q : call -> Prop) (f : A -> render unit)
    (xs : list A) :
  (forall x, In x xs -> emits Q (f x)) -> emits Q (for_each_do f xs).
Proof.
  induction xs as [|x xs IH]; intros H; simpl.
  - apply emits_ret.
  - apply emits_bind; [apply H; left; reflexivity|].
    intros _. apply IH. intros y Hy. apply H. right. exact Hy.
Qed.

Lemma emits_try {A : Type} (Q : call -> Prop) (body : render A)
    (handler : exn -> render A) (final : render unit) :
  emits Q body -> (forall e, emits Q (handler e)) -> emits Q final ->
  emits Q (try_except_finally body handler final).
Proof.
  intros Hb Hh Hf t r t' H. unfold try_except_finally in H.
  assert (Mid : forall r1 t1,
            match body t with
            | (Ok a, t0) => (Ok a, t0)
            | (Raise e, t0) => handler e t0
            end = (r1, t1) ->
            exists calls, t1 = (t ++ calls)%list /\ Forall Q calls).
  { intros r1 t1 M. destruct (body t) as [[a|e] t0] eqn:E.
    - inversion M; subst. apply (Hb _ _ _ E).
    - destruct (Hb _ _ _ E) as (c1 & -> & F1).
      destruct (Hh e _ _ _ M) as (c2 & -> & F2).
      exists (c1 ++ c2)%list. rewrite app_assoc. split; [reflexivity|].
      apply Forall_app. auto. }
  destruct (match body t with
            | (Ok a, t0) => (Ok a, t0)
            | (Raise e, t0) => handler e t0
            end) as [r1 t1] eqn:M.
  destruct (Mid r1 t1 eq_refl) as (c1 & -> & F1).
  destruct (final (t ++ c1)%list) as [[u|e] t2] eqn:E;
    destruct (Hf _ _ _ E) as (c2 & -> & F2);
    inversion H; subst;
    exists (c1 ++ c2)%list; rewrite app_assoc; (split; [reflexivity|]);
    apply Forall_app; auto.
Qed.

Section Emitted.

Variable raises : list call -> call -> option exn.
Variable output_dir : string.
Variable arctan2_degrees : Q -> Q -> Q.
Variable str_of_number : Q -> string.

Variable Q : call -> Prop.
Hypothesis routine_calls : forall c, routine c = true -> Q c.

Lemma emits_ext (c : call) : Q c -> emits Q (ext raises c).
Proof.
  intros Hc t r t' H. unfold ext in H.
  destruct (raises t c); inversion H; subst; exists [c]; auto.
Qed.

(** Takes a [render] block apart, statement by statement. *)
Ltac emit :=
  repeat first
    [ apply emits_ret
    | apply emits_lift
    | apply emits_ext; first [apply routine_calls; reflexivity|assumption]
    | apply emits_bind; [|intros ?]
    | match goal with
      | |- emits _ (if ?c then _ else _) => destruct c
      end ].

Lemma create_figure_emits : emits Q (_create_figure raises).
Proof. unfold _create_figure. emit. Qed.

Lemma plot_boundary_emits (b : Boundary) : emits Q (_plot_boundary raises b).
Proof. unfold _plot_boundary. emit. Qed.

Lemma plot_feature_emits (f : StructuralFeature) :
  emits Q (_plot_structural_feature raises arctan2_degrees str_of_number f).
Proof. unfold _plot_structural_feature. emit. Qed.

Lemma decorations_emit (survey_id : string) :
  emits Q (_add_map_decorations raises survey_id).
Proof.
  unfold _add_map_decorations, _add_legend. emit.
Qed.

Lemma save_map_emits (survey_id : string) :
  Q (fig_savefig (output_dir ++ "/" ++ "geological_map_" ++ survey_id
                  ++ ".png")) ->
  emits Q (_save_map raises output_dir survey_id).
Proof. intros H. unfold _save_map. emit. Qed.

Lemma plot_unit_emits (u : Unit) :
  (forall xy color label, Q (plt_Polygon xy color label)) ->
  (forall x y s, Q (ax_text x y s None)) ->
  emits Q (_plot_unit raises u).
Proof.
  intros HP HT. unfold _plot_unit.
  emit; apply emits_ext; first [apply HP|apply HT].
Qed.

Lemma generate_emits (survey_data : MapData) :
  (forall u, In u (get_default (map_units survey_data) []) ->
     emits Q (_plot_unit raises u)) ->
  Q (fig_savefig
       (output_dir ++ "/" ++ "geological_map_"
        ++ get_default (map_id survey_data) "survey" ++ ".png")) ->
  emits Q (generate_detailed_map raises output_dir arctan2_degrees
             str_of_number survey_data).
Proof.
  intros Hu Hs. unfold generate_detailed_map. apply emits_try.
  - apply emits_bind; [|intros path; apply emits_ret].
    unfold draw_and_save.
    apply emits_bind; [apply create_figure_emits|intros _].
    apply emits_bind; [emit|intros _].
    apply emits_bind; [|intros _].
    { unfold _plot_geological_features. emit.
      - apply emits_for_each_do. exact Hu.
      - apply emits_for_each_do. intros b _. apply plot_boundary_emits.
      - apply emits_for_each_do. intros f _. apply plot_feature_emits. }
    apply emits_bind; [apply decorations_emit|intros _].
    apply save_map_emits. exact Hs.
  - intros e. apply emits_bind; [|intros _; apply emits_ret].
    apply emits_quiet. apply routine_calls. reflexivity.
  - apply emits_quiet. apply routine_calls. reflexivity.
Qed.

End Emitted.

Lemma emits_bind_lift {A B : Type} (Q : call -> Prop) (m : result A)
    (k : A -> render B) :
  (forall a, m = Ok a -> emits Q (k a)) -> emits Q (bindR (lift m) k).
Proof.
  intros Hk t r t' H. destruct m as [a|e].
  - apply (Hk a eq_refl t r t' H).
  - inversion H; subst. exists []. rewrite app_nil_r. auto.
Qed.

Lemma routine_writes_only (path : string) (c : call) :
  routine c = true -> writes_only path c.
Proof. destruct c; simpl; intros H; try exact I. discriminate H. Qed.

Lemma routine_drawn_as_point (c : call) :
  routine c = true -> drawn_as_point c.
Proof.
  destruct c as [| | | | | | | |x y s [r|]| | | | | | | | | | |]; simpl;
    intros H; try exact I; discriminate H.
Qed.

(** X21. [generate_detailed_map] writes one file at most: the only path
    that [savefig] is ever called with, on any data, whatever happens
    in the library and whether or not the call returns a path, is
    [geological_map_<id>.png] in the output directory, with "survey" in
    place of a missing id.  The calls made before are left as they
    were. *)
Theorem generate_writes_one_file
    (raises : list call -> call -> option exn) (output_dir : string)
    (arctan2_degrees : Q -> Q -> Q) (str_of_number : Q -> string)
    (survey_data : MapData) (trace : list call) :
  exists calls,
    snd (generate_detailed_map raises output_dir arctan2_degrees
           str_of_number survey_data trace) = (trace ++ calls)%list /\
    forall path,
      In (fig_savefig path) calls ->
      path = output_dir ++ "/" ++ "geological_map_"
             ++ get_default (map_id survey_data) "survey" ++ ".png".
Proof.
  set (file := output_dir ++ "/" ++ "geological_map_"
               ++ get_default (map_id survey_data) "survey" ++ ".png").
  assert (E : emits (writes_only file)
                (generate_detailed_map raises output_dir arctan2_degrees
                   str_of_number survey_data)).
  { apply generate_emits.
    - apply routine_writes_only.
    - intros u _. apply plot_unit_emits.
      + apply routine_writes_only.
      + intros xy color label. exact I.
      + intros x y s. exact I.
    - reflexivity. }
  destruct (generate_detailed_map raises output_dir arctan2_degrees
              str_of_number survey_data trace) as [r t'] eqn:G.
  destruct (E _ _ _ G) as (calls & -> & F).
  exists calls. split; [reflexivity|].
  intros path Hin. rewrite Forall_forall in F. apply (F _ Hin).
Qed.

Lemma plot_point_unit_emits (raises : list call -> call -> option exn)
    (u : Unit) (point : Coordinate) :
  unit_coordinates u = Some [point] ->
  emits drawn_as_point (_plot_unit raises u).
Proof.
  intros H. unfold _plot_unit.
  apply emits_bind_lift. intros ty _.
  apply emits_bind_lift. intros cs Hcs.
  rewrite H in Hcs. simpl in Hcs. inversion Hcs; subst cs.
  apply emits_bind_lift. intros xs Hx. apply lons_of_length in Hx.
  apply emits_bind_lift. intros ys Hy. apply lats_of_length in Hy.
  simpl in Hx, Hy.
  apply emits_bind.
  { apply emits_ext. simpl. rewrite length_combine, Hx, Hy. reflexivity. }
  intros _. apply emits_bind; [apply emits_ext; exact I|].
  intros _. rewrite Hx. simpl. apply emits_ret.
Qed.

Lemma mapping_ok_inv (self : SurveyManager) (sid : string)
    (survey_data : SurveyData) :
  get_survey_for_mapping self sid = Ok (Some survey_data) ->
  exists survey,
    _get_survey self sid = Some survey /\
    sd_coordinates survey_data = Some (survey_coordinates survey) /\
    Forall (one_point_unit (survey_coordinates survey))
      (get_default (sd_units survey_data) []).
Proof.
  unfold get_survey_for_mapping.
  destruct (_get_survey self sid) as [survey|] eqn:S; [|discriminate].
  destruct (units_of_descriptions_spec (survey_coordinates survey)
              (descriptions survey)) as [Hok Hbad].
  destruct (well_placed (survey_coordinates survey) (descriptions survey)).
  - destruct (Hok eq_refl) as (us & -> & Hus). simpl. intros H.
    inversion H; subst survey_data. exists survey. simpl.
    split; [reflexivity|]. split; [reflexivity|].
    apply (placed_units _ (typed (descriptions survey))); [|exact Hus].
    apply typed_is_truthy.
  - rewrite (Hbad eq_refl). discriminate.
Qed.

Lemma processed_point_units (kb : KnowledgeBase) (s : SurveyData)
    (p : ProcessedMap) (points : list Coordinate) :
  process_survey_data kb s = Ok p ->
  Forall (one_point_unit points) (get_default (sd_units s) []) ->
  forall g, In g (units p) -> exists point, gu_coordinates g = [point].
Proof.
  intros H Hus g Hg. destruct (process_ok_inv kb s p H) as (U & _).
  destruct (identify_units_spec kb s _ U) as [Hlen Hnth].
  destruct (In_nth_error _ _ Hg) as [i Hi].
  assert (Li : (i < List.length (get_default (sd_units s) []))%nat)
    by (rewrite <- Hlen; apply nth_error_Some; congruence).
  destruct (nth_error (get_default (sd_units s) []) i) as [u|] eqn:E;
    [|apply nth_error_None in E; lia].
  destruct (Hnth i u E) as (_ & g' & Hgi & _ & C & _).
  assert (g' = g) by congruence. subst g'.
  rewrite Forall_forall in Hus.
  destruct (Hus u (nth_error_In _ _ E)) as (ty & point & _ & C' & _).
  exists point. congruence.
Qed.

(** X22. On its way from the store to the map a unit is never more than
    a point.  In the command [--generate-map], whatever the survey, the
    knowledge base and the library do, every polygon that is drawn has
    exactly one vertex, and the label of a unit, which the renderer
    adds to units of more than two points, is never drawn: the units
    that [get_survey_for_mapping] makes have one coordinate each.  The
    calls made before the command are left as they were. *)
Theorem command_draws_units_as_points
    (raises : list call -> call -> option exn) (output_dir : string)
    (arctan2_degrees : Q -> Q -> Q) (str_of_number : Q -> string)
    (survey_manager : SurveyManager) (kb : KnowledgeBase) (sid : string)
    (trace : list call) :
  exists calls,
    snd (generate_map_command raises output_dir arctan2_degrees
           str_of_number survey_manager kb sid trace)
    = (trace ++ calls)%list /\
    (forall xy color label,
       In (plt_Polygon xy color label) calls -> List.length xy = 1%nat) /\
    (forall x y s, ~ In (ax_text x y s None) calls).
Proof.
  assert (Enough : forall t',
            (exists calls, t' = (trace ++ calls)%list
                           /\ Forall drawn_as_point calls) ->
            exists calls,
              t' = (trace ++ calls)%list /\
              (forall xy color label,
                 In (plt_Polygon xy color label) calls ->
                 List.length xy = 1%nat) /\
              (forall x y s, ~ In (ax_text x y s None) calls)).
  { intros t' (calls & -> & F). exists calls. rewrite Forall_forall in F.
    split; [reflexivity|]. split.
    - intros xy color label Hin. apply (F _ Hin).
    - intros x y s Hin. apply (F _ Hin). }
  apply Enough. rewrite command_outcome.
  assert (Nothing : exists calls, trace = (trace ++ calls)%list
                                  /\ Forall drawn_as_point calls)
    by (exists []; rewrite app_nil_r; auto).
  destruct (get_survey_for_mapping survey_manager sid) as [[sd|]|e] eqn:M;
    [|exact Nothing|exact Nothing].
  destruct (process_survey_data kb sd) as [p|e] eqn:P; [|exact Nothing].
  destruct (mapping_ok_inv _ _ _ M) as (survey & _ & _ & Hus).
  assert (E : emits drawn_as_point
                (generate_detailed_map raises output_dir arctan2_degrees
                   str_of_number (map_data_of p))).
  { apply generate_emits.
    - apply routine_drawn_as_point.
    - intros u Hu. unfold map_data_of in Hu. simpl in Hu.
      apply in_map_iff in Hu. destruct Hu as (g & <- & Hg).
      destruct (processed_point_units kb sd p _ P Hus g Hg) as [point C].
      apply (plot_point_unit_emits raises _ point). simpl. congruence.
    - exact I. }
  destruct (generate_detailed_map raises output_dir arctan2_degrees
              str_of_number (map_data_of p) trace) as [[fig|e] t'] eqn:G;
    apply (E _ _ _ G).
Qed.

(* ===================================================================== *)
(** * Lookups among duplicates; interpolation with any number of points *)
(* ===================================================================== *)










(* ===================================================================== *)
(** * A description, once added, is a unit of the map *)
(* ===================================================================== *)

Lemma units_of_descriptions_app (points : list Coordinate)
    (descs more : list Description) :
  units_of_descriptions points (descs ++ more) =
    (us <- units_of_descriptions points descs ;;
     us' <- units_of_descriptions points more ;;
     Ok (us ++ us')%list).
Proof.
  induction descs as [|d descs IH]; cbn [app units_of_descriptions].
  - cbn [bind]. destruct (units_of_descriptions points more); reflexivity.
  - destruct (truthy (inferred_type d)) as [ty|]; [|exact IH].
    destruct (index_int points (location_index d)) as [p|e];
      [|reflexivity].
    cbn [bind]. rewrite IH.
    destruct (units_of_descriptions points descs) as [us|e];
      [|reflexivity].
    cbn [bind].
    destruct (units_of_descriptions points more) as [us'|e]; reflexivity.
Qed.

(** X25. What [add_description] stores, [get_survey_for_mapping] gives
    back.  Take a survey that can be mapped.  After a description from
    which a type is inferred is added at an index that exists, the
    survey maps to the same coordinates and the same units as before
    followed by one more: the unit of the inferred type, with the text
    as its description, at the point the index selects.  After a
    description from which no type is inferred, the survey maps to
    exactly what it mapped to before. *)
Theorem added_description_becomes_last_unit (self : SurveyManager)
    (sid description : string) (location : Z) (survey : Survey)
    (us : list Unit) :
  let self' := snd (add_description self sid description location) in
  let points := survey_coordinates survey in
  _get_survey self sid = Some survey ->
  get_survey_for_mapping self sid =
    Ok (Some {| sd_coordinates := Some points; sd_units := Some us |}) ->
  (forall type_name,
     infer_type_from_description description = Some type_name ->
     indexes points location = true ->
     exists point,
       nth_error points
         (Z.to_nat (location mod Z.of_nat (List.length points)))
       = Some point /\
       get_survey_for_mapping self' sid =
         Ok (Some {| sd_coordinates := Some points;
                     sd_units :=
                       Some (us ++ [ {| unit_type := Some type_name;
                                        unit_coordinates := Some [point];
                                        unit_description :=
                                          Some description |} ])%list |})) /\
  (infer_type_from_description description = None ->
   get_survey_for_mapping self' sid = get_survey_for_mapping self sid).
Proof.
  intros self' points Hs Hm.
  set (entry := {| location_index := location;
                   text := description;
                   inferred_type :=
                     infer_type_from_description description |}).
  assert (F : _get_survey self' sid = Some (with_description survey entry)).
  { unfold self', _get_survey.
    rewrite (add_description_stored _ _ _ _ _ Hs).
    apply append_description_found. exact Hs. }
  assert (U : units_of_descriptions points (descriptions survey) = Ok us).
  { unfold get_survey_for_mapping in Hm. rewrite Hs in Hm. fold points in Hm.
    destruct (units_of_descriptions points (descriptions survey))
      as [us0|e]; [|discriminate Hm].
    simpl in Hm. inversion Hm. reflexivity. }
  assert (G : get_survey_for_mapping self' sid =
              (us' <- units_of_descriptions points [entry] ;;
               Ok (Some {| sd_coordinates := Some points;
                           sd_units := Some (us ++ us')%list |}))).
  { unfold get_survey_for_mapping. rewrite F.
    cbn [with_description survey_coordinates descriptions]. fold points.
    rewrite units_of_descriptions_app, U. cbn [bind].
    destruct (units_of_descriptions points [entry]); reflexivity. }
  split.
  - intros type_name Hi Hin.
    destruct (index_int_ok points location Hin) as (point & E & Hp).
    exists point. split; [exact Hp|]. rewrite G.
    cbn [units_of_descriptions entry inferred_type location_index text].
    rewrite infer_type_truthy, Hi, E. reflexivity.
  - intros Hi. rewrite G, Hm.
    cbn [units_of_descriptions entry inferred_type].
    rewrite infer_type_truthy, Hi. cbn [bind]. rewrite app_nil_r.
    reflexivity.
Qed.

(** Basalt at the last point of the track, added to the survey of the
    sample manager, which has no description yet. *)
Lemma added_description_becomes_last_unit_witness :
  get_survey_for_mapping
    (snd (add_description sample_manager "survey_001"
            "fine grained volcanic rock" (-1))) "survey_001"
  = Ok (Some {| sd_coordinates := Some sample_track;
                sd_units :=
                  Some [ {| unit_type := Some "Basalt";
                            unit_coordinates :=
                              Some [point (343 # 10) (-1178 # 10) 168];
                            unit_description :=
                              Some "fine grained volcanic rock" |} ] |}).
Proof.
  assert (S : _get_survey sample_manager "survey_001" =
              Some {| survey_id := "survey_001";
                      survey_coordinates := sample_track;
                      descriptions := []; formation := None;
                      date := "2024-05-01" |}) by (vm_compute; reflexivity).
  destruct (added_description_becomes_last_unit sample_manager "survey_001"
              "fine grained volcanic rock" (-1) _ [] S)
    as [Hadd _]; [vm_compute; reflexivity|].
  destruct (Hadd "Basalt") as (pt & Hp & E);
    [vm_compute; reflexivity|vm_compute; reflexivity|].
  vm_compute in Hp. inversion Hp; subst pt. exact E.
Defined.
